(** * Youtalk: the background media ingestion pipeline

    A shallow embedding of the pipeline of [src/app.py]
    ([update_video_download_status], [download_video_background],
    [DOWNLOAD_SEMAPHORE]) and [src/downloader.py]
    ([download_youtube_video], [validate_video_file], [repair_video_file],
    [extract_audio_from_video], [transcribe_audio] and its helpers).

    The Python code talks to the outside world all the time: the file
    system, [yt-dlp], [ffprobe], [ffmpeg], the speech recognisers and the
    MySQL server.  Every such call is modelled by an _observation_: the
    value the call returned or the exception it raised.  A function of the
    source becomes a function from the observations of its call sites to a
    computation in a small monad that threads the persisted job row and the
    trace of external calls, and that can raise.  Nothing is assumed about
    the observations, so a statement proved for all observations holds for
    whatever the tools answer, also for answers that no file system would
    give in that order.

    Conventions.  Strings are byte strings; on ASCII text their length,
    slices, white space and character classes are those of Python's
    [str], and what is stated about them for text beyond ASCII is stated
    for ASCII text.  Paths follow [posixpath].
    [len(audio)] and durations are integers in milliseconds.  Exceptions
    are the subclasses of [Exception]; logging and [print] leave no trace.
    An early [return] inside a block is modelled by an [option], in the
    way each definition says. *)

From Stdlib Require Import ZArith String List Lia Bool Ascii DecimalString.
From Equations Require Import Equations.
Import ListNotations.

Open Scope Z_scope.
Open Scope list_scope.
Open Scope string_scope.

(** ** Python strings *)

Module Py.

(** [needle in hay] *)
Fixpoint contains (needle hay : string) : bool :=
  String.prefix needle hay ||
  match hay with
  | EmptyString => false
  | String _ rest => contains needle rest
  end.

Definition startswith (pre s : string) : bool := String.prefix pre s.

Definition endswith (suf s : string) : bool :=
  let ls := String.length s in
  let lf := String.length suf in
  (lf <=? ls)%nat && String.eqb (String.substring (ls - lf) lf s) suf.

(** [s.endswith((a, b, c))] *)
Definition endswith_any (sufs : list string) (s : string) : bool :=
  existsb (fun suf => endswith suf s) sufs.

(** [str(n)] and [f"{n}"] for an integer *)
Definition str_of_int (n : Z) : string := NilZero.string_of_int (Z.to_int n).

(** Python truthiness of an optional string: [None] and [''] are false. *)
Definition truthy (o : option string) : bool :=
  match o with
  | None => false
  | Some s => negb (String.eqb s "")
  end.

(** The string behind an optional string that tested truthy. *)
Definition value (o : option string) : string :=
  match o with
  | Some s => s
  | None => EmptyString
  end.

Fixpoint interleave (sep s : string) : string :=
  match s with
  | EmptyString => sep
  | String c rest => sep ++ String c (interleave sep rest)
  end.

(** The scan of [str.replace]: left to right, matches do not overlap;
    [skip] counts the characters of a match still to be dropped. *)
Fixpoint replace_from (old new : string) (skip : nat) (s : string) : string :=
  match s with
  | EmptyString => EmptyString
  | String c rest =>
      match skip with
      | S k => replace_from old new k rest
      | O =>
          if String.prefix old s
          then new ++ replace_from old new (String.length old - 1) rest
          else String c (replace_from old new 0 rest)
      end
  end.

(** [s.replace(old, new)] *)
Definition replace (old new s : string) : string :=
  match old with
  | EmptyString => interleave new s
  | _ => replace_from old new 0 s
  end.

(** [s.rfind(c)] for a one-character [c]: the last index, or [-1]. *)
Fixpoint rfind_from (c : ascii) (i : Z) (found : Z) (s : string) : Z :=
  match s with
  | EmptyString => found
  | String d rest => rfind_from c (i + 1) (if Ascii.eqb d c then i else found) rest
  end.

Definition rfind (c : ascii) (s : string) : Z := rfind_from c 0 (-1) s.

(** [s[i:]] and [s[:i]] for [0 <= i] *)
Definition slice_from (i : Z) (s : string) : string :=
  String.substring (Z.to_nat i) (String.length s - Z.to_nat i) s.

Definition slice_to (i : Z) (s : string) : string :=
  String.substring 0 (Z.to_nat i) s.

Fixpoint filter_chars (p : ascii -> bool) (s : string) : string :=
  match s with
  | EmptyString => EmptyString
  | String c rest => if p c then String c (filter_chars p rest) else filter_chars p rest
  end.

Fixpoint all_chars (p : ascii -> bool) (s : string) : bool :=
  match s with
  | EmptyString => true
  | String c rest => p c && all_chars p rest
  end.

(** [str.split()] splits on runs of white space; only the number of words
    is used by the source.  [inword] tells whether the previous character
    belonged to a word. *)
Definition isspace (c : ascii) : bool :=
  let n := nat_of_ascii c in
  ((9 <=? n) && (n <=? 13) || (28 <=? n) && (n <=? 32))%nat.

Fixpoint lstrip (s : string) : string :=
  match s with
  | EmptyString => EmptyString
  | String c rest => if isspace c then lstrip rest else s
  end.

Fixpoint reverse_onto (acc s : string) : string :=
  match s with
  | EmptyString => acc
  | String c rest => reverse_onto (String c acc) rest
  end.

(** [s.strip()] *)
Definition strip (s : string) : string :=
  reverse_onto "" (lstrip (reverse_onto "" (lstrip s))).

Fixpoint count_words_from (inword : bool) (s : string) : nat :=
  match s with
  | EmptyString => 0%nat
  | String c rest =>
      if isspace c then count_words_from false rest
      else if inword then count_words_from true rest
      else S (count_words_from true rest)
  end.

Definition count_words (s : string) : nat := count_words_from false s.

(** [repr] of a string, for the ASCII range: the quote is the single
    quote unless the string has a single quote and no double quote;
    backslash, the chosen quote, newline, carriage return and tab are
    escaped with a backslash, the other control characters as [\xhh]. *)
Definition hex_digit (n : nat) : ascii :=
  match n with
  | 0 => "0" | 1 => "1" | 2 => "2" | 3 => "3" | 4 => "4" | 5 => "5"
  | 6 => "6" | 7 => "7" | 8 => "8" | 9 => "9" | 10 => "a" | 11 => "b"
  | 12 => "c" | 13 => "d" | 14 => "e" | _ => "f"
  end%nat%char.

Definition repr_char (quote c : ascii) : string :=
  let n := nat_of_ascii c in
  if Ascii.eqb c "\" then "\\"
  else if Ascii.eqb c quote then String "\" (String quote "")
  else if (n =? 10)%nat then "\n"
  else if (n =? 13)%nat then "\r"
  else if (n =? 9)%nat then "\t"
  else if ((n <? 32) || (n =? 127))%nat
       then String "\" (String "x" (String (hex_digit (n / 16)) (String (hex_digit (n mod 16)) "")))
  else String c "".

Fixpoint repr_chars (quote : ascii) (s : string) : string :=
  match s with
  | EmptyString => EmptyString
  | String c rest => repr_char quote c ++ repr_chars quote rest
  end.

Definition repr_str (s : string) : string :=
  let quote : ascii :=
    if contains "'" s && negb (contains (String (ascii_of_nat 34) "") s)
    then ascii_of_nat 34 else "'"%char in
  String quote (repr_chars quote s ++ String quote "").

Fixpoint join (sep : string) (l : list string) : string :=
  match l with
  | [] => ""
  | [x] => x
  | x :: rest => x ++ sep ++ join sep rest
  end.

(** [repr] of a list of strings, as an f-string renders it *)
Definition repr_list (l : list string) : string :=
  "[" ++ join ", " (map repr_str l) ++ "]".

End Py.

(** ** [os.path], POSIX flavour *)

Module OsPath.

(** [os.path.basename(p)]: what follows the last slash *)
Definition basename (p : string) : string :=
  Py.slice_from (Py.rfind "/" p + 1) p.

(** [os.path.splitext(p)]: the extension starts at the last dot of the
    last component, unless that component has only dots before it. *)
Definition splitext (p : string) : string * string :=
  let sepIndex := Py.rfind "/" p in
  let dotIndex := Py.rfind "." p in
  if (sepIndex <? dotIndex)%Z then
    let lead := String.substring (Z.to_nat (sepIndex + 1))
                  (Z.to_nat (dotIndex - (sepIndex + 1))) p in
    if Py.all_chars (fun c => Ascii.eqb c ".") lead
    then (p, "")
    else (Py.slice_to dotIndex p, Py.slice_from dotIndex p)
  else (p, "").

(** [os.path.join(a, b)] *)
Definition join (a b : string) : string :=
  if Py.startswith "/" b then b
  else if String.eqb a "" || Py.endswith "/" a then a ++ b
  else a ++ "/" ++ b.

End OsPath.


(** ** Exceptions and results

    Only subclasses of [Exception] are modelled: they are what the
    handlers of the source catch.  An exception carries its class, which
    the [except] clauses test, and its text, which the f-strings print. *)

Inductive exn_class : Type :=
| TimeoutExpired      (* subprocess.TimeoutExpired *)
| ImportError
| UnknownValueError   (* speech_recognition.UnknownValueError *)
| RequestError        (* speech_recognition.RequestError *)
| MySQLError          (* mysql.connector.Error *)
| UnboundLocalError
| OSError
| ZeroDivisionError
| OtherException.

Definition exn_class_eqb (a b : exn_class) : bool :=
  match a, b with
  | TimeoutExpired, TimeoutExpired | ImportError, ImportError
  | UnknownValueError, UnknownValueError | RequestError, RequestError
  | MySQLError, MySQLError | UnboundLocalError, UnboundLocalError
  | OSError, OSError | ZeroDivisionError, ZeroDivisionError
  | OtherException, OtherException => true
  | _, _ => false
  end.

Record exn : Type := Exn { exn_cls : exn_class; exn_str : string }.

(** What a call did: it returned a value or raised. *)
Inductive result (A : Type) : Type :=
| Returns (a : A)
| Raises (e : exn).

Arguments Returns {A} a.
Arguments Raises {A} e.

(** A finished subprocess: [subprocess.run(..., capture_output=True)] *)
Record CompletedProcess : Type := {
  returncode : Z;
  stdout : string;
  stderr : string
}.

(** ** The persisted job: one row of table [videos] *)

Inductive Status : Type := pending | downloading | completed | failed.

Record Row : Type := {
  download_status : Status;
  video_path : option string;
  audio_path : option string;
  transcript_path : option string;
  title : option string;
  description : option string
}.

(** One [col = %s] of the [SET] clause of an [UPDATE videos ... WHERE id = %s],
    with the value bound to it. *)
Inductive assignment : Type :=
| SetStatus (s : Status)
| SetVideoPath (p : option string)
| SetAudioPath (p : option string)
| SetTranscriptPath (p : option string)
| SetTitle (t : string)
| SetDescription (d : string).

Definition assign (r : Row) (a : assignment) : Row :=
  match a with
  | SetStatus s =>
      {| download_status := s; video_path := video_path r; audio_path := audio_path r;
         transcript_path := transcript_path r; title := title r; description := description r |}
  | SetVideoPath p =>
      {| download_status := download_status r; video_path := p; audio_path := audio_path r;
         transcript_path := transcript_path r; title := title r; description := description r |}
  | SetAudioPath p =>
      {| download_status := download_status r; video_path := video_path r; audio_path := p;
         transcript_path := transcript_path r; title := title r; description := description r |}
  | SetTranscriptPath p =>
      {| download_status := download_status r; video_path := video_path r; audio_path := audio_path r;
         transcript_path := p; title := title r; description := description r |}
  | SetTitle t =>
      {| download_status := download_status r; video_path := video_path r; audio_path := audio_path r;
         transcript_path := transcript_path r; title := Some t; description := description r |}
  | SetDescription d =>
      {| download_status := download_status r; video_path := video_path r; audio_path := audio_path r;
         transcript_path := transcript_path r; title := title r; description := Some d |}
  end.

(** The effect of a committed [UPDATE] on the row of the job. *)
Definition run_update (stmt : list assignment) (r : Row) : Row :=
  fold_left assign stmt r.

(** ** Files the pipeline writes *)

Inductive artifact : Type :=
| FormattedTranscript (text method : string)  (* format_transcript(text, method) *)
| CleanTranscript (text : string)
| WhisperTranscript (text : string)
| FailureRecord (error_message : string).     (* Status: FAILED *)

(** ** The trace of external calls *)

Inductive event : Type :=
| EvAcquire                                   (* DOWNLOAD_SEMAPHORE.acquire() *)
| EvRelease                                   (* DOWNLOAD_SEMAPHORE.release() *)
| EvExecute (stmt : list assignment)          (* cursor.execute(UPDATE ...) *)
| EvCommit                                    (* connection.commit() *)
| EvMetadata (link : string)                  (* yt-dlp --get-title, --get-description *)
| EvYtDlp (link folder : string)              (* the download itself *)
| EvValidate (path : string)                  (* validate_video_file(path) is entered *)
| EvMagic (path : string)                     (* the file type check is tried *)
| EvFfprobe (path : string)                   (* ffprobe -select_streams v:0 ... -of json *)
| EvFfprobeStreams (path : string)            (* ffprobe -show_streams -show_format *)
| EvRepair (path folder : string)             (* repair_video_file(path, folder) is entered *)
| EvFfmpegEncode (src dst : string)           (* ffmpeg -i src -c:v libx264 ... dst *)
| EvRemove (path : string)                    (* os.remove *)
| EvRename (src dst : string)                 (* os.rename *)
| EvExtractAudio (path folder : string)       (* extract_audio_from_video is entered *)
| EvFfmpegAudio (path folder : string)        (* extract_audio_with_ffmpeg *)
| EvPydub (path folder : string)              (* extract_audio_with_pydub *)
| EvSleep (seconds : Z)                       (* time.sleep *)
| EvTranscribe (path folder : string)         (* transcribe_audio is entered *)
| EvWhisper (path : string)                   (* whisper model.transcribe *)
| EvRecognize (path : string)                 (* recognizer.recognize_google *)
| EvExport (path : string)                    (* chunk.export *)
| EvWrite (path : string) (content : artifact). (* open(path, 'w') ... f.write *)

(** ** The monad: job row and trace threaded, exceptions raised *)

Record St : Type := { row : Row; trace : list event }.

Definition M (A : Type) : Type := St -> result A * St.

Definition ret {A} (a : A) : M A := fun s => (Returns a, s).

Definition raise {A} (e : exn) : M A := fun s => (Raises e, s).

Definition bind {A B} (m : M A) (k : A -> M B) : M B :=
  fun s =>
    match m s with
    | (Returns a, s') => k a s'
    | (Raises e, s') => (Raises e, s')
    end.

Notation "x <- m ;; k" := (bind m (fun x => k))
  (at level 61, m at next level, right associativity).
Notation "m ;;; k" := (bind m (fun _ => k))
  (at level 61, right associativity).

(** An observation made: the call returns or raises what was observed. *)
Definition observe {A} (r : result A) : M A := fun s => (r, s).

Definition emit (e : event) : M unit :=
  fun s => (Returns tt, {| row := row s; trace := (trace s ++ [e])%list |}).

Definition commit_update (stmt : list assignment) : M unit :=
  fun s => (Returns tt, {| row := run_update stmt (row s); trace := (trace s ++ [EvCommit])%list |}).

(** [try: m except Exception as e: h e] *)
Definition try_except {A} (m : M A) (h : exn -> M A) : M A :=
  fun s =>
    match m s with
    | (Raises e, s') => h e s'
    | r => r
    end.

(** [try: m except C as e: h e], for the classes [C] that [catches] accepts *)
Definition try_except_on {A} (catches : exn_class -> bool) (m : M A) (h : exn -> M A) : M A :=
  fun s =>
    match m s with
    | (Raises e, s') => if catches (exn_cls e) then h e s' else (Raises e, s')
    | r => r
    end.

(** [try: m finally: f]: an exception of [f] replaces the outcome of [m]. *)
Definition try_finally {A} (m : M A) (f : M unit) : M A :=
  fun s =>
    let (r, s') := m s in
    match f s' with
    | (Returns _, s'') => (r, s'')
    | (Raises e, s'') => (Raises e, s'')
    end.

(** ** [app.py]: the persistence interface of the pipeline *)

(** What the MySQL session of one call did.  [get_db_connection] swallows
    the connection error and returns [None]; the cursor, the statement and
    the commit can each raise. *)
Inductive DbObs : Type :=
| NoConnection
| CursorRaises (e : exn)
| ExecuteRaises (e : exn)
| CommitRaises (e : exn)
| Commits.

Definition get_db_connection (o : DbObs) : option unit :=
  match o with
  | NoConnection => None
  | _ => Some tt
  end.

(** [cursor = connection.cursor()]: the local [cursor] is bound on return. *)
Definition connection_cursor (o : DbObs) : M unit :=
  match o with
  | CursorRaises e => raise e
  | _ => ret tt
  end.

Definition cursor_execute (o : DbObs) (stmt : list assignment) : M unit :=
  match o with
  | ExecuteRaises e => raise e
  | _ => emit (EvExecute stmt)
  end.

(** [connection.commit()] makes the statement executed on the cursor
    durable; without it the row keeps its values. *)
Definition connection_commit (o : DbObs) (stmt : list assignment) : M unit :=
  match o with
  | CommitRaises e => raise e
  | _ => commit_update stmt
  end.

(** [cursor.close()] of the [finally] clause: when [connection.cursor()]
    raised, the local [cursor] was never bound. *)
Definition cursor_close (o : DbObs) : M unit :=
  match o with
  | CursorRaises _ =>
      raise (Exn UnboundLocalError
               "cannot access local variable 'cursor' where it is not associated with a value")
  | _ => ret tt
  end.

Definition is_mysql_error (c : exn_class) : bool := exn_class_eqb c MySQLError.

(** [video_path.replace('\\', '/')] when the argument is truthy *)
Definition fix_separators (p : option string) : option string :=
  if Py.truthy p then option_map (Py.replace "\" "/") p else p.

(** The [UPDATE] that the [if ... elif ... else] picks, by the truthiness
    of the three paths. *)
Definition status_update (status : Status)
    (video_path audio_path transcript_path : option string) : list assignment :=
  if Py.truthy video_path && Py.truthy audio_path && Py.truthy transcript_path then
    [SetStatus status; SetVideoPath video_path; SetAudioPath audio_path;
     SetTranscriptPath transcript_path]
  else if Py.truthy video_path && Py.truthy audio_path then
    [SetStatus status; SetVideoPath video_path; SetAudioPath audio_path]
  else if Py.truthy video_path then
    [SetStatus status; SetVideoPath video_path]
  else
    [SetStatus status].

Definition update_video_download_status (o : DbObs) (status : Status)
    (video_path audio_path transcript_path : option string) : M bool :=
  match get_db_connection o with
  | Some _ =>
      try_finally
        (try_except_on is_mysql_error
           (connection_cursor o ;;;
            let video_path := fix_separators video_path in
            let audio_path := fix_separators audio_path in
            let transcript_path := fix_separators transcript_path in
            let stmt := status_update status video_path audio_path transcript_path in
            cursor_execute o stmt ;;;
            connection_commit o stmt ;;;
            ret true)
           (fun _ => ret false))
        (cursor_close o)
  | None => ret false
  end.


Definition update_video_title (o : DbObs) (title : string) : M bool :=
  match get_db_connection o with
  | Some _ =>
      try_finally
        (try_except_on is_mysql_error
           (connection_cursor o ;;;
            cursor_execute o [SetTitle title] ;;;
            connection_commit o [SetTitle title] ;;;
            ret true)
           (fun _ => ret false))
        (cursor_close o)
  | None => ret false
  end.

Definition update_video_description (o : DbObs) (description : string) : M bool :=
  match get_db_connection o with
  | Some _ =>
      try_finally
        (try_except_on is_mysql_error
           (connection_cursor o ;;;
            cursor_execute o [SetDescription description] ;;;
            connection_commit o [SetDescription description] ;;;
            ret true)
           (fun _ => ret false))
        (cursor_close o)
  | None => ret false
  end.

(** ** [downloader.py]: the validator *)

(** One entry of the [streams] list of the JSON that [ffprobe] prints;
    both keys are optional ([s.get(...)]). *)
Record Stream : Type := {
  codec_type : option string;
  codec_name : option string
}.

(** [json.loads(result.stdout)], as far as the source reads it:
    [probe_data.get('streams')] *)
Record ProbeData : Type := { streams : option (list Stream) }.

(** What one call of [validate_video_file] observes. *)
Record ValidateObs : Type := {
  v_exists : bool;                          (* os.path.exists(video_path) *)
  v_getsize : result Z;                     (* os.path.getsize(video_path) *)
  v_magic : result string;                  (* import magic; magic.from_file(video_path, mime=True) *)
  v_ffprobe : result CompletedProcess;      (* the detailed probe *)
  v_json : result ProbeData;                (* json.loads of its output *)
  v_ffprobe_streams : result CompletedProcess (* the simpler probe *)
}.

Definition MIN_VIDEO_SIZE : Z := 1024000.

Definition is_video_stream (s : Stream) : bool :=
  match codec_type s with
  | Some t => String.eqb t "video"
  | None => false
  end.

(** [s.get(key, 'unknown')] *)
Definition get_or_unknown (v : option string) : string :=
  match v with
  | Some t => t
  | None => "unknown"
  end.

(** The optional file type check: [Some verdict] when it returns from the
    function, [None] when control falls through to the probe.  Both
    handlers only log. *)
Definition file_type_check (video_path : string) (o : ValidateObs)
  : M (option (bool * string)) :=
  try_except
    (emit (EvMagic video_path) ;;;
     file_type <- observe (v_magic o) ;;
     if negb (Py.startswith "video/" file_type)
        && negb (Py.startswith "application/octet-stream" file_type)
     then ret (Some (false, "Not a video file: " ++ file_type))
     else ret None)
    (fun _ => ret None).

Definition validate_video_file (video_path : string) (o : ValidateObs) : M (bool * string) :=
  emit (EvValidate video_path) ;;;
  try_except
    (if negb (v_exists o) then ret (false, "File not found") else
     file_size <- observe (v_getsize o) ;;
     if (file_size <? MIN_VIDEO_SIZE)%Z
     then ret (false, "File too small: " ++ Py.str_of_int file_size ++ " bytes") else
     early <- file_type_check video_path o ;;
     match early with
     | Some verdict => ret verdict
     | None =>
         emit (EvFfprobe video_path) ;;;
         result <- observe (v_ffprobe o) ;;
         if negb (returncode result =? 0)%Z then
           emit (EvFfprobeStreams video_path) ;;;
           simple_result <- observe (v_ffprobe_streams o) ;;
           if (returncode simple_result =? 0)%Z then
             if negb (Py.contains "codec_type=video" (stdout simple_result))
             then ret (false, "No video streams detected - file may be corrupted or contain only audio")
             else ret (true, "Video streams present but detailed validation failed")
           else ret (false, "FFprobe failed: " ++ stderr result)
         else
           probe_data <- observe (v_json o) ;;
           match streams probe_data with
           | None | Some [] => ret (false, "No streams found")
           | Some all_streams =>
               match filter is_video_stream all_streams with
               | [] =>
                   let stream_types := map (fun s => get_or_unknown (codec_type s)) all_streams in
                   ret (false, "No video streams detected. Available streams: "
                                 ++ Py.repr_list stream_types)
               | video_info :: _ =>
                   let codec := get_or_unknown (codec_name video_info) in
                   ret (true, "Valid " ++ codec ++ " video, " ++ Py.str_of_int file_size ++ " bytes")
               end
           end
     end)
    (fun e => ret (false, "Validation error: " ++ exn_str e)).

(** ** [downloader.py]: the repairer *)

(** [if os.path.exists(p): os.remove(p)] *)
Record CleanupObs : Type := {
  c_exists : bool;
  c_remove : result unit
}.

Definition remove_if_exists (path : string) (o : CleanupObs) : M unit :=
  if c_exists o then emit (EvRemove path) ;;; observe (c_remove o) else ret tt.

(** What one call of [repair_video_file] observes. *)
Record RepairObs : Type := {
  r_ffmpeg : result CompletedProcess;   (* subprocess.run(ffmpeg ..., timeout=600) *)
  r_exists : bool;                      (* os.path.exists(repaired_path) *)
  r_getsize : result Z;                 (* os.path.getsize(repaired_path) *)
  r_remove : result unit;               (* os.remove(video_path) *)
  r_rename : result unit;               (* os.rename(repaired_path, video_path) *)
  r_validate : ValidateObs;             (* validate_video_file(video_path) *)
  r_cleanup_small : CleanupObs;         (* the cleanup of an undersized output *)
  r_cleanup_failed : CleanupObs;        (* the cleanup after "Video repair failed" *)
  r_cleanup_handler : CleanupObs        (* the cleanup of either handler *)
}.

Definition repaired_path_of (video_path output_folder : string) : string :=
  let base_name := fst (OsPath.splitext (OsPath.basename video_path)) in
  OsPath.join output_folder (base_name ++ "_repaired.mp4").

Definition repair_video_file (video_path output_folder : string) (o : RepairObs)
  : M (bool * string) :=
  emit (EvRepair video_path output_folder) ;;;
  let repaired_path := repaired_path_of video_path output_folder in
  try_except
    (emit (EvFfmpegEncode video_path repaired_path) ;;;
     result <- observe (r_ffmpeg o) ;;
     replaced <-
       (if (returncode result =? 0)%Z && r_exists o then
          repaired_size <- observe (r_getsize o) ;;
          if (MIN_VIDEO_SIZE <? repaired_size)%Z then
            try_except
              (emit (EvRemove video_path) ;;;
               observe (r_remove o) ;;;
               emit (EvRename repaired_path video_path) ;;;
               observe (r_rename o) ;;;
               verdict <- validate_video_file video_path (r_validate o) ;;
               if fst verdict
               then ret (Some (true, video_path))
               else ret (Some (false, video_path)))
              (fun _ => ret (Some (true, repaired_path)))
          else
            remove_if_exists repaired_path (r_cleanup_small o) ;;;
            ret None
        else ret None) ;;
     match replaced with
     | Some answer => ret answer
     | None =>
         remove_if_exists repaired_path (r_cleanup_failed o) ;;;
         ret (false, video_path)
     end)
    (fun _ =>
       remove_if_exists repaired_path (r_cleanup_handler o) ;;;
       ret (false, video_path)).

(** ** [downloader.py]: the fetcher *)

(** A name of [os.listdir(output_folder)] with what [os.path.getsize]
    answers for it. *)
Record DirEntry : Type := {
  entry_name : string;
  entry_size : result Z
}.

(** What one call of [download_youtube_video] observes. *)
Record DownloadObs : Type := {
  d_makedirs : result unit;             (* os.makedirs(output_folder, exist_ok=True) *)
  d_ytdlp : result CompletedProcess;    (* subprocess.run(yt-dlp ..., timeout=600) *)
  d_listdir : result (list DirEntry);   (* os.listdir(output_folder) *)
  d_validate : ValidateObs;
  d_repair : RepairObs
}.

(** The loop over the directory: the first file with a video extension
    and more than the minimum size. *)
Fixpoint find_video_file (output_folder : string) (files : list DirEntry)
  : M (option string) :=
  match files with
  | [] => ret None
  | file :: rest =>
      let file_path := OsPath.join output_folder (entry_name file) in
      if Py.endswith_any [".mp4"; ".webm"; ".mkv"] (entry_name file) then
        file_size <- observe (entry_size file) ;;
        if (MIN_VIDEO_SIZE <? file_size)%Z
        then ret (Some file_path)
        else find_video_file output_folder rest
      else find_video_file output_folder rest
  end.

Definition is_timeout (c : exn_class) : bool := exn_class_eqb c TimeoutExpired.

Definition download_youtube_video (link output_folder : string) (o : DownloadObs)
  : M (bool * string) :=
  observe (d_makedirs o) ;;;
  try_except
    (emit (EvYtDlp link output_folder) ;;;
     result <- observe (d_ytdlp o) ;;
     if negb (returncode result =? 0)%Z
     then ret (false, "Download failed: " ++ stderr result) else
     files <- observe (d_listdir o) ;;
     video_file <- find_video_file output_folder files ;;
     match video_file with
     | Some video_file =>
         verdict <- validate_video_file video_file (d_validate o) ;;
         let (is_valid, message) := verdict in
         if negb is_valid then
           if Py.contains "No video streams" message
           then ret (false, "Downloaded file has no video streams: " ++ message) else
           answer <- repair_video_file video_file output_folder (d_repair o) ;;
           let (repaired, repaired_path) := answer in
           if repaired
           then ret (true, repaired_path)
           else ret (false, "Video file invalid and repair failed: " ++ message)
         else ret (true, video_file)
     | None => ret (false, "No valid video file found after download")
     end)
    (fun e =>
       if is_timeout (exn_cls e)
       then ret (false, "Download timed out")
       else ret (false, exn_str e)).

(** ** [downloader.py]: the audio extractor *)

Definition MIN_AUDIO_SIZE : Z := 1024.

Definition audio_path_of (video_path output_folder : string) : string :=
  let base_name := fst (OsPath.splitext (OsPath.basename video_path)) in
  OsPath.join output_folder (base_name ++ "_audio.wav").

(** What one call of [extract_audio_with_ffmpeg] observes. *)
Record FfmpegAudioObs : Type := {
  fa_stale : CleanupObs;                (* an audio file of an earlier run *)
  fa_ffmpeg : result CompletedProcess;  (* subprocess.run(ffmpeg -vn ..., timeout=120) *)
  fa_exists : bool;                     (* os.path.exists(audio_path_output) *)
  fa_getsize : result Z;
  fa_remove_small : result unit
}.

(** Every branch of a failed run returns [None]; so do both handlers. *)
Definition extract_audio_with_ffmpeg (video_path output_folder : string)
    (o : FfmpegAudioObs) : M (option string) :=
  emit (EvFfmpegAudio video_path output_folder) ;;;
  try_except
    (let audio_path_output := audio_path_of video_path output_folder in
     remove_if_exists audio_path_output (fa_stale o) ;;;
     result <- observe (fa_ffmpeg o) ;;
     if (returncode result =? 0)%Z then
       if fa_exists o then
         audio_size <- observe (fa_getsize o) ;;
         if (MIN_AUDIO_SIZE <? audio_size)%Z
         then ret (Some audio_path_output)
         else
           emit (EvRemove audio_path_output) ;;;
           observe (fa_remove_small o) ;;;
           ret None
       else ret None
     else ret None)
    (fun _ => ret None).

(** What one call of [extract_audio_with_pydub] observes. *)
Record PydubObs : Type := {
  pd_load : result Z;                   (* len(AudioSegment.from_file(video_path)) *)
  pd_convert : result unit;             (* video.set_channels(1).set_frame_rate(16000) *)
  pd_stale : CleanupObs;
  pd_export : result unit;              (* audio.export(audio_path_output, format="wav") *)
  pd_exists : bool;
  pd_getsize : result Z;
  pd_remove_small : result unit
}.

Definition extract_audio_with_pydub (video_path output_folder : string)
    (o : PydubObs) : M (option string) :=
  emit (EvPydub video_path output_folder) ;;;
  try_except
    (video_len <- observe (pd_load o) ;;
     if (video_len =? 0)%Z then ret None else
     observe (pd_convert o) ;;;
     let audio_path_output := audio_path_of video_path output_folder in
     remove_if_exists audio_path_output (pd_stale o) ;;;
     observe (pd_export o) ;;;
     emit (EvExport audio_path_output) ;;;
     if pd_exists o then
       audio_size <- observe (pd_getsize o) ;;
       if (MIN_AUDIO_SIZE <? audio_size)%Z
       then ret (Some audio_path_output)
       else
         emit (EvRemove audio_path_output) ;;;
         observe (pd_remove_small o) ;;;
         ret None
     else ret None)
    (fun _ => ret None).

(** What one attempt of [extract_audio_from_video] observes. *)
Record AttemptObs : Type := {
  a_exists : bool;                      (* os.path.exists(video_path) *)
  a_getsize : result Z;                 (* os.path.getsize(video_path) *)
  a_ffmpeg : FfmpegAudioObs;
  a_pydub : PydubObs
}.

Definition max_retries : nat := 2.
Definition retry_delay : Z := 2.

(** The body of the [for] loop for one [attempt]: [Some answer] when it
    returns from the function, [None] when the loop goes on. *)
Definition extract_audio_attempt (video_path output_folder : string)
    (attempt : nat) (o : AttemptObs) : M (option (option string)) :=
  try_except
    (if negb (a_exists o) then ret (Some None) else
     file_size <- observe (a_getsize o) ;;
     if (file_size <? MIN_VIDEO_SIZE)%Z then ret (Some None) else
     audio_path_ffmpeg <- extract_audio_with_ffmpeg video_path output_folder (a_ffmpeg o) ;;
     if Py.truthy audio_path_ffmpeg then ret (Some audio_path_ffmpeg) else
     audio_path_pydub <- extract_audio_with_pydub video_path output_folder (a_pydub o) ;;
     if Py.truthy audio_path_pydub then ret (Some audio_path_pydub) else
     if (attempt <? max_retries)%nat
     then emit (EvSleep retry_delay) ;;; ret None
     else ret (Some None))
    (fun _ =>
       if (attempt <? max_retries)%nat
       then emit (EvSleep retry_delay) ;;; ret None
       else ret (Some None)).

(** [for attempt in range(first, first + remaining)] *)
Fixpoint extract_audio_loop (video_path output_folder : string)
    (obs : nat -> AttemptObs) (attempt remaining : nat) : M (option string) :=
  match remaining with
  | O => ret None
  | S remaining' =>
      answer <- extract_audio_attempt video_path output_folder attempt (obs attempt) ;;
      match answer with
      | Some audio_path => ret audio_path
      | None => extract_audio_loop video_path output_folder obs (S attempt) remaining'
      end
  end.

Definition extract_audio_from_video (video_path output_folder : string)
    (obs : nat -> AttemptObs) : M (option string) :=
  emit (EvExtractAudio video_path output_folder) ;;;
  extract_audio_loop video_path output_folder obs 0 (max_retries + 1).

(** ** [downloader.py]: the transcriber *)

Definition transcript_base_name (audio_path : string) : string :=
  Py.replace "_audio" "" (fst (OsPath.splitext (OsPath.basename audio_path))).

Definition transcript_path_of (audio_path output_folder : string) : string :=
  OsPath.join output_folder (transcript_base_name audio_path ++ "_transcript.txt").

Definition clean_transcript_path_of (audio_path output_folder : string) : string :=
  OsPath.join output_folder (transcript_base_name audio_path ++ "_clean_transcript.txt").

Definition whisper_transcript_path_of (audio_path output_folder : string) : string :=
  OsPath.join output_folder (transcript_base_name audio_path ++ "_whisper_transcript.txt").

(** [with open(path, 'w', encoding='utf-8') as f: f.write(content)]:
    the event records a write that took place. *)
Definition write_file (path : string) (content : artifact) (w : result unit) : M unit :=
  observe w ;;;
  emit (EvWrite path content).

(** The text of the failure record, with the time stamp [now] of
    [datetime.now().strftime(...)]. *)
Definition newline : string := String (ascii_of_nat 10) "".

Definition error_content (now error_message : string) : string :=
  "=== VIDEO TRANSCRIPT ===" ++ newline ++
  "Generated on: " ++ now ++ newline ++
  "Status: FAILED" ++ newline ++
  newline ++
  "Error: " ++ error_message ++ newline ++
  newline ++
  "Note: This could be due to:" ++ newline ++
  "- No speech content in the audio" ++ newline ++
  "- Poor audio quality" ++ newline ++
  "- Network connectivity issues" ++ newline ++
  "- Service temporarily unavailable" ++ newline.

(** No handler here: a failing [open] raises to the caller. *)
Definition create_empty_transcript (audio_path output_folder error_message : string)
    (w : result unit) : M string :=
  let transcript_path := transcript_path_of audio_path output_folder in
  write_file transcript_path (FailureRecord error_message) w ;;;
  ret transcript_path.

(** [format_transcript]: the header prints [char_count/word_count], which
    raises when the text has no word.  The layout of the document (time
    stamps, one-decimal floats) is kept abstract in [FormattedTranscript]. *)
Definition format_transcript (text method : string) : M artifact :=
  if (Py.count_words text =? 0)%nat
  then raise (Exn ZeroDivisionError "division by zero")
  else ret (FormattedTranscript text method).

Record SaveObs : Type := {
  sv_write : result unit;               (* the annotated transcript *)
  sv_write_clean : result unit;         (* the plain text *)
  sv_write_error : result unit          (* the failure record of the handler *)
}.

Definition save_transcript (audio_path output_folder text method : string)
    (o : SaveObs) : M string :=
  try_except
    (let transcript_path := transcript_path_of audio_path output_folder in
     formatted_transcript <- format_transcript text method ;;
     write_file transcript_path formatted_transcript (sv_write o) ;;;
     write_file (clean_transcript_path_of audio_path output_folder)
                (CleanTranscript text) (sv_write_clean o) ;;;
     ret transcript_path)
    (fun e =>
       create_empty_transcript audio_path output_folder ("Save error: " ++ exn_str e)
         (sv_write_error o)).

(** What [transcribe_with_whisper] observes: the import, then the
    stripped [result['text']] of the model when there is one. *)
Record WhisperObs : Type := {
  wh_import : result unit;              (* import whisper *)
  wh_text : result (option string);     (* load_model, transcribe *)
  wh_write : result unit
}.

Definition is_import_error (c : exn_class) : bool := exn_class_eqb c ImportError.

Definition transcribe_with_whisper (audio_path output_folder : string)
    (o : WhisperObs) : M (option string) :=
  try_except
    (available <- try_except_on is_import_error
                    (observe (wh_import o) ;;; ret true) (fun _ => ret false) ;;
     if negb available then ret None else
     emit (EvWhisper audio_path) ;;;
     text <- observe (wh_text o) ;;
     if Py.truthy text then
       let transcript_path := whisper_transcript_path_of audio_path output_folder in
       write_file transcript_path (WhisperTranscript (Py.value text)) (wh_write o) ;;;
       ret (Some transcript_path)
     else ret None)
    (fun _ => ret None).

(** What [transcribe_short_audio] observes. *)
Record ShortObs : Type := {
  sh_record : result unit;              (* sr.AudioFile, adjust_for_ambient_noise, record *)
  sh_google : result string;            (* recognize_google(audio_data, language='en-US') *)
  sh_alternative : result (option string); (* show_all=True: the first alternative *)
  sh_save : SaveObs;
  sh_write_nospeech : result unit;
  sh_write_error : result unit
}.

Definition is_recognition_error (c : exn_class) : bool :=
  exn_class_eqb c UnknownValueError || exn_class_eqb c RequestError.

Definition transcribe_short_audio (audio_path output_folder : string)
    (o : ShortObs) : M string :=
  try_except
    (observe (sh_record o) ;;;
     text <- try_except_on is_recognition_error
               (emit (EvRecognize audio_path) ;;;
                t <- observe (sh_google o) ;;
                ret (Some t))
               (fun _ => ret None) ;;
     text <- (if negb (Py.truthy text) then
                try_except
                  (emit (EvRecognize audio_path) ;;;
                   alternative <- observe (sh_alternative o) ;;
                   match alternative with
                   | Some t => ret (Some t)
                   | None => ret text
                   end)
                  (fun _ => ret text)
              else ret text) ;;
     if Py.truthy text
     then save_transcript audio_path output_folder (Py.value text) "short" (sh_save o)
     else create_empty_transcript audio_path output_folder
            "No speech content detected" (sh_write_nospeech o))
    (fun e =>
       create_empty_transcript audio_path output_folder
         ("Short audio error: " ++ exn_str e) (sh_write_error o)).

(** *** Splitting long audio into chunks

    [len(audio)] is in milliseconds.  The [while] loop of
    [transcribe_long_audio], with [chunks] as its accumulator; a chunk
    [audio[start:end]] is kept as the pair of its bounds. *)

Definition chunk_length : Z := 15000.
Definition overlap : Z := 1000.

Equations? split_loop (audio_len start : Z) (chunks : list (Z * Z))
  : list (Z * Z) by wf (Z.to_nat (audio_len - start)) lt :=
  split_loop audio_len start chunks with Z_lt_dec start audio_len := {
    | left _ =>
        let end_ := (start + chunk_length)%Z in
        let end_ := if (audio_len <? end_)%Z then audio_len else end_ in
        split_loop audio_len (start + (chunk_length - overlap))%Z
                   (chunks ++ [(start, end_)])%list;
    | right _ => chunks }.
Proof. unfold chunk_length, overlap. lia. Qed.

Definition split_chunks (audio_len : Z) : list (Z * Z) := split_loop audio_len 0 [].

(** What the loop body observes for one chunk. *)
Record ChunkObs : Type := {
  k_export : result unit;               (* chunk.export(temp_chunk_path, format="wav") *)
  k_record : result unit;               (* sr.AudioFile, adjust_for_ambient_noise, record *)
  k_google : result string;             (* recognize_google(chunk_audio, language='en-US') *)
  k_cleanup : CleanupObs                (* the finally clause *)
}.

(** [for i, chunk in enumerate(chunks)], from index [i] on.  The export is
    outside the inner [try]; the three handlers of the inner [try] only
    log; the [finally] clause removes the temporary file. *)
Fixpoint transcribe_chunks (audio_path output_folder : string) (obs : nat -> ChunkObs)
    (i : nat) (chunks : list (Z * Z)) (all_texts : list string) : M (list string) :=
  match chunks with
  | [] => ret all_texts
  | _ :: rest =>
      let o := obs i in
      let temp_chunk_path :=
        OsPath.join output_folder ("temp_chunk_" ++ Py.str_of_int (Z.of_nat i) ++ ".wav") in
      observe (k_export o) ;;;
      emit (EvExport temp_chunk_path) ;;;
      all_texts <-
        try_finally
          (try_except
             (observe (k_record o) ;;;
              emit (EvRecognize temp_chunk_path) ;;;
              chunk_text <- observe (k_google o) ;;
              if Py.truthy (Some chunk_text)
              then ret (all_texts ++ [chunk_text])%list
              else ret all_texts)
             (fun _ => ret all_texts))
          (remove_if_exists temp_chunk_path (k_cleanup o)) ;;
      transcribe_chunks audio_path output_folder obs (S i) rest all_texts
  end.

(** What [transcribe_long_audio] observes. *)
Record LongObs : Type := {
  lg_load : result Z;                   (* len(AudioSegment.from_file(audio_path)) *)
  lg_chunk : nat -> ChunkObs;
  lg_save : SaveObs;
  lg_write_nospeech : result unit;
  lg_write_error : result unit
}.

Definition transcribe_long_audio (audio_path output_folder : string)
    (o : LongObs) : M string :=
  try_except
    (audio_len <- observe (lg_load o) ;;
     let chunks := split_chunks audio_len in
     all_texts <- transcribe_chunks audio_path output_folder (lg_chunk o) 0 chunks [] ;;
     match all_texts with
     | [] =>
         create_empty_transcript audio_path output_folder
           "No speech content detected in any chunks" (lg_write_nospeech o)
     | _ =>
         let full_text := Py.join " " all_texts in
         save_transcript audio_path output_folder full_text "chunked" (lg_save o)
     end)
    (fun e =>
       create_empty_transcript audio_path output_folder
         ("Long audio error: " ++ exn_str e) (lg_write_error o)).

(** What [transcribe_audio] observes.  [debug_audio_file] catches every
    exception and only logs: it leaves no observation. *)
Record TranscribeObs : Type := {
  t_exists : bool;                      (* os.path.exists(audio_path) *)
  t_whisper : WhisperObs;
  t_recognizer : result unit;           (* sr.Recognizer() *)
  t_duration : result Z;                (* len(AudioSegment.from_file(audio_path)), in ms *)
  t_short : ShortObs;
  t_long : LongObs;
  t_write_notfound : result unit;
  t_write_error : result unit           (* the failure record of the handler *)
}.

(** [duration_seconds > 30] with [duration_seconds = len(audio) / 1000] *)
Definition LONG_AUDIO_MS : Z := 30000.

Definition transcribe_audio (audio_path output_folder : string)
    (o : TranscribeObs) : M string :=
  emit (EvTranscribe audio_path output_folder) ;;;
  try_except
    (if negb (t_exists o) then
       create_empty_transcript audio_path output_folder "Audio file not found"
         (t_write_notfound o)
     else
       whisper_result <- transcribe_with_whisper audio_path output_folder (t_whisper o) ;;
       if Py.truthy whisper_result then ret (Py.value whisper_result) else
       observe (t_recognizer o) ;;;
       duration <- try_except (observe (t_duration o)) (fun _ => ret 0%Z) ;;
       if (LONG_AUDIO_MS <? duration)%Z
       then transcribe_long_audio audio_path output_folder (t_long o)
       else transcribe_short_audio audio_path output_folder (t_short o))
    (fun e =>
       create_empty_transcript audio_path output_folder
         ("Transcription error: " ++ exn_str e) (t_write_error o)).

(** ** [app.py]: the orchestrator *)

Definition BASE_DOWNLOAD_FOLDER : string := "static/downloads".

(** [get_video_folder(video_id)]: [os.makedirs(..., exist_ok=True)] can raise. *)
Definition get_video_folder (video_id : Z) (makedirs : result unit) : M string :=
  let video_folder := OsPath.join BASE_DOWNLOAD_FOLDER ("video_" ++ Py.str_of_int video_id) in
  observe makedirs ;;;
  ret video_folder.

(** The characters that the [re.sub] of the title removes: backslash,
    slash, star, question mark, colon, double quote, angle brackets, bar. *)
Definition invalid_filename_char (c : ascii) : bool :=
  existsb (Nat.eqb (nat_of_ascii c)) [92; 47; 42; 63; 58; 34; 60; 62; 124]%nat.

Definition get_video_title_from_youtube (link : string)
    (run : result CompletedProcess) : M (option string) :=
  try_except
    (emit (EvMetadata link) ;;;
     result <- observe run ;;
     if (returncode result =? 0)%Z then
       let title := Py.strip (stdout result) in
       let title := Py.filter_chars (fun c => negb (invalid_filename_char c)) title in
       ret (Some (Py.slice_to 100 title))
     else ret None)
    (fun _ => ret None).

Definition DEFAULT_DESCRIPTION : string := "Video description will be updated shortly...".

Definition get_video_description_from_youtube (link : string)
    (run : result CompletedProcess) : M string :=
  try_except
    (emit (EvMetadata link) ;;;
     result <- observe run ;;
     if (returncode result =? 0)%Z then
       let description := Py.strip (stdout result) in
       if Py.truthy (Some description) && (10 <? String.length description)%nat
       then ret (Py.slice_to 500 description)
       else ret DEFAULT_DESCRIPTION
     else ret DEFAULT_DESCRIPTION)
    (fun _ => ret DEFAULT_DESCRIPTION).

(** A name of [os.listdir(video_folder)] in the cleanup after a failed
    download. *)
Record PartialFile : Type := {
  pf_name : string;
  pf_isfile : bool;                     (* os.path.isfile(file_path) *)
  pf_remove : result unit               (* os.remove(file_path) *)
}.

Record CleanupDirObs : Type := {
  cd_makedirs : result unit;            (* get_video_folder(video_id), once more *)
  cd_exists : bool;                     (* os.path.exists(video_folder) *)
  cd_listdir : result (list PartialFile)
}.

Fixpoint remove_partial_files (video_folder : string) (files : list PartialFile) : M unit :=
  match files with
  | [] => ret tt
  | file :: rest =>
      let file_path := OsPath.join video_folder (pf_name file) in
      (if pf_isfile file
       then emit (EvRemove file_path) ;;; observe (pf_remove file)
       else ret tt) ;;;
      remove_partial_files video_folder rest
  end.

Definition cleanup_partial_files (video_id : Z) (o : CleanupDirObs) : M unit :=
  try_except
    (video_folder <- get_video_folder video_id (cd_makedirs o) ;;
     if cd_exists o then
       files <- observe (cd_listdir o) ;;
       remove_partial_files video_folder files
     else ret tt)
    (fun _ => ret tt).

(** What one run of [download_video_background] observes.  The updates of
    the status to [failed] and to [completed] inside the [try] block
    exclude each other (each is followed by a [return] or ends the block),
    so one observation, [w_db_final], serves whichever is reached. *)
Record World : Type := {
  w_makedirs : result unit;             (* get_video_folder(video_id) *)
  w_db_downloading : DbObs;             (* update_video_download_status(video_id, 'downloading') *)
  w_title : result CompletedProcess;    (* yt-dlp --get-title *)
  w_description : result CompletedProcess; (* yt-dlp --get-description *)
  w_db_title : DbObs;
  w_db_description : DbObs;
  w_download : DownloadObs;
  w_validate : ValidateObs;             (* validate_video_file(result) *)
  w_getsize : result Z;                 (* os.path.getsize(result) *)
  w_repair : RepairObs;
  w_revalidate : ValidateObs;           (* validate_video_file of the repaired file *)
  w_audio : nat -> AttemptObs;
  w_transcribe : TranscribeObs;
  w_db_final : DbObs;
  w_cleanup : CleanupDirObs;
  w_db_handler : DbObs                  (* the update of the outer handler *)
}.

(** [with DOWNLOAD_SEMAPHORE: m]: the slot is released however [m] ends. *)
Definition with_semaphore {A} (m : M A) : M A :=
  emit EvAcquire ;;;
  try_finally m (emit EvRelease).

(** The [if not is_valid:] block of the orchestrator: [None] when it
    returns from the function (the status is then [failed]), [Some result]
    when the run goes on with the file [result]. *)
Definition check_and_repair (result video_folder validation_message : string)
    (w : World) : M (option string) :=
  file_size <- observe (w_getsize w) ;;
  if (file_size <? 1024000)%Z then
    update_video_download_status (w_db_final w) failed None None None ;;;
    ret None
  else if Py.contains "No video streams" validation_message then
    update_video_download_status (w_db_final w) failed None None None ;;;
    ret None
  else
    answer <- repair_video_file result video_folder (w_repair w) ;;
    let (repaired, repaired_path) := answer in
    if repaired then
      let result := repaired_path in
      verdict <- validate_video_file result (w_revalidate w) ;;
      if negb (fst verdict) then
        update_video_download_status (w_db_final w) failed None None None ;;;
        ret None
      else ret (Some result)
    else
      update_video_download_status (w_db_final w) failed None None None ;;;
      ret None.

(** The [if success:] branch: validation, repair, audio, transcript and
    the final update. *)
Definition process_downloaded (result video_folder : string) (w : World) : M unit :=
  verdict <- validate_video_file result (w_validate w) ;;
  let (is_valid, validation_message) := verdict in
  checked <- (if negb is_valid
              then check_and_repair result video_folder validation_message w
              else ret (Some result)) ;;
  match checked with
  | None => ret tt
  | Some result =>
      audio_path <- extract_audio_from_video result video_folder (w_audio w) ;;
      transcript_path <-
        (if Py.truthy audio_path then
           p <- transcribe_audio (Py.value audio_path) video_folder (w_transcribe w) ;;
           ret (Some p)
         else ret None) ;;
      update_video_download_status (w_db_final w) completed
        (Some result) audio_path transcript_path ;;;
      ret tt
  end.

(** The first part of the [try] block of [download_video_background]:
    the job folder, the status [downloading], the metadata (STEP 1) and the
    download (STEP 2).  It hands on the folder and the answer of the
    fetcher. *)
Definition fetch_stage (video_id : Z) (youtube_link : string) (w : World)
  : M (string * (bool * string)) :=
  video_folder <- get_video_folder video_id (w_makedirs w) ;;
  update_video_download_status (w_db_downloading w) downloading None None None ;;;
  actual_title <- get_video_title_from_youtube youtube_link (w_title w) ;;
  actual_description <- get_video_description_from_youtube youtube_link (w_description w) ;;
  (if Py.truthy actual_title
   then update_video_title (w_db_title w) (Py.value actual_title) ;;; ret tt
   else ret tt) ;;;
  (if Py.truthy (Some actual_description)
      && negb (String.eqb actual_description DEFAULT_DESCRIPTION)
   then update_video_description (w_db_description w) actual_description ;;; ret tt
   else ret tt) ;;;
  answer <- download_youtube_video youtube_link video_folder (w_download w) ;;
  ret (video_folder, answer).

(** The [try] block of [download_video_background]: the first part, then
    the [if success: ... else: ...]. *)
Definition download_video_body (video_id : Z) (youtube_link : string) (w : World) : M unit :=
  fetched <- fetch_stage video_id youtube_link w ;;
  let (video_folder, answer) := fetched in
  let (success, result) := answer in
  if success then process_downloaded result video_folder w
  else
    update_video_download_status (w_db_final w) failed None None None ;;;
    cleanup_partial_files video_id (w_cleanup w).

Definition download_video_background (video_id : Z) (youtube_link : string) (w : World)
  : M unit :=
  with_semaphore
    (try_except
       (download_video_body video_id youtube_link w)
       (fun _ =>
          update_video_download_status (w_db_handler w) failed None None None ;;;
          ret tt)).

(** The row of a job that was just accepted: [add_video] inserts the
    link, a title and a description; the status defaults to [pending] and
    the three paths to [NULL]. *)
Definition new_row (initial_title initial_description : string) : Row :=
  {| download_status := pending;
     video_path := None; audio_path := None; transcript_path := None;
     title := Some initial_title; description := Some initial_description |}.

Definition state_of (r : Row) : St := {| row := r; trace := [] |}.

(** The row a run leaves behind, and what the run did. *)
Definition final_row {A} (run : result A * St) : Row := row (snd run).
Definition events_of {A} (run : result A * St) : list event := trace (snd run).

(** Counting the events of a kind in a trace *)
Definition count_events (kind : event -> bool) (t : list event) : nat :=
  List.length (filter kind t).

Definition is_repair_call (e : event) : bool :=
  match e with
  | EvRepair _ _ => true
  | _ => false
  end.

Definition is_validate_call (e : event) : bool :=
  match e with
  | EvValidate _ => true
  | _ => false
  end.

(** Structural inspection: either invocation of [ffprobe] *)
Definition is_ffprobe (e : event) : bool :=
  match e with
  | EvFfprobe _ | EvFfprobeStreams _ => true
  | _ => false
  end.

Definition is_semaphore_event (e : event) : bool :=
  match e with
  | EvAcquire | EvRelease => true
  | _ => false
  end.

Definition is_terminal (s : Status) : bool :=
  match s with
  | completed | failed => true
  | pending | downloading => false
  end.

(** ** [DOWNLOAD_SEMAPHORE = threading.Semaphore(2)] under interleaving

    Each accepted job runs [download_video_background] on a thread of its
    own.  A thread is what it still has to do, the events of its run in
    order, and an instrumentation flag that tells whether it holds a slot
    of the semaphore.  [acquire] blocks while no permit is left and takes
    one; [release] gives one back; every other event leaves the semaphore
    alone.  A schedule names the thread that moves next. *)

Definition SEMAPHORE_CAPACITY : nat := 2.

Record Thread : Type := { todo : list event; holding : bool }.

Record System : Type := { permits : nat; threads : list Thread }.

Definition thread_step (permits : nat) (t : Thread) : option (nat * Thread) :=
  match todo t with
  | [] => None
  | EvAcquire :: rest =>
      match permits with
      | O => None
      | S n => Some (n, {| todo := rest; holding := true |})
      end
  | EvRelease :: rest => Some (S permits, {| todo := rest; holding := false |})
  | _ :: rest => Some (permits, {| todo := rest; holding := holding t |})
  end.

Fixpoint set_nth {A} (i : nat) (x : A) (l : list A) : list A :=
  match l, i with
  | [], _ => []
  | _ :: rest, O => x :: rest
  | y :: rest, S j => y :: set_nth j x rest
  end.

(** Thread [i] moves if it can; a finished or blocked thread stays put. *)
Definition system_step (sys : System) (i : nat) : System :=
  match nth_error (threads sys) i with
  | Some t =>
      match thread_step (permits sys) t with
      | Some (n, t') => {| permits := n; threads := set_nth i t' (threads sys) |}
      | None => sys
      end
  | None => sys
  end.

Definition run_schedule (schedule : list nat) (sys : System) : System :=
  fold_left system_step schedule sys.

(** A submitted job: its id, its link and what its run will observe. *)
Record Job : Type := {
  job_id : Z;
  job_link : string;
  job_world : World;
  job_row : Row
}.

Definition job_thread (j : Job) : Thread :=
  {| todo := events_of (download_video_background (job_id j) (job_link j) (job_world j)
                          (state_of (job_row j)));
     holding := false |}.

Definition submit (jobs : list Job) : System :=
  {| permits := SEMAPHORE_CAPACITY; threads := map job_thread jobs |}.

Definition count_holding (sys : System) : nat :=
  List.length (filter holding (threads sys)).

(** A thread is in order when it is before its [acquire] without a slot,
    past it with one, or done without one. *)
Definition thread_in_order (t : Thread) : bool :=
  match todo t with
  | [] => negb (holding t)
  | EvAcquire :: _ => negb (holding t)
  | _ :: _ => holding t
  end.

(** The string [s] has no character [c]. *)
Definition lacks (c : ascii) (s : string) : bool :=
  Py.all_chars (fun d => negb (Ascii.eqb d c)) s.

(** A computation adds to the trace, and adds at most [n] events of a
    kind, from whatever state it is run. *)
Definition emits (kind : event -> bool) (n : nat) {A} (m : M A) : Prop :=
  forall s, exists t,
    trace (snd (m s)) = (trace s ++ t)%list /\ (count_events kind t <= n)%nat.

(** Where a thread of a job can be: before its [acquire], inside the
    [with] block with [body] still to do, or done. *)
Inductive thread_state : Thread -> Prop :=
| Waiting (body : list event) :
    count_events is_semaphore_event body = 0%nat ->
    thread_state {| todo := EvAcquire :: body ++ [EvRelease]; holding := false |}
| Running (body : list event) :
    count_events is_semaphore_event body = 0%nat ->
    thread_state {| todo := body ++ [EvRelease]; holding := true |}
| Finished :
    thread_state {| todo := []; holding := false |}.

(** Every permit is either free or held by a thread inside its block. *)
Definition permits_accounted (sys : System) : Prop :=
  (permits sys + count_holding sys = SEMAPHORE_CAPACITY)%nat /\
  Forall thread_state (threads sys).

(** Partial correctness for the runs that return: from a state in [P],
    when [m] returns [a] in the state [s'], [Q a s'] holds. *)
Definition hoare {A} (P : St -> Prop) (m : M A) (Q : A -> St -> Prop) : Prop :=
  forall s a s', P s -> m s = (Returns a, s') -> Q a s'.

(** A computation that leaves the row of the job alone, however it ends. *)
Definition keeps_row {A} (m : M A) : Prop :=
  forall s, row (snd (m s)) = row s.

(** A computation that leaves the three paths of the row alone. *)
Definition same_paths (r r' : Row) : Prop :=
  video_path r' = video_path r /\
  audio_path r' = audio_path r /\
  transcript_path r' = transcript_path r.

Definition keeps_paths {A} (m : M A) : Prop :=
  forall s, same_paths (row s) (row (snd (m s))).

(** The state of a run once the semaphore is acquired. *)
Definition acquired (s : St) : St := snd (emit EvAcquire s).

(** The optional file type check does not reject the file: [python-magic]
    is missing or fails, or it reports [video/...] or
    [application/octet-stream]. *)
Definition type_check_passes (o : ValidateObs) : bool :=
  match v_magic o with
  | Returns file_type =>
      Py.startswith "video/" file_type || Py.startswith "application/octet-stream" file_type
  | Raises _ => true
  end.

(** ** What [ffprobe] reports on a file

    The detailed probe of [validate_video_file] is run with
    [-select_streams v:0]: of the streams of a file it reports the first
    video stream and no other.  The simple probe of the fallback prints
    every stream of the file, with a line [codec_type=...] for each. *)

Definition select_streams_v0 (file_streams : list Stream) : list Stream :=
  firstn 1 (filter is_video_stream file_streams).

Definition option_eqb (a b : option string) : bool :=
  match a, b with
  | Some x, Some y => String.eqb x y
  | None, None => true
  | _, _ => false
  end.

Definition stream_eqb (a b : Stream) : bool :=
  option_eqb (codec_type a) (codec_type b) && option_eqb (codec_name a) (codec_name b).

Fixpoint streams_eqb (l1 l2 : list Stream) : bool :=
  match l1, l2 with
  | [], [] => true
  | a :: l1', b :: l2' => stream_eqb a b && streams_eqb l1' l2'
  | _, _ => false
  end.

(** The observations of the validator are those of a file with the
    streams [file_streams]: when the detailed probe exits with 0, the
    JSON it printed lists the streams that [v:0] selects; when the
    fallback runs and the simple probe exits with 0, its output has a line
    [codec_type=video] exactly when the file has a video stream. *)
Definition probes_file (file_streams : list Stream) (o : ValidateObs) : bool :=
  match v_ffprobe o with
  | Returns result =>
      if (returncode result =? 0)%Z then
        match v_json o with
        | Returns probe_data =>
            match streams probe_data with
            | Some listed => streams_eqb listed (select_streams_v0 file_streams)
            | None => false
            end
        | Raises _ => false
        end
      else
        match v_ffprobe_streams o with
        | Returns simple_result =>
            if (returncode simple_result =? 0)%Z
            then Bool.eqb (Py.contains "codec_type=video" (stdout simple_result))
                          (existsb is_video_stream file_streams)
            else true
        | Raises _ => true
        end
  | Raises _ => true
  end.

(** The file of claim C3: it has at least one stream and no stream of
    type [video]; it exists and has the minimum size. *)
Definition no_video_stream (file_streams : list Stream) : bool :=
  match file_streams with
  | [] => false
  | _ :: _ => forallb (fun s => negb (is_video_stream s)) file_streams
  end.

Definition large_enough (o : ValidateObs) : bool :=
  v_exists o
  && match v_getsize o with
     | Returns file_size => (MIN_VIDEO_SIZE <=? file_size)%Z
     | Raises _ => false
     end.

(** The two ways the probes can go for it: the detailed probe exits with
    0, or it exits with an error and the simple probe exits with 0. *)
Definition detailed_probe_succeeds (o : ValidateObs) : bool :=
  match v_ffprobe o with
  | Returns result => (returncode result =? 0)%Z
  | Raises _ => false
  end.

Definition simple_probe_answers (o : ValidateObs) : bool :=
  match v_ffprobe o, v_ffprobe_streams o with
  | Returns result, Returns simple_result =>
      negb (returncode result =? 0)%Z && (returncode simple_result =? 0)%Z
  | _, _ => false
  end.

(** A validator that answers with a failing verdict that carries the
    marker, wherever it is called. *)
Definition gives_marker (o : ValidateObs) : Prop :=
  forall p, hoare (fun _ => True) (validate_video_file p o)
              (fun verdict _ => fst verdict = false /\
                                Py.contains "No video streams" (snd verdict) = true).

(** The repair calls that a run adds to the trace it starts from. *)
Definition repairs_in {A} (run : result A * St) (s : St) : nat :=
  (count_events is_repair_call (events_of run) - count_events is_repair_call (trace s))%nat.

(** The files that count as the transcript of a job: the annotated
    transcript, the Whisper transcript and the failure record; the plain
    text copy is a by-product. *)
Definition is_transcript (c : artifact) : bool :=
  match c with
  | CleanTranscript _ => false
  | _ => true
  end.

(** ** What a failure record says *)

(** The text of the file that [create_empty_transcript] writes for the
    record [FailureRecord reason] at the time [now]: the f-string of the
    source with the time stamp and the reason filled in.  The layout of
    the other files is not modelled. *)
Definition file_text (now : string) (content : artifact) : option string :=
  match content with
  | FailureRecord error_message => Some (error_content now error_message)
  | _ => None
  end.

Definition is_file_write (e : event) : bool :=
  match e with
  | EvWrite _ _ => true
  | _ => false
  end.

(** An audio file that is there but cannot be read: Whisper is not
    installed or fails on it, and [AudioSegment.from_file] and
    [sr.AudioFile] raise. *)
Definition unreadable (o : TranscribeObs) : bool :=
  t_exists o
  && match wh_import (t_whisper o), wh_text (t_whisper o) with
     | Returns _, Returns _ => false
     | _, _ => true
     end
  && match t_duration o with
     | Returns _ => false
     | Raises _ => true
     end
  && match sh_record (t_short o) with
     | Returns _ => false
     | Raises _ => true
     end.

(** The trace of [s] continues the trace of [s0]. *)
Definition extends (s0 s : St) : Prop :=
  exists t, trace s = (trace s0 ++ t)%list.

(** Since the state [s0], a transcript was written to the path [p]. *)
Definition written_since (s0 : St) (p : string) (s : St) : Prop :=
  exists t c, trace s = (trace s0 ++ t)%list /\ In (EvWrite p c) t /\ is_transcript c = true.

(** A computation only adds to the trace, however it ends. *)
Definition grows {A} (m : M A) : Prop :=
  forall s, extends s (snd (m s)).

(** ** What the specification says about chunk counts

    The closed form of the specification for the number of chunks of an
    audio of [d] milliseconds: [ceil((D - O) / (L - O))]. *)

Definition ceil_div (a b : Z) : Z := ((a + b - 1) / b)%Z.

Definition spec_chunk_count (d : Z) : Z :=
  ceil_div (d - overlap) (chunk_length - overlap).

(** ** Sample observations *)

(** A file of 500 kB. *)
Definition small_file : ValidateObs :=
  {| v_exists := true;
     v_getsize := Returns 512000%Z;
     v_magic := Returns "video/mp4";
     v_ffprobe := Returns {| returncode := 0; stdout := "{}"; stderr := "" |};
     v_json := Returns {| streams := None |};
     v_ffprobe_streams := Returns {| returncode := 0; stdout := ""; stderr := "" |} |}.

Definition exited (code : Z) (err : string) : CompletedProcess :=
  {| returncode := code; stdout := ""; stderr := err |}.

Definition nothing_to_remove : CleanupObs := {| c_exists := false; c_remove := Returns tt |}.

(** A 5 MB file with an H.264 stream; [python-magic] is not installed. *)
Definition h264_file : ValidateObs :=
  {| v_exists := true;
     v_getsize := Returns 5242880%Z;
     v_magic := Raises (Exn ImportError "No module named 'magic'");
     v_ffprobe := Returns (exited 0 "");
     v_json := Returns {| streams := Some [{| codec_type := Some "video";
                                             codec_name := Some "h264" |}] |};
     v_ffprobe_streams := Returns (exited 0 "") |}.

(** A 5 MB file on which both probes of [ffprobe] exit with an error. *)
Definition unreadable_file : ValidateObs :=
  {| v_exists := true;
     v_getsize := Returns 5242880%Z;
     v_magic := Raises (Exn ImportError "No module named 'magic'");
     v_ffprobe := Returns (exited 1 "moov atom not found");
     v_json := Raises (Exn OtherException "Expecting value: line 1 column 1 (char 0)");
     v_ffprobe_streams := Returns (exited 1 "") |}.

(** A 5 MB file whose probe times out. *)
Definition slow_probe : ValidateObs :=
  {| v_exists := true;
     v_getsize := Returns 5242880%Z;
     v_magic := Raises (Exn ImportError "No module named 'magic'");
     v_ffprobe := Raises (Exn TimeoutExpired "Command 'ffprobe' timed out after 30 seconds");
     v_json := Raises (Exn OtherException "Expecting value: line 1 column 1 (char 0)");
     v_ffprobe_streams := Returns (exited 1 "") |}.

(** An audio file of 5 MB with one MP3 stream, as the probes report it:
    the detailed probe exits with 0 and lists no stream.  With
    [python-magic] installed the file is sniffed as [audio/mpeg]. *)
Definition mp3_file : ValidateObs :=
  {| v_exists := true;
     v_getsize := Returns 5242880%Z;
     v_magic := Returns "audio/mpeg";
     v_ffprobe := Returns (exited 0 "");
     v_json := Returns {| streams := Some [] |};
     v_ffprobe_streams := Returns (exited 0 "") |}.

(** The same file where [python-magic] is not installed. *)
Definition audio_only_stream : ValidateObs :=
  {| v_exists := true;
     v_getsize := Returns 5242880%Z;
     v_magic := Raises (Exn ImportError "No module named 'magic'");
     v_ffprobe := Returns (exited 0 "");
     v_json := Returns {| streams := Some [] |};
     v_ffprobe_streams := Returns (exited 0 "") |}.

(** The same file when the detailed probe exits with an error and the
    simple probe prints the audio stream. *)
Definition audio_only_fallback : ValidateObs :=
  {| v_exists := true;
     v_getsize := Returns 5242880%Z;
     v_magic := Raises (Exn ImportError "No module named 'magic'");
     v_ffprobe := Returns (exited 1 "Invalid data found when processing input");
     v_json := Raises (Exn OtherException "Expecting value: line 1 column 1 (char 0)");
     v_ffprobe_streams :=
       Returns {| returncode := 0;
                  stdout := "codec_name=mp3" ++ newline ++ "codec_type=audio" ++ newline;
                  stderr := "" |} |}.

Definition mp3_streams : list Stream :=
  [{| codec_type := Some "audio"; codec_name := Some "mp3" |}].


(** A repair whose [ffmpeg] exits with an error. *)
Definition repair_fails : RepairObs :=
  {| r_ffmpeg := Returns (exited 1 "Invalid data found when processing input");
     r_exists := false;
     r_getsize := Raises (Exn OSError "[Errno 2] No such file or directory");
     r_remove := Returns tt;
     r_rename := Returns tt;
     r_validate := h264_file;
     r_cleanup_small := nothing_to_remove;
     r_cleanup_failed := nothing_to_remove;
     r_cleanup_handler := nothing_to_remove |}.

(** A repair that re-encodes, replaces the original and validates. *)
Definition repair_replaces : RepairObs :=
  {| r_ffmpeg := Returns (exited 0 "");
     r_exists := true;
     r_getsize := Returns 4194304%Z;
     r_remove := Returns tt;
     r_rename := Returns tt;
     r_validate := h264_file;
     r_cleanup_small := nothing_to_remove;
     r_cleanup_failed := nothing_to_remove;
     r_cleanup_handler := nothing_to_remove |}.

(** A repair that re-encodes but cannot delete the original, which another
    process holds open. *)
Definition locked_original : RepairObs :=
  {| r_ffmpeg := Returns {| returncode := 0; stdout := ""; stderr := "" |};
     r_exists := true;
     r_getsize := Returns 5000000%Z;
     r_remove := Raises (Exn OSError "[Errno 13] Permission denied");
     r_rename := Returns tt;
     r_validate := h264_file;
     r_cleanup_small := nothing_to_remove;
     r_cleanup_failed := nothing_to_remove;
     r_cleanup_handler := nothing_to_remove |}.

(** A download that leaves one 5 MB [.mp4] in the folder. *)
Definition download_of (validate : ValidateObs) (repair : RepairObs) : DownloadObs :=
  {| d_makedirs := Returns tt;
     d_ytdlp := Returns (exited 0 "");
     d_listdir := Returns [{| entry_name := "video_1700000000.mp4";
                              entry_size := Returns 5242880%Z |}];
     d_validate := validate;
     d_repair := repair |}.

(** An attempt in which both extraction methods find no audio. *)
Definition no_audio : AttemptObs :=
  {| a_exists := true;
     a_getsize := Returns 5242880%Z;
     a_ffmpeg := {| fa_stale := nothing_to_remove;
                    fa_ffmpeg := Returns (exited 1 "Output file does not contain any stream");
                    fa_exists := false;
                    fa_getsize := Raises (Exn OSError "[Errno 2] No such file or directory");
                    fa_remove_small := Returns tt |};
     a_pydub := {| pd_load := Raises (Exn OtherException "Decoding failed");
                   pd_convert := Returns tt;
                   pd_stale := nothing_to_remove;
                   pd_export := Returns tt;
                   pd_exists := false;
                   pd_getsize := Raises (Exn OSError "[Errno 2] No such file or directory");
                   pd_remove_small := Returns tt |} |}.

(** An attempt in which [ffmpeg] extracts 380 kB of audio. *)
Definition audio_extracted : AttemptObs :=
  {| a_exists := true;
     a_getsize := Returns 5242880%Z;
     a_ffmpeg := {| fa_stale := nothing_to_remove;
                    fa_ffmpeg := Returns (exited 0 "");
                    fa_exists := true;
                    fa_getsize := Returns 384044%Z;
                    fa_remove_small := Returns tt |};
     a_pydub := a_pydub no_audio |}.

Definition quiet_chunk : ChunkObs :=
  {| k_export := Returns tt;
     k_record := Returns tt;
     k_google := Raises (Exn UnknownValueError "");
     k_cleanup := {| c_exists := true; c_remove := Returns tt |} |}.

(** Twelve seconds of speech, Whisper not installed, every write to the
    folder as [writes] says. *)
Definition transcription (present : bool) (writes : result unit) : TranscribeObs :=
  {| t_exists := present;
     t_whisper := {| wh_import := Raises (Exn ImportError "No module named 'whisper'");
                     wh_text := Returns None;
                     wh_write := writes |};
     t_recognizer := Returns tt;
     t_duration := Returns 12000%Z;
     t_short := {| sh_record := Returns tt;
                   sh_google := Returns "hello world";
                   sh_alternative := Returns None;
                   sh_save := {| sv_write := writes; sv_write_clean := writes;
                                 sv_write_error := writes |};
                   sh_write_nospeech := writes;
                   sh_write_error := writes |};
     t_long := {| lg_load := Returns 12000%Z;
                  lg_chunk := fun _ => quiet_chunk;
                  lg_save := {| sv_write := writes; sv_write_clean := writes;
                                sv_write_error := writes |};
                  lg_write_nospeech := writes;
                  lg_write_error := writes |};
     t_write_notfound := writes;
     t_write_error := writes |}.

(** An audio file that no decoder can read; Whisper is installed. *)
Definition corrupt_audio (writes : result unit) : TranscribeObs :=
  {| t_exists := true;
     t_whisper := {| wh_import := Returns tt;
                     wh_text := Raises (Exn OtherException "Failed to load audio");
                     wh_write := writes |};
     t_recognizer := Returns tt;
     t_duration := Raises (Exn OtherException "Decoding failed");
     t_short := {| sh_record := Raises (Exn OtherException "Audio file could not be read");
                   sh_google := Returns "";
                   sh_alternative := Returns None;
                   sh_save := {| sv_write := writes; sv_write_clean := writes;
                                 sv_write_error := writes |};
                   sh_write_nospeech := writes;
                   sh_write_error := writes |};
     t_long := t_long (transcription true writes);
     t_write_notfound := writes;
     t_write_error := writes |}.

(** A run in which the metadata is fetched and everything else is as the
    arguments say. *)
Definition world_of (download : DownloadObs) (validate : ValidateObs) (repair : RepairObs)
    (revalidate : ValidateObs) (audio : AttemptObs) (db_final db_handler : DbObs) : World :=
  {| w_makedirs := Returns tt;
     w_db_downloading := Commits;
     w_title := Returns {| returncode := 0; stdout := "A talk"; stderr := "" |};
     w_description := Returns (exited 1 "");
     w_db_title := Commits;
     w_db_description := Commits;
     w_download := download;
     w_validate := validate;
     w_getsize := Returns 5242880%Z;
     w_repair := repair;
     w_revalidate := revalidate;
     w_audio := fun _ => audio;
     w_transcribe := transcription true (Returns tt);
     w_db_final := db_final;
     w_cleanup := {| cd_makedirs := Returns tt; cd_exists := true; cd_listdir := Returns [] |};
     w_db_handler := db_handler |}.

Definition sample_link : string := "https://youtu.be/dQw4w9WgXcQ".

Definition sample_row : Row := new_row "dQw4w9WgXcQ" DEFAULT_DESCRIPTION.

(** ** What the validator accepts

    The observations under which [validate_video_file] calls a file
    valid, written as a condition on what it observes. *)

(** Some probe shows a video stream: the detailed probe exits with 0 and
    its JSON lists a stream of type [video]; or it exits with an error
    and the simple probe exits with 0 and prints [codec_type=video]. *)
Definition shows_video_stream (o : ValidateObs) : bool :=
  match v_ffprobe o with
  | Returns result =>
      if (returncode result =? 0)%Z then
        match v_json o with
        | Returns probe_data =>
            match streams probe_data with
            | Some all_streams => existsb is_video_stream all_streams
            | None => false
            end
        | Raises _ => false
        end
      else
        match v_ffprobe_streams o with
        | Returns simple_result =>
            (returncode simple_result =? 0)%Z
            && Py.contains "codec_type=video" (stdout simple_result)
        | Raises _ => false
        end
  | Raises _ => false
  end.

Definition passes_validation (o : ValidateObs) : bool :=
  v_exists o
  && match v_getsize o with
     | Returns file_size => (MIN_VIDEO_SIZE <=? file_size)%Z
     | Raises _ => false
     end
  && type_check_passes o
  && shows_video_stream o.

(** ** What the directory scan of the fetcher looks for

    A name of the listing is a candidate when it has one of the three
    video extensions; it is taken when its size is above the minimum. *)

Definition has_video_extension (file : DirEntry) : bool :=
  Py.endswith_any [".mp4"; ".webm"; ".mkv"] (entry_name file).

Definition is_downloaded_video (file : DirEntry) : bool :=
  has_video_extension file
  && match entry_size file with
     | Returns file_size => (MIN_VIDEO_SIZE <? file_size)%Z
     | Raises _ => false
     end.

(** ** The stages of a job

    The events that mark a stage of the pipeline: a metadata query, the
    download, the audio extraction, the transcription. *)

Definition is_metadata_call (e : event) : bool :=
  match e with
  | EvMetadata _ => true
  | _ => false
  end.

Definition is_download_call (e : event) : bool :=
  match e with
  | EvYtDlp _ _ => true
  | _ => false
  end.

Definition is_extraction_call (e : event) : bool :=
  match e with
  | EvExtractAudio _ _ => true
  | _ => false
  end.

Definition is_transcription_call (e : event) : bool :=
  match e with
  | EvTranscribe _ _ => true
  | _ => false
  end.

Definition is_stage_entry (e : event) : bool :=
  is_metadata_call e || is_download_call e || is_extraction_call e || is_transcription_call e.

(** ** Inside the audio extraction: the tools and the pauses *)

Definition is_ffmpeg_audio_run (e : event) : bool :=
  match e with
  | EvFfmpegAudio _ _ => true
  | _ => false
  end.

Definition is_pydub_run (e : event) : bool :=
  match e with
  | EvPydub _ _ => true
  | _ => false
  end.

Definition is_pause (e : event) : bool :=
  match e with
  | EvSleep _ => true
  | _ => false
  end.

(** A piece of trace without a run of an extraction tool and without a
    pause. *)
Definition only_removals (t : list event) : Prop :=
  count_events is_ffmpeg_audio_run t = 0%nat /\
  count_events is_pydub_run t = 0%nat /\
  count_events is_pause t = 0%nat.

(** ** What a run does to the paths of the row *)

(** The row [r] has the paths of the row [r0], and it is [completed] only
    if [r0] was. *)
Definition untouched (r0 r : Row) : Prop :=
  same_paths r0 r /\
  (download_status r = completed -> download_status r0 = completed).

(** A row that is [completed] and names a video file, with forward
    slashes only. *)
Definition completed_with_video (r : Row) : Prop :=
  download_status r = completed /\
  exists p, video_path r = Some p /\ p <> "" /\ lacks "\" p = true.

(** A computation that keeps a property of the row, however it ends. *)
Definition maintains (Inv : Row -> Prop) {A} (m : M A) : Prop :=
  forall s, Inv (row s) -> Inv (row (snd (m s))).

(** How a run ends with respect to the row [r0]: the row is untouched,
    or the run returned and the row is completed with its video. *)
Definition ends_recorded (r0 : Row) {A} (run : result A * St) : Prop :=
  untouched r0 (final_row run) \/
  ((exists a, fst run = Returns a) /\ completed_with_video (final_row run)).

(** ** Inside the transcription of a long audio *)

Definition is_export (e : event) : bool :=
  match e with
  | EvExport _ => true
  | _ => false
  end.

Definition is_recognition (e : event) : bool :=
  match e with
  | EvRecognize _ => true
  | _ => false
  end.

(** The directory prefix that [os.path.join] puts before a relative
    name. *)
Definition join_prefix (folder : string) : string :=
  if String.eqb folder "" || Py.endswith "/" folder then folder else folder ++ "/".

(** The folder of a job, as [get_video_folder] names it. *)
Definition job_folder (video_id : Z) : string :=
  OsPath.join BASE_DOWNLOAD_FOLDER ("video_" ++ Py.str_of_int video_id).

(** The files that the cleanup after a failed job may remove: the
    regular files of the listing of the job's folder. *)
Definition removable_files (o : CleanupDirObs) : list PartialFile :=
  match cd_listdir o with
  | Returns files => filter pf_isfile files
  | Raises _ => []
  end.

(** A thread that has nothing left to do, a thread that the scheduler
    can move, and the events that the threads still have to perform. *)
Definition thread_done (t : Thread) : bool :=
  match todo t with
  | [] => true
  | _ :: _ => false
  end.

Definition can_move (sys : System) (i : nat) : bool :=
  match nth_error (threads sys) i with
  | Some t =>
      match thread_step (permits sys) t with
      | Some _ => true
      | None => false
      end
  | None => false
  end.

Definition remaining (l : list Thread) : nat :=
  list_sum (map (fun t => List.length (todo t)) l).

(** ** Jobs that hang

    Inside the [with] block a job calls tools without a timeout (the
    recogniser, pydub, Whisper, the database): such a call may never
    return.  A job whose call number [n] inside the block never returns
    performs the events of its run up to that call and nothing after it,
    so it keeps its permit; with fewer calls than that in its run, it
    returns.  [None] stands for a job all of whose calls return. *)

Definition thread_of (j : Job) (hangs : option nat) : Thread :=
  match hangs with
  | None => job_thread j
  | Some n => {| todo := firstn (S (S n)) (todo (job_thread j)); holding := false |}
  end.

Definition submit_jobs (jobs : list (Job * option nat)) : System :=
  {| permits := SEMAPHORE_CAPACITY;
     threads := map (fun jh => thread_of (fst jh) (snd jh)) jobs |}.

Definition all_return (jobs : list (Job * option nat)) : bool :=
  forallb (fun jh => match snd jh with None => true | Some _ => false end) jobs.

(** A thread that hangs: it is inside the block and takes no further step. *)
Definition hung (t : Thread) : bool := holding t && thread_done t.

Definition count_hung (sys : System) : nat :=
  List.length (filter hung (threads sys)).

(** What is left of a run inside the block: events other than those of
    the semaphore, followed by the release unless the job hangs before. *)
Definition inside_block (rest : list event) : Prop :=
  count_events is_semaphore_event rest = 0%nat \/
  exists body, rest = (body ++ [EvRelease])%list /\
               count_events is_semaphore_event body = 0%nat.

Inductive thread_shape : Thread -> Prop :=
| ShapeWaiting (rest : list event) :
    inside_block rest -> thread_shape {| todo := EvAcquire :: rest; holding := false |}
| ShapeInside (rest : list event) :
    inside_block rest -> thread_shape {| todo := rest; holding := true |}
| ShapeFinished :
    thread_shape {| todo := []; holding := false |}.

Definition permits_balanced (sys : System) : Prop :=
  (permits sys + count_holding sys = SEMAPHORE_CAPACITY)%nat /\
  Forall thread_shape (threads sys).

(** ** [app.py]: what a request is checked against *)

Module PyStr.

(** The scan of [str.split(sep)] for a separator that is not empty: left
    to right, matches do not overlap; [skip] counts the characters of a
    match still to be dropped.  The first piece of the result is the one
    under construction. *)
Fixpoint split_from (sep : string) (skip : nat) (s : string) : list string :=
  match s with
  | EmptyString => [EmptyString]
  | String c rest =>
      match skip with
      | S k => split_from sep k rest
      | O =>
          if String.prefix sep s
          then EmptyString :: split_from sep (String.length sep - 1) rest
          else match split_from sep 0 rest with
               | piece :: more => String c piece :: more
               | [] => [String c EmptyString]
               end
      end
  end.

(** [s.split(sep)] *)
Definition split (sep s : string) : list string := split_from sep 0 s.

(** [pieces[0]] and [pieces[-1]] of a list that [split] returned *)
Definition first (pieces : list string) : string := hd EmptyString pieces.
Definition last (pieces : list string) : string := List.last pieces EmptyString.

Definition is_ascii (s : string) : bool :=
  Py.all_chars (fun c => (nat_of_ascii c <? 128)%nat) s.

End PyStr.

(** The patterns of [is_valid_youtube_url] use literal text, an optional
    group and a character class repeated once or more; [re.match] looks
    for a match that starts at the first character and may end anywhere.
    The matcher tries every way to match, as backtracking does: [k] is
    what has to match the rest. *)
Module Re.

Inductive regex : Type :=
| Chars (text : string)           (* literal characters *)
| Maybe (r : regex)               (* (r)? *)
| Many1 (class : ascii -> bool)   (* [class]+ *)
| Then (r1 r2 : regex).

Fixpoint drop_prefix (text s : string) : option string :=
  match text, s with
  | EmptyString, _ => Some s
  | String c text', String d s' => if Ascii.eqb c d then drop_prefix text' s' else None
  | String _ _, EmptyString => None
  end.

(** [class*] followed by [k] *)
Fixpoint many (class : ascii -> bool) (k : string -> bool) (s : string) : bool :=
  match s with
  | EmptyString => k s
  | String c rest => (class c && many class k rest) || k s
  end.

Fixpoint matches (r : regex) (k : string -> bool) (s : string) : bool :=
  match r with
  | Chars text =>
      match drop_prefix text s with
      | Some rest => k rest
      | None => false
      end
  | Maybe r => matches r k s || k s
  | Many1 class =>
      match s with
      | EmptyString => false
      | String c rest => class c && many class k rest
      end
  | Then r1 r2 => matches r1 (matches r2 k) s
  end.

(** [re.match(pattern, s)] is not [None] *)
Definition re_match (pattern : regex) (s : string) : bool :=
  matches pattern (fun _ => true) s.

(** The class [\w] on ASCII: letters, digits and the underscore *)
Definition is_word_char (c : ascii) : bool :=
  let n := nat_of_ascii c in
  ((48 <=? n) && (n <=? 57) || (65 <=? n) && (n <=? 90) ||
   (97 <=? n) && (n <=? 122) || (n =? 95))%nat.

End Re.

(** The class [[\w-]] of the three patterns.  Links are read as ASCII
    text: a byte beyond ASCII is taken not to belong to the class. *)
Definition is_id_char (c : ascii) : bool :=
  Re.is_word_char c || (nat_of_ascii c =? 45)%nat.

Definition scheme : Re.regex := Re.Then (Re.Chars "http") (Re.Then (Re.Maybe (Re.Chars "s")) (Re.Chars "://")).

Definition youtube_patterns : list Re.regex :=
  [ Re.Then scheme (Re.Then (Re.Maybe (Re.Chars "www."))
      (Re.Then (Re.Chars "youtube.com/watch?v=") (Re.Many1 is_id_char)));
    Re.Then scheme (Re.Then (Re.Chars "youtu.be/") (Re.Many1 is_id_char));
    Re.Then scheme (Re.Then (Re.Maybe (Re.Chars "www."))
      (Re.Then (Re.Chars "youtube.com/embed/") (Re.Many1 is_id_char))) ].

Definition is_valid_youtube_url (url : string) : bool :=
  existsb (fun pattern => Re.re_match pattern url) youtube_patterns.

(** The characters that [sanitize_input] removes: angle brackets, both
    quotes, ampersand and semicolon. *)
Definition dangerous_char (c : ascii) : bool :=
  existsb (Nat.eqb (nat_of_ascii c)) [60; 62; 34; 39; 38; 59]%nat.

Definition sanitize_input (text : string) : string :=
  match text with
  | EmptyString => EmptyString
  | _ => Py.filter_chars (fun c => negb (dangerous_char c)) (Py.strip text)
  end.

(** The id that [add_video_route] takes from a link: what follows the
    last [v=] up to the next ampersand, or else what follows the last
    [youtu.be/] up to the next question mark. *)
Definition extract_video_id (youtube_link : string) : option string :=
  if Py.contains "v=" youtube_link then
    Some (PyStr.first (PyStr.split "&" (PyStr.last (PyStr.split "v=" youtube_link))))
  else if Py.contains "youtu.be/" youtube_link then
    Some (PyStr.first (PyStr.split "?" (PyStr.last (PyStr.split "youtu.be/" youtube_link))))
  else None.

(** The links that the site is meant for *)
Definition watch_url (secure www : bool) (id : string) : string :=
  (if secure then "https" else "http") ++ "://" ++ (if www then "www." else "") ++
  "youtube.com/watch?v=" ++ id.

Definition short_url (secure : bool) (id : string) : string :=
  (if secure then "https" else "http") ++ "://youtu.be/" ++ id.

Definition embed_url (secure www : bool) (id : string) : string :=
  (if secure then "https" else "http") ++ "://" ++ (if www then "www." else "") ++
  "youtube.com/embed/" ++ id.

(** ** [app.py]: the routes

    A route reads the session and the request, calls the helpers above
    and answers with a response.  What it does besides is kept in a list:
    the messages it flashes, the statements it sends to the database, the
    folders it removes and the threads it starts.  The functions of the
    pipeline that a route calls run in their own state. *)

Record Session : Type := {
  s_user : option string;        (* session['user'] *)
  s_user_id : option Z;          (* session['user_id'] *)
  s_user_role : option string    (* session['user_role'] *)
}.

Inductive reply_body : Type :=
| ErrorBody (message : string)              (* {'error': message} *)
| QuestionSaved (question_id : Z).          (* {'success': True, 'question_id': ..., 'answer': None} *)

Inductive Response : Type :=
| RedirectTo (location : string)                   (* redirect(location) *)
| Render (template : string)                       (* render_template(template) *)
| Jsonify (body : reply_body) (status : Z)         (* jsonify(body), status *)
| SendFile (path : string) (as_attachment : bool). (* send_file(path, as_attachment=...) *)

Inductive web_event : Type :=
| Flash (message category : string)
| LogIn (user : string) (user_id : Z) (user_role : string)
    (* session['user'], session['user_id'] and session['user_role'] are set *)
| Rmtree (folder : string)                         (* shutil.rmtree *)
| InsertVideo (youtube_link youtube_id title description thumbnail_url : string)
    (added_by : Z) (user_type : string)            (* INSERT INTO videos *)
| InsertQuestion (video_id user_id : Z) (question : string)  (* INSERT INTO video_questions *)
| DeleteVideo (video_id : Z)                       (* DELETE FROM videos WHERE id = %s *)
| Commit                                           (* connection.commit() *)
| StartDownload (video_id : Z) (link : string)     (* a thread for download_video_background *)
| StartAnswer (question_id video_id : Z) (question : string)
    (title description : option string).           (* a thread for generate_answer_background *)

Record Web : Type := { subprocesses : St; effects : list web_event }.

Definition Route (A : Type) : Type := Web -> result A * Web.

Definition answer {A} (a : A) : Route A := fun w => (Returns a, w).

Definition route_raise {A} (e : exn) : Route A := fun w => (Raises e, w).

Definition route_bind {A B} (m : Route A) (k : A -> Route B) : Route B :=
  fun w =>
    match m w with
    | (Returns a, w') => k a w'
    | (Raises e, w') => (Raises e, w')
    end.

Notation "x <~ m ;; k" := (route_bind m (fun x => k))
  (at level 61, m at next level, right associativity).
Notation "m ~;; k" := (route_bind m (fun _ => k))
  (at level 61, right associativity).

Definition perform (e : web_event) : Route unit :=
  fun w => (Returns tt, {| subprocesses := subprocesses w; effects := (effects w ++ [e])%list |}).

(** A function of the pipeline, called from a route *)
Definition call {A} (m : M A) : Route A :=
  fun w =>
    let (r, s) := m (subprocesses w) in
    (r, {| subprocesses := s; effects := effects w |}).

(** [try: m except Exception as e: h e], [try: m except C as e: h e] and
    [try: m finally: f] *)
Definition route_try {A} (m : Route A) (h : exn -> Route A) : Route A :=
  fun w =>
    match m w with
    | (Returns a, w') => (Returns a, w')
    | (Raises e, w') => h e w'
    end.

Definition route_try_on {A} (catches : exn_class -> bool) (m : Route A) (h : exn -> Route A)
  : Route A :=
  fun w =>
    match m w with
    | (Returns a, w') => (Returns a, w')
    | (Raises e, w') => if catches (exn_cls e) then h e w' else (Raises e, w')
    end.

Definition route_finally {A} (m : Route A) (f : Route unit) : Route A :=
  fun w =>
    let (r, w') := m w in
    match f w' with
    | (Returns _, w'') => (r, w'')
    | (Raises e, w'') => (Raises e, w'')
    end.

(** A request is served from a state in which the route has done nothing yet. *)
Definition serve {A} (route : Route A) (s : St) : result A * Web :=
  route {| subprocesses := s; effects := [] |}.

Definition flash (message category : string) : Route unit :=
  perform (Flash message category).

(** [session[key]]: a missing key raises [KeyError]. *)
Definition session_get {A} (key : string) (value : option A) : Route A :=
  match value with
  | Some a => answer a
  | None => route_raise (Exn OtherException ("'" ++ key ++ "'"))
  end.

(** A row of [videos] as [get_video_by_id] selects it: the columns of
    the job and the user who added it. *)
Record Video : Type := { added_by : Z; stored : Row }.

(** The MySQL session of a query, and the row that [fetchone] returned. *)
Record LookupObs : Type := { lk_db : DbObs; lk_row : option Video }.

(** [cursor.execute(SELECT ...)] and [cursor.fetchone()]; a query commits
    nothing. *)
Definition select_execute (o : DbObs) : M unit :=
  match o with
  | ExecuteRaises e => raise e
  | _ => ret tt
  end.

Definition get_video_by_id (o : LookupObs) : Route (option Video) :=
  match get_db_connection (lk_db o) with
  | Some _ =>
      route_finally
        (route_try_on is_mysql_error
           (call (connection_cursor (lk_db o)) ~;;
            call (select_execute (lk_db o)) ~;;
            answer (lk_row o))
           (fun _ => answer None))
        (call (cursor_close (lk_db o)))
  | None => answer None
  end.

(** The MySQL session of an [INSERT], and [cursor.lastrowid] after it. *)
Record InsertObs : Type := { in_db : DbObs; in_lastrowid : option Z }.

Definition execute (o : DbObs) (statement : web_event) : Route unit :=
  match o with
  | ExecuteRaises e => route_raise e
  | _ => perform statement
  end.

Definition commit (o : DbObs) : Route unit :=
  match o with
  | CommitRaises e => route_raise e
  | _ => perform Commit
  end.

(** Python truthiness of an id that may be [None]: [None] and [0] are false. *)
Definition id_truthy (id : option Z) : bool :=
  match id with
  | Some n => negb (n =? 0)%Z
  | None => false
  end.

Definition add_video (youtube_link youtube_id title description thumbnail_url : string)
    (added_by : Z) (user_type : string) (o : InsertObs) (makedirs : result unit)
  : Route (option Z) :=
  match get_db_connection (in_db o) with
  | Some _ =>
      route_finally
        (route_try_on is_mysql_error
           (call (connection_cursor (in_db o)) ~;;
            execute (in_db o)
              (InsertVideo youtube_link youtube_id title description thumbnail_url
                 added_by user_type) ~;;
            let video_id := in_lastrowid o in
            commit (in_db o) ~;;
            (* get_video_folder(video_id): the folder is only printed *)
            call (observe makedirs) ~;;
            answer video_id)
           (fun _ => answer None))
        (call (cursor_close (in_db o)))
  | None => answer None
  end.

Definition add_question (video_id user_id : Z) (question : string) (o : InsertObs)
  : Route (option Z) :=
  match get_db_connection (in_db o) with
  | Some _ =>
      route_finally
        (route_try_on is_mysql_error
           (call (connection_cursor (in_db o)) ~;;
            execute (in_db o) (InsertQuestion video_id user_id question) ~;;
            let question_id := in_lastrowid o in
            commit (in_db o) ~;;
            answer question_id)
           (fun _ => answer None))
        (call (cursor_close (in_db o)))
  | None => answer None
  end.

(** *** [/add_video] *)

Record AddVideoObs : Type := {
  av_title : result CompletedProcess;        (* yt-dlp --get-title *)
  av_description : result CompletedProcess;  (* yt-dlp --get-description *)
  av_insert : InsertObs;                     (* add_video: the INSERT *)
  av_makedirs : result unit                  (* add_video: get_video_folder *)
}.

Definition add_video_route (sess : Session) (form_link : string) (o : AddVideoObs)
  : Route Response :=
  match s_user sess with
  | None => answer (RedirectTo "/login")
  | Some _ =>
      let youtube_link := Py.strip form_link in
      if negb (Py.truthy (Some youtube_link)) then
        flash "YouTube link is required" "error" ~;;
        answer (RedirectTo "/dashboard")
      else if negb (is_valid_youtube_url youtube_link) then
        flash "Invalid YouTube URL format" "error" ~;;
        answer (RedirectTo "/dashboard")
      else
        match extract_video_id youtube_link with
        | None =>
            flash "Invalid YouTube link" "error" ~;;
            answer (RedirectTo "/dashboard")
        | Some video_id =>
            fetched <~ call (get_video_title_from_youtube youtube_link (av_title o)) ;;
            let initial_title :=
              if Py.truthy fetched then Py.value fetched else "Video " ++ video_id in
            initial_description <~
              call (get_video_description_from_youtube youtube_link (av_description o)) ;;
            let thumbnail_url := "https://img.youtube.com/vi/" ++ video_id ++ "/0.jpg" in
            user_id <~ session_get "user_id" (s_user_id sess) ;;
            user_role <~ session_get "user_role" (s_user_role sess) ;;
            db_video_id <~
              add_video youtube_link video_id initial_title initial_description
                thumbnail_url user_id user_role (av_insert o) (av_makedirs o) ;;
            (match db_video_id with
             | Some id =>
                 if negb (id =? 0)%Z then
                   perform (StartDownload id youtube_link) ~;;
                   flash "Video added successfully! Download started in background." "success"
                 else flash "Error adding video to database" "error"
             | None => flash "Error adding video to database" "error"
             end) ~;;
            answer (RedirectTo "/dashboard")
        end
  end.

(** *** [/delete_video/<int:video_id>] *)

Record DeleteObs : Type := {
  dl_lookup : LookupObs;        (* get_video_by_id(video_id) *)
  dl_makedirs : result unit;    (* get_video_folder(video_id) *)
  dl_exists : bool;             (* os.path.exists(video_folder) *)
  dl_rmtree : result unit;      (* shutil.rmtree(video_folder) *)
  dl_db : DbObs                 (* the session of the DELETE *)
}.

Definition delete_video (sess : Session) (video_id : Z) (o : DeleteObs) : Route Response :=
  match s_user sess with
  | None => answer (RedirectTo "/login")
  | Some _ =>
      video <~ get_video_by_id (dl_lookup o) ;;
      match video with
      | None =>
          flash "Video not found" "error" ~;;
          answer (RedirectTo "/dashboard")
      | Some video =>
          user_id <~ session_get "user_id" (s_user_id sess) ;;
          denied <~
            (if negb (added_by video =? user_id)%Z then
               user_role <~ session_get "user_role" (s_user_role sess) ;;
               answer (negb (String.eqb user_role "admin"))
             else answer false) ;;
          if (denied : bool) then
            flash "You don't have permission to delete this video" "error" ~;;
            answer (RedirectTo "/dashboard")
          else
            route_try
              (video_folder <~ call (get_video_folder video_id (dl_makedirs o)) ;;
               (if dl_exists o then
                  perform (Rmtree video_folder) ~;;
                  call (observe (dl_rmtree o))
                else answer tt) ~;;
               (match get_db_connection (dl_db o) with
                | Some _ =>
                    call (connection_cursor (dl_db o)) ~;;
                    execute (dl_db o) (DeleteVideo video_id) ~;;
                    commit (dl_db o)
                | None => answer tt
                end) ~;;
               flash "Video deleted successfully" "success")
              (fun e => flash ("Error deleting video: " ++ exn_str e) "error") ~;;
            answer (RedirectTo "/dashboard")
      end
  end.

(** What is lost for good: a folder or a row of [videos] *)
Definition is_removal (e : web_event) : bool :=
  match e with
  | Rmtree _ | DeleteVideo _ => true
  | _ => false
  end.

(** *** [/video/<int:video_id>/ask] *)

(** The value of [request.get_json()] *)
#[warnings="-register-all"] Inductive json : Type :=
| JNull
| JBool (b : bool)
| JNumber (n : Z)
| JString (s : string)
| JArray (items : list json)
| JObject (fields : list (string * json)).

Definition json_truthy (data : json) : bool :=
  match data with
  | JNull => false
  | JBool b => b
  | JNumber n => negb (n =? 0)%Z
  | JString s => negb (String.eqb s "")
  | JArray items => match items with [] => false | _ :: _ => true end
  | JObject fields => match fields with [] => false | _ :: _ => true end
  end.

Fixpoint lookup_field (key : string) (fields : list (string * json)) : option json :=
  match fields with
  | [] => None
  | (k, v) :: rest => if String.eqb k key then Some v else lookup_field key rest
  end.

(** [data.get(key, default)]: only a dict has [get]. *)
Definition json_get (data : json) (key : string) (default : json) : Route json :=
  match data with
  | JObject fields =>
      match lookup_field key fields with
      | Some v => answer v
      | None => answer default
      end
  | _ => route_raise (Exn OtherException "object has no attribute 'get'")
  end.

(** [value.strip()]: only a string has [strip]. *)
Definition json_strip (value : json) : Route string :=
  match value with
  | JString s => answer (Py.strip s)
  | _ => route_raise (Exn OtherException "object has no attribute 'strip'")
  end.

Record AskObs : Type := {
  aq_json : result json;        (* request.get_json() *)
  aq_lookup : LookupObs;        (* get_video_by_id(video_id) *)
  aq_insert : InsertObs         (* add_question(...) *)
}.

Definition ask_question (sess : Session) (video_id : Z) (o : AskObs) : Route Response :=
  match s_user sess with
  | None => answer (Jsonify (ErrorBody "Please login to ask questions") 401)
  | Some _ =>
      route_try
        (data <~ call (observe (aq_json o)) ;;
         if negb (json_truthy data) then
           answer (Jsonify (ErrorBody "No JSON data received") 400)
         else
           field <~ json_get data "question" (JString "") ;;
           question <~ json_strip field ;;
           if negb (Py.truthy (Some question)) then
             answer (Jsonify (ErrorBody "Question is required") 400)
           else if (String.length question <? 5)%nat then
             answer (Jsonify (ErrorBody "Question must be at least 5 characters") 400)
           else if (500 <? String.length question)%nat then
             answer (Jsonify (ErrorBody "Question must be less than 500 characters") 400)
           else
             video <~ get_video_by_id (aq_lookup o) ;;
             match video with
             | None => answer (Jsonify (ErrorBody "Video not found") 404)
             | Some video =>
                 user_id <~ session_get "user_id" (s_user_id sess) ;;
                 question_id <~ add_question video_id user_id question (aq_insert o) ;;
                 match question_id with
                 | Some id =>
                     if negb (id =? 0)%Z then
                       perform (StartAnswer id video_id question
                                  (title (stored video)) (description (stored video))) ~;;
                       answer (Jsonify (QuestionSaved id) 200)
                     else answer (Jsonify (ErrorBody "Failed to save question") 500)
                 | None => answer (Jsonify (ErrorBody "Failed to save question") 500)
                 end
             end)
        (fun _ => answer (Jsonify (ErrorBody "Internal server error") 500))
  end.

Definition is_answer_job (e : web_event) : bool :=
  match e with
  | StartAnswer _ _ _ _ _ => true
  | _ => false
  end.

(** *** [/download_video/<int:video_id>] *)

Record ServeObs : Type := {
  sv_lookup : LookupObs;         (* get_video_by_id(video_id) *)
  sv_exists : bool;              (* os.path.exists(video['video_path']) *)
  sv_validate : ValidateObs;     (* validate_video_file(video['video_path']) *)
  sv_makedirs : result unit;     (* get_video_folder(video_id) *)
  sv_repair : RepairObs;         (* repair_video_file(...) *)
  sv_download : option string    (* request.args.get('download') *)
}.

Definition download_video (sess : Session) (video_id : Z) (o : ServeObs) : Route Response :=
  match s_user sess with
  | None => answer (RedirectTo "/login")
  | Some _ =>
      video <~ get_video_by_id (sv_lookup o) ;;
      match video with
      | None =>
          flash "Video not found" "error" ~;;
          answer (RedirectTo "/dashboard")
      | Some video =>
          if Py.truthy (video_path (stored video)) && sv_exists o then
            let stored_path := Py.value (video_path (stored video)) in
            verdict <~ call (validate_video_file stored_path (sv_validate o)) ;;
            let '(is_valid, message) := verdict in
            chosen <~
              (if negb is_valid then
                 flash ("Video file has issues: " ++ message ++ ". Attempting repair...")
                   "warning" ~;;
                 video_folder <~ call (get_video_folder video_id (sv_makedirs o)) ;;
                 outcome <~ call (repair_video_file stored_path video_folder (sv_repair o)) ;;
                 let '(repaired, repaired_path) := outcome in
                 if negb repaired then
                   flash "Video file could not be repaired" "error" ~;;
                   answer (inl (RedirectTo ("/video/" ++ Py.str_of_int video_id)))
                 else answer (inr (Py.replace "\" "/" repaired_path))
               else answer (inr (Py.replace "\" "/" stored_path))) ;;
            match chosen with
            | inl response => answer response
            | inr video_path =>
                match sv_download o with
                | Some value =>
                    if String.eqb value "true"
                    then answer (SendFile video_path true)
                    else answer (SendFile video_path false)
                | None => answer (SendFile video_path false)
                end
            end
          else
            flash "Video file not available yet. Please wait for processing to complete."
              "error" ~;;
            answer (RedirectTo ("/video/" ++ Py.str_of_int video_id))
      end
  end.

(** A session after [login], and a request that goes well *)
Definition logged_in : Session :=
  {| s_user := Some "ada"; s_user_id := Some 3%Z; s_user_role := Some "user" |}.

Definition finished_process (output : string) : CompletedProcess :=
  {| returncode := 0; stdout := output; stderr := "" |}.

Definition accepted_link : AddVideoObs :=
  {| av_title := Returns (finished_process "A talk");
     av_description := Returns (finished_process "A talk about proofs and programs");
     av_insert := {| in_db := Commits; in_lastrowid := Some 7%Z |};
     av_makedirs := Returns tt |}.

(** *** [/login] *)

Inductive Method : Type := GET | POST.

(** A row of [users] *)
Record User : Type := {
  u_id : Z;
  u_username : string;
  u_password : string;
  u_role : string
}.

Record UserLookupObs : Type := { ul_db : DbObs; ul_row : option User }.

Definition get_user_by_username (username : string) (o : UserLookupObs)
  : Route (option User) :=
  match get_db_connection (ul_db o) with
  | Some _ =>
      route_finally
        (route_try_on is_mysql_error
           (call (connection_cursor (ul_db o)) ~;;
            call (select_execute (ul_db o)) ~;;
            answer (ul_row o))
           (fun _ => answer None))
        (call (cursor_close (ul_db o)))
  | None => answer None
  end.

Definition login (method : Method) (form_username form_password : string)
    (o : UserLookupObs) : Route Response :=
  match method with
  | POST =>
      let username := sanitize_input form_username in
      let password := form_password in
      if negb (Py.truthy (Some username)) || negb (Py.truthy (Some password)) then
        flash "Username and password are required" "error" ~;;
        answer (RedirectTo "/login")
      else
        user <~ get_user_by_username username o ;;
        match user with
        | Some user =>
            if String.eqb (u_password user) password then
              perform (LogIn (u_username user) (u_id user) (u_role user)) ~;;
              flash ("Welcome back, " ++ u_username user ++ "!") "success" ~;;
              answer (RedirectTo "/dashboard")
            else
              flash "Invalid credentials" "error" ~;;
              answer (Render "login.html")
        | None =>
            flash "Invalid credentials" "error" ~;;
            answer (Render "login.html")
        end
  | GET => answer (Render "login.html")
  end.

(** A stored file that passes the validation, and the request for it *)
Definition stored_video : ServeObs :=
  {| sv_lookup :=
       {| lk_db := Commits;
          lk_row := Some {| added_by := 3;
                            stored := {| download_status := completed;
                                         video_path := Some "static/downloads/video_7/video_1700000000.mp4";
                                         audio_path := None;
                                         transcript_path := None;
                                         title := Some "A talk";
                                         description := None |} |} |};
     sv_exists := true;
     sv_validate := h264_file;
     sv_makedirs := Returns tt;
     sv_repair := repair_replaces;
     sv_download := None |}.

Definition ada : UserLookupObs :=
  {| ul_db := Commits;
     ul_row := Some {| u_id := 3; u_username := "ada"; u_password := "analytical";
                       u_role := "user" |} |}.

(** The tool printed ASCII text, where [len], the slices and [strip] of
    the model are those of Python. *)
Definition ascii_output (run : result CompletedProcess) : bool :=
  match run with
  | Returns result => PyStr.is_ascii (stdout result)
  | Raises _ => true
  end.

(** The text of the question that a request carries, when there is one,
    and a request whose question is ASCII text. *)
Definition question_of (o : AskObs) : option string :=
  match aq_json o with
  | Returns (JObject fields) =>
      match lookup_field "question" fields with
      | Some (JString raw) => Some raw
      | _ => None
      end
  | _ => None
  end.

Definition ascii_question (o : AskObs) : bool :=
  match question_of o with
  | Some raw => PyStr.is_ascii raw
  | None => true
  end.

(** A question about video 7 that is stored under the id 11 *)
Definition asked : AskObs :=
  {| aq_json := Returns (JObject [("question", JString " What is a proof? ")]);
     aq_lookup := sv_lookup stored_video;
     aq_insert := {| in_db := Commits; in_lastrowid := Some 11%Z |} |}.

(* ================================================================== *)
(** * Properties *)
(* ================================================================== *)

(** ** The model at work *)

Example basename_splitext :
  OsPath.splitext (OsPath.basename "static/downloads/video_7/video_1700000000.mp4")
  = ("video_1700000000", ".mp4").
Proof. reflexivity. Qed.

Example splitext_leading_dot : OsPath.splitext "static/.hidden" = ("static/.hidden", "").
Proof. reflexivity. Qed.

Example transcript_path_example :
  transcript_path_of "static/downloads/video_7/video_1700000000_audio.wav"
    "static/downloads/video_7"
  = "static/downloads/video_7/video_1700000000_transcript.txt".
Proof. reflexivity. Qed.

Example replace_backslashes :
  fix_separators (Some "static\downloads\video_7\video_1.mp4")
  = Some "static/downloads/video_7/video_1.mp4".
Proof. reflexivity. Qed.

Example repr_list_example :
  Py.repr_list ["audio"; "unknown"] = "['audio', 'unknown']".
Proof. reflexivity. Qed.

(** A 5 MB download with a video stream, audio and speech: the job is
    [completed] with its three paths. *)
Example run_with_everything :
  let w := world_of (download_of h264_file repair_fails) h264_file repair_fails h264_file
             audio_extracted Commits Commits in
  final_row (download_video_background 7 sample_link w (state_of sample_row)) =
  {| download_status := completed;
     video_path := Some "static/downloads/video_7/video_1700000000.mp4";
     audio_path := Some "static/downloads/video_7/video_1700000000_audio.wav";
     transcript_path := Some "static/downloads/video_7/video_1700000000_transcript.txt";
     title := Some "A talk";
     description := Some DEFAULT_DESCRIPTION |}.
Proof. reflexivity. Qed.

(** A download that leaves only 500 kB: the fetcher finds no file of the
    minimum size, the job is [failed], nothing is validated or repaired. *)
Example run_with_small_download :
  let download :=
    {| d_makedirs := Returns tt;
       d_ytdlp := Returns (exited 0 "");
       d_listdir := Returns [{| entry_name := "video_1700000000.mp4";
                                entry_size := Returns 512000%Z |}];
       d_validate := small_file;
       d_repair := repair_fails |} in
  let w := world_of download small_file repair_fails small_file no_audio Commits Commits in
  let run := download_video_background 7 sample_link w (state_of sample_row) in
  download_status (final_row run) = failed /\
  count_events is_validate_call (events_of run) = 0%nat /\
  count_events is_repair_call (events_of run) = 0%nat.
Proof. cbv zeta. split; [reflexivity|]. split; reflexivity. Qed.

(** A download of an audio file: the probe lists no stream, the fetcher
    tries a repair, and with a repair that fails the job is [failed]. *)
Example run_without_video_stream :
  let w := world_of (download_of audio_only_stream repair_fails) audio_only_stream
             repair_fails h264_file audio_extracted Commits Commits in
  let run := download_video_background 7 sample_link w (state_of sample_row) in
  download_status (final_row run) = failed /\
  count_events is_repair_call (events_of run) = 1%nat.
Proof. cbv zeta. split; reflexivity. Qed.

(** The retry loop of the audio extractor: three attempts, two pauses. *)
Example audio_retries :
  let run := extract_audio_from_video "v.mp4" "d" (fun _ => no_audio) (state_of sample_row) in
  fst run = Returns None /\
  events_of run =
    [EvExtractAudio "v.mp4" "d";
     EvFfmpegAudio "v.mp4" "d"; EvPydub "v.mp4" "d"; EvSleep 2;
     EvFfmpegAudio "v.mp4" "d"; EvPydub "v.mp4" "d"; EvSleep 2;
     EvFfmpegAudio "v.mp4" "d"; EvPydub "v.mp4" "d"].
Proof. cbv zeta. split; reflexivity. Qed.

(** Three jobs on two permits: after the first two have acquired, the
    third stays blocked however often it is scheduled. *)
Example third_job_waits :
  let w := world_of (download_of h264_file repair_fails) h264_file repair_fails h264_file
             audio_extracted Commits Commits in
  let job := {| job_id := 7; job_link := sample_link; job_world := w;
                job_row := sample_row |} in
  let sys := run_schedule [0; 1; 2; 2; 2]%nat (submit [job; job; job]) in
  permits sys = 0%nat /\ map holding (threads sys) = [true; true; false].
Proof. cbv zeta. split; reflexivity. Qed.

(** ** Strings *)

Lemma prefix_app (p r : string) : String.prefix p (p ++ r) = true.
Proof.
  induction p as [|c p IH]; simpl.
  - destruct r; reflexivity.
  - destruct (ascii_dec c c); [exact IH | congruence].
Qed.

Lemma contains_unfold (needle hay : string) :
  Py.contains needle hay =
  String.prefix needle hay ||
  match hay with
  | EmptyString => false
  | String _ rest => Py.contains needle rest
  end.
Proof. destruct hay; reflexivity. Qed.

Lemma contains_app_l (needle rest : string) :
  Py.contains needle (needle ++ rest) = true.
Proof.
  rewrite contains_unfold, prefix_app. reflexivity.
Qed.

Lemma contains_app_r (needle pre hay : string) :
  Py.contains needle hay = true -> Py.contains needle (pre ++ hay) = true.
Proof.
  intros H. induction pre as [|c pre IH]; simpl in *.
  - exact H.
  - rewrite IH. apply orb_true_r.
Qed.

(** ** The chunk loop *)

Lemma split_loop_length (audio_len start : Z) (chunks : list (Z * Z)) :
  Z.of_nat (List.length (split_loop audio_len start chunks)) =
  (Z.of_nat (List.length chunks) + Z.max 0 ((audio_len - start + 13999) / 14000))%Z.
Proof.
  funelim (split_loop audio_len start chunks).
  - match goal with IH : Z.of_nat _ = _ |- _ => rewrite IH end.
    rewrite length_app. simpl List.length.
    unfold chunk_length, overlap.
    replace (audio_len - (start + (15000 - 1000)) + 13999)%Z
      with ((audio_len - start + 13999) + (-1) * 14000)%Z by lia.
    rewrite Z.div_add by lia.
    assert (1 <= (audio_len - start + 13999) / 14000)%Z.
    { apply Z.div_le_lower_bound; lia. }
    lia.
  - assert ((audio_len - start + 13999) / 14000 <= 0)%Z.
    { apply Z.lt_succ_r. apply Z.div_lt_upper_bound; lia. }
    lia.
Qed.

Lemma split_chunks_length (d : Z) :
  Z.of_nat (List.length (split_chunks d)) = Z.max 0 ((d + 13999) / 14000)%Z.
Proof.
  unfold split_chunks. rewrite split_loop_length. simpl List.length.
  replace (d - 0 + 13999)%Z with (d + 13999)%Z by lia. lia.
Qed.

(** C5, as the specification states it, fails: an audio of 43 seconds is
    longer than the 30-second threshold and is cut into four chunks (the
    last one, from 42 s to 43 s, lies inside the overlap of the third),
    where [ceil((D - O) / (L - O))] is three; and an audio of 14.5
    seconds, not longer than one chunk, is cut into two. *)
Lemma C5_counterexample :
  (LONG_AUDIO_MS < 43000)%Z /\
  split_chunks 43000 = [(0, 15000); (14000, 29000); (28000, 43000); (42000, 43000)]%Z /\
  spec_chunk_count 43000 = 3%Z /\
  Z.of_nat (List.length (split_chunks 43000)) <> spec_chunk_count 43000 /\
  (14500 <= chunk_length)%Z /\
  List.length (split_chunks 14500) = 2%nat.
Proof.
  split; [reflexivity|]. split; [reflexivity|]. split; [reflexivity|].
  split; [vm_compute; discriminate|]. split; [vm_compute; discriminate | reflexivity].
Qed.

(** C5, amended: an audio of [d] milliseconds is cut into
    [ceil(d / (L - O))] chunks, one every 14 seconds; that is the count
    [ceil((d - O) / (L - O))] of the specification, plus one when [d]
    exceeds a multiple of [L - O] by at most the overlap [O]; an audio of
    at most [L - O] = 14 seconds (and not empty) gives one chunk. *)
Theorem C5_chunk_count (d : Z) :
  (0 < d)%Z ->
  Z.of_nat (List.length (split_chunks d)) = ceil_div d (chunk_length - overlap) /\
  Z.of_nat (List.length (split_chunks d)) =
    (spec_chunk_count d +
     (if (0 <? d mod (chunk_length - overlap))%Z && (d mod (chunk_length - overlap) <=? overlap)%Z
      then 1 else 0))%Z /\
  ((d <= chunk_length - overlap)%Z -> List.length (split_chunks d) = 1%nat).
Proof.
  intros Hd.
  assert (Hlen := split_chunks_length d).
  unfold spec_chunk_count, ceil_div, chunk_length, overlap in *.
  replace (15000 - 1000)%Z with 14000%Z by reflexivity.
  replace (d + 14000 - 1)%Z with (d + 13999)%Z by lia.
  replace (d - 1000 + 14000 - 1)%Z with (d + 12999)%Z by lia.
  assert (H0 : (0 <= (d + 13999) / 14000)%Z) by (apply Z.div_pos; lia).
  rewrite Z.max_r in Hlen by exact H0.
  pose proof (Z.div_mod d 14000 ltac:(lia)) as Hdm.
  pose proof (Z.mod_pos_bound d 14000 ltac:(lia)) as Hm.
  set (q := (d / 14000)%Z) in *. set (r := (d mod 14000)%Z) in *.
  assert (Hq1 : ((d + 13999) / 14000 = q + (if (0 <? r)%Z then 1 else 0))%Z).
  { destruct (Z.ltb_spec 0 r).
    - symmetry. apply Z.div_unique with (r := (r - 1)%Z); lia.
    - symmetry. apply Z.div_unique with (r := 13999%Z); lia. }
  assert (Hq2 : ((d + 12999) / 14000 = q + (if (1000 <? r)%Z then 1 else 0))%Z).
  { destruct (Z.ltb_spec 1000 r).
    - symmetry. apply Z.div_unique with (r := (r - 1001)%Z); lia.
    - symmetry. apply Z.div_unique with (r := (r + 12999)%Z); lia. }
  split; [exact Hlen|]. split.
  - rewrite Hlen, Hq1, Hq2.
    destruct (Z.ltb_spec 0 r), (Z.ltb_spec 1000 r), (Z.leb_spec r 1000); simpl; lia.
  - intros Hle.
    assert ((d + 13999) / 14000 = 1)%Z.
    { symmetry. apply Z.div_unique with (r := (d - 1)%Z); lia. }
    lia.
Qed.

Lemma C5_chunk_count_witness :
  (0 < 43000)%Z /\
  Z.of_nat (List.length (split_chunks 43000)) = ceil_div 43000 (chunk_length - overlap).
Proof.
  split; [lia | apply (C5_chunk_count 43000); lia].
Defined.

(** ** The persistence interface *)

Lemma replace_from_nonempty (old new : string) (c : ascii) (rest : string) :
  new <> EmptyString ->
  Py.replace_from old new 0 (String c rest) <> EmptyString.
Proof.
  intros Hnew. cbn [Py.replace_from].
  destruct (String.prefix old (String c rest)).
  - destruct new; [congruence | simpl; discriminate].
  - discriminate.
Qed.

Lemma truthy_fix_separators (p : option string) :
  Py.truthy (fix_separators p) = Py.truthy p.
Proof.
  unfold fix_separators.
  destruct (Py.truthy p) eqn:E; [|exact E].
  destruct p as [s|]; [|cbn in E; discriminate E].
  destruct s as [|c rest]; [cbn in E; discriminate E|].
  cbn [option_map Py.truthy]. unfold Py.replace.
  destruct (Py.replace_from "\" "/" 0 (String c rest)) eqn:R; [|reflexivity].
  exfalso. revert R. apply replace_from_nonempty. discriminate.
Qed.

(** The row and the answer after a call of [update_video_download_status]:
    the chosen [UPDATE] is applied when the session commits; otherwise
    the row stays as it is. *)
Lemma update_video_download_status_row
    (o : DbObs) (status : Status) (v a t : option string) (s : St) :
  let run := update_video_download_status o status v a t s in
  final_row run =
    match o with
    | Commits =>
        run_update (status_update status (fix_separators v) (fix_separators a)
                      (fix_separators t)) (row s)
    | _ => row s
    end /\
  (o = Commits -> fst run = Returns true).
Proof.
  destruct o as [|e|e|e|]; cbv zeta;
    unfold update_video_download_status, final_row, try_finally, try_except_on, bind;
    cbn [get_db_connection connection_cursor cursor_close cursor_execute
         connection_commit raise ret commit_update emit fst snd row].
  - split; [reflexivity | discriminate].
  - destruct (is_mysql_error (exn_cls e)); split; (reflexivity || discriminate).
  - destruct (is_mysql_error (exn_cls e)); split; (reflexivity || discriminate).
  - destruct (is_mysql_error (exn_cls e)); split; (reflexivity || discriminate).
  - split; reflexivity.
Qed.

Lemma status_update_sets_status status v a t r :
  download_status (run_update (status_update status v a t) r) = status.
Proof.
  unfold status_update.
  destruct (Py.truthy v), (Py.truthy a), (Py.truthy t); reflexivity.
Qed.

(** C9: what [update_video_download_status] persists.  When the session
    commits, the status is written; the video path is written when it is
    given (not [None], not empty); the audio path is written only when the
    video path is given too; the transcript path only when the video and
    the audio path are both given.  In every other combination the audio
    and transcript paths given are dropped without an error, and the
    columns keep their values.  Title and description are never touched,
    and nothing is written when the session does not commit. *)
Theorem C9_paths_persisted_only_with_video
    (o : DbObs) (status : Status) (v a t : option string) (s : St) :
  let run := update_video_download_status o status v a t s in
  let committed := match o with Commits => true | _ => false end in
  let r := row s in
  let r' := final_row run in
  download_status r' = (if committed then status else download_status r) /\
  video_path r' =
    (if committed && Py.truthy v then fix_separators v else video_path r) /\
  audio_path r' =
    (if committed && Py.truthy v && Py.truthy a then fix_separators a else audio_path r) /\
  transcript_path r' =
    (if committed && Py.truthy v && Py.truthy a && Py.truthy t
     then fix_separators t else transcript_path r) /\
  title r' = title r /\
  description r' = description r /\
  (committed = true -> fst run = Returns true).
Proof.
  cbv zeta.
  destruct (update_video_download_status_row o status v a t s) as [Hrow Hret].
  cbv zeta in Hrow, Hret. rewrite Hrow.
  destruct o as [|e|e|e|]; cbn [andb];
    try (repeat split; (reflexivity || discriminate)).
  unfold status_update. rewrite !truthy_fix_separators.
  destruct (Py.truthy v), (Py.truthy a), (Py.truthy t); cbn;
    repeat split; auto.
Qed.

Lemma C9_paths_persisted_only_with_video_witness :
  let s := state_of (new_row "t" "d") in
  let run := update_video_download_status Commits completed None
               (Some "a\b_audio.wav") (Some "a\b_transcript.txt") s in
  fst run = Returns true /\
  download_status (final_row run) = completed /\
  audio_path (final_row run) = None /\
  transcript_path (final_row run) = None.
Proof.
  pose proof (C9_paths_persisted_only_with_video Commits completed None
                (Some "a\b_audio.wav") (Some "a\b_transcript.txt")
                (state_of (new_row "t" "d"))) as H.
  cbv zeta in H. destruct H as (Hs & _ & Ha & Ht & _ & _ & Hr).
  cbv zeta. split; [apply Hr; reflexivity|].
  split; [exact Hs|]. split; [exact Ha | exact Ht].
Defined.

(** ** The validator *)

Lemma count_events_app (kind : event -> bool) (t1 t2 : list event) :
  count_events kind (t1 ++ t2) = (count_events kind t1 + count_events kind t2)%nat.
Proof. unfold count_events. rewrite filter_app, length_app. reflexivity. Qed.

(** C6: a file that exists and is smaller than 1024000 bytes fails
    validation with the "File too small" verdict, and the only thing the
    validator does is the size check: the trace gains the entry into the
    function and no [ffprobe] invocation of either kind. *)
Theorem C6_small_file_fails_without_probe
    (video_path : string) (o : ValidateObs) (file_size : Z) (s : St) :
  v_exists o = true ->
  v_getsize o = Returns file_size ->
  (file_size < MIN_VIDEO_SIZE)%Z ->
  let run := validate_video_file video_path o s in
  fst run = Returns (false, "File too small: " ++ Py.str_of_int file_size ++ " bytes") /\
  events_of run = (trace s ++ [EvValidate video_path])%list /\
  count_events is_ffprobe (events_of run) = count_events is_ffprobe (trace s).
Proof.
  intros Hex Hsize Hsmall.
  assert (Hrun : validate_video_file video_path o s =
                 (Returns (false, "File too small: " ++ Py.str_of_int file_size ++ " bytes"),
                  {| row := row s; trace := (trace s ++ [EvValidate video_path])%list |})).
  { unfold validate_video_file, bind, emit, try_except, observe, ret.
    rewrite Hex, Hsize. simpl.
    apply Z.ltb_lt in Hsmall. rewrite Hsmall. reflexivity. }
  cbv zeta. rewrite Hrun. unfold events_of. simpl.
  split; [reflexivity|]. split; [reflexivity|].
  rewrite count_events_app.
  change (count_events is_ffprobe [EvValidate video_path]) with 0%nat.
  apply Nat.add_0_r.
Qed.

Lemma C6_small_file_fails_without_probe_witness :
  fst (validate_video_file "static/downloads/video_1/video_1700000000.mp4" small_file
         (state_of (new_row "t" "d")))
  = Returns (false, "File too small: 512000 bytes").
Proof.
  apply (C6_small_file_fails_without_probe
           "static/downloads/video_1/video_1700000000.mp4" small_file 512000
           (state_of (new_row "t" "d"))); reflexivity.
Defined.

(** ** Paths *)

Lemma length_append (a b : string) :
  String.length (a ++ b) = (String.length a + String.length b)%nat.
Proof. induction a; simpl; congruence. Qed.

Lemma append_nil_r (a : string) : a ++ "" = a.
Proof. induction a; simpl; congruence. Qed.

Lemma append_assoc (a b c : string) : (a ++ b) ++ c = a ++ (b ++ c).
Proof. induction a; simpl; congruence. Qed.

Lemma append_inv_head (a b c : string) : a ++ b = a ++ c -> b = c.
Proof. induction a; simpl; intros H; [exact H | injection H; auto]. Qed.

Lemma substring_all (s : string) : String.substring 0 (String.length s) s = s.
Proof. induction s; simpl; congruence. Qed.

Lemma substring_skip (a b : string) (n : nat) :
  String.substring (String.length a) n (a ++ b) = String.substring 0 n b.
Proof. induction a; simpl; auto. Qed.

Lemma substring_prefix (a b : string) :
  String.substring 0 (String.length a) (a ++ b) = a.
Proof. induction a; simpl; [destruct b; reflexivity | congruence]. Qed.

Lemma lacks_app (c : ascii) (a b : string) :
  lacks c (a ++ b) = lacks c a && lacks c b.
Proof.
  unfold lacks. induction a as [|d a IH]; simpl; [reflexivity|].
  rewrite IH. apply andb_assoc.
Qed.

Lemma rfind_from_lacks (c : ascii) (s : string) (i found : Z) :
  lacks c s = true -> Py.rfind_from c i found s = found.
Proof.
  unfold lacks. revert i found. induction s as [|d s IH]; simpl; intros i found H; [reflexivity|].
  apply andb_true_iff in H. destruct H as [Hd Hs].
  apply negb_true_iff in Hd. rewrite Hd. apply IH. exact Hs.
Qed.

Lemma rfind_from_split (c : ascii) (s : string) (i found : Z) :
  (lacks c s = true /\ Py.rfind_from c i found s = found) \/
  (exists a b, s = a ++ String c b /\ lacks c b = true /\
               Py.rfind_from c i found s = i + Z.of_nat (String.length a)).
Proof.
  revert i found. induction s as [|d s IH]; intros i found.
  - left. split; reflexivity.
  - cbn [Py.rfind_from].
    destruct (IH (i + 1) (if Ascii.eqb d c then i else found)) as [[Hl Hr] | (a & b & Hs & Hb & Hr)].
    + destruct (Ascii.eqb d c) eqn:E.
      * right. apply Ascii.eqb_eq in E. subst d.
        exists "", s. repeat split; [exact Hl | rewrite Hr; simpl; lia].
      * left. split; [|exact Hr].
        unfold lacks in *. simpl. rewrite E, Hl. reflexivity.
    + right. exists (String d a), b. repeat split.
      * simpl. congruence.
      * exact Hb.
      * rewrite Hr. simpl String.length. lia.
Qed.

Lemma slice_from_app (a b : string) :
  Py.slice_from (Z.of_nat (String.length a)) (a ++ b) = b.
Proof.
  unfold Py.slice_from. rewrite Nat2Z.id, length_append.
  replace (String.length a + String.length b - String.length a)%nat
    with (String.length b) by lia.
  rewrite substring_skip. apply substring_all.
Qed.

Lemma slice_to_app (a b : string) :
  Py.slice_to (Z.of_nat (String.length a)) (a ++ b) = a.
Proof. unfold Py.slice_to. rewrite Nat2Z.id. apply substring_prefix. Qed.

(** [os.path.basename] splits at the last slash. *)
Lemma basename_split (p : string) :
  exists dir, p = dir ++ OsPath.basename p /\ lacks "/" (OsPath.basename p) = true /\
              (dir = "" \/ exists d, dir = d ++ "/").
Proof.
  unfold OsPath.basename, Py.rfind.
  destruct (rfind_from_split "/" p 0 (-1)) as [[Hl Hr] | (a & b & Hs & Hb & Hr)].
  - rewrite Hr. exists "". change (Py.slice_from (-1 + 1) p) with (Py.slice_from (Z.of_nat (String.length "")) ("" ++ p)).
    rewrite slice_from_app. auto.
  - rewrite Hr. subst p.
    replace (0 + Z.of_nat (String.length a) + 1) with (Z.of_nat (String.length (a ++ "/"))).
    2:{ rewrite length_append. simpl. lia. }
    replace (a ++ String "/" b) with ((a ++ "/") ++ b) by (rewrite append_assoc; reflexivity).
    rewrite slice_from_app. exists (a ++ "/"). repeat split; eauto.
Qed.

Lemma rfind_from_app (c : ascii) (a b : string) (i found : Z) :
  Py.rfind_from c i found (a ++ b) =
  Py.rfind_from c (i + Z.of_nat (String.length a)) (Py.rfind_from c i found a) b.
Proof.
  revert i found. induction a as [|d a IH]; intros i found.
  - simpl. f_equal. lia.
  - cbn [append Py.rfind_from String.length]. rewrite IH. f_equal. lia.
Qed.

Lemma basename_of_app (dir name : string) :
  lacks "/" name = true ->
  (dir = "" \/ exists d, dir = d ++ "/") ->
  OsPath.basename (dir ++ name) = name.
Proof.
  intros Hname Hdir. unfold OsPath.basename, Py.rfind.
  destruct Hdir as [-> | [d ->]].
  - simpl. rewrite rfind_from_lacks by exact Hname.
    change (Py.slice_from (-1 + 1) name)
      with (Py.slice_from (Z.of_nat (String.length "")) ("" ++ name)).
    apply slice_from_app.
  - rewrite rfind_from_app, (rfind_from_lacks _ name) by exact Hname.
    rewrite rfind_from_app. simpl Py.rfind_from.
    match goal with
    | |- Py.slice_from ?i _ = _ =>
        replace i with (Z.of_nat (String.length (d ++ "/")))
    end.
    2:{ rewrite length_append. simpl. lia. }
    apply slice_from_app.
Qed.

(** [os.path.splitext] cuts a name without slash into a root and an
    extension that is empty or starts with a dot. *)
Lemma splitext_split (b : string) :
  lacks "/" b = true ->
  exists ext : string, b = fst (OsPath.splitext b) ++ ext /\
              (ext = "" \/ exists e, ext = String "." e).
Proof.
  intros Hb. unfold OsPath.splitext, Py.rfind.
  rewrite (rfind_from_lacks _ b) by exact Hb.
  destruct (rfind_from_split "." b 0 (-1)) as [[Hl Hr] | (a & e & Hs & He & Hr)].
  - rewrite Hr. simpl. exists "". rewrite append_nil_r. auto.
  - rewrite Hr.
    destruct (-1 <? 0 + Z.of_nat (String.length a))%Z;
      [|exists ""; simpl; rewrite append_nil_r; auto].
    match goal with |- context [if ?c then _ else _] => destruct c end.
    + exists "". simpl. rewrite append_nil_r. auto.
    + exists (String "." e). simpl fst. subst b.
      replace (0 + Z.of_nat (String.length a)) with (Z.of_nat (String.length a)) by lia.
      rewrite slice_to_app. eauto.
Qed.

Lemma endswith_char (c : ascii) (a : string) :
  Py.endswith (String c "") a = true -> exists d, a = d ++ String c "".
Proof.
  unfold Py.endswith. simpl String.length.
  induction a as [|x a IH]; [discriminate|].
  intros H. apply andb_true_iff in H. destruct H as [_ H].
  apply String.eqb_eq in H.
  destruct a as [|y a].
  - simpl in H. exists "". simpl. congruence.
  - destruct IH as [d Hd].
    + apply andb_true_iff. split; [reflexivity|]. apply String.eqb_eq.
      rewrite <- H. simpl String.length.
      replace (S (S (String.length a)) - 1)%nat with (S (String.length a - 0))%nat by lia.
      replace (S (String.length a) - 1)%nat with (String.length a - 0)%nat by lia.
      reflexivity.
    + exists (String x d). simpl. congruence.
Qed.

Lemma endswith_app (x suf : string) : Py.endswith suf (x ++ suf) = true.
Proof.
  unfold Py.endswith. rewrite length_append.
  apply andb_true_iff. split; [apply Nat.leb_le; lia|].
  replace (String.length x + String.length suf - String.length suf)%nat
    with (String.length x) by lia.
  rewrite substring_skip, substring_all. apply String.eqb_refl.
Qed.

Lemma startswith_slash_lacks (name : string) :
  lacks "/" name = true -> Py.startswith "/" name = false.
Proof.
  unfold Py.startswith. destruct name as [|c r]; [reflexivity|].
  unfold lacks. cbn [Py.all_chars]. intros H.
  apply andb_true_iff in H. destruct H as [H _].
  apply negb_true_iff, Ascii.eqb_neq in H.
  cbn [String.prefix]. destruct (ascii_dec "/" c); [congruence | reflexivity].
Qed.

(** [os.path.join] puts a relative name behind a directory prefix. *)
Lemma join_split (folder name : string) :
  lacks "/" name = true ->
  exists dir, OsPath.join folder name = dir ++ name /\
              (dir = "" \/ exists d, dir = d ++ "/").
Proof.
  intros Hname. unfold OsPath.join.
  rewrite startswith_slash_lacks by exact Hname.
  destruct (String.eqb folder "") eqn:E.
  - apply String.eqb_eq in E. subst folder. exists "". auto.
  - simpl. destruct (Py.endswith "/" folder) eqn:F.
    + exists folder. split; [reflexivity|]. right. apply endswith_char. exact F.
    + exists (folder ++ "/"). split; [rewrite append_assoc; reflexivity|]. eauto.
Qed.

Lemma repaired_path_shape (video_path output_folder : string) :
  exists dir base ext,
    repaired_path_of video_path output_folder = dir ++ base ++ "_repaired.mp4" /\
    OsPath.basename video_path = base ++ ext /\
    (ext = "" \/ exists e, ext = String "." e) /\
    lacks "/" base = true /\
    (dir = "" \/ exists d, dir = d ++ "/").
Proof.
  unfold repaired_path_of.
  destruct (basename_split video_path) as (dir0 & _ & Hb & _).
  destruct (splitext_split _ Hb) as (ext & Hext & Hshape).
  set (base := fst (OsPath.splitext (OsPath.basename video_path))) in *.
  assert (Hbase : lacks "/" base = true).
  { rewrite Hext, lacks_app in Hb. apply andb_true_iff in Hb. tauto. }
  destruct (join_split output_folder (base ++ "_repaired.mp4")) as (dir & Hj & Hdir).
  { rewrite lacks_app, Hbase. reflexivity. }
  exists dir, base, ext. auto.
Qed.

(** The repaired file has a name of its own: it ends in [_repaired.mp4]
    and is never the path of the file under repair. *)
Lemma repaired_path_fresh (video_path output_folder : string) :
  Py.endswith "_repaired.mp4" (repaired_path_of video_path output_folder) = true /\
  repaired_path_of video_path output_folder <> video_path.
Proof.
  destruct (repaired_path_shape video_path output_folder)
    as (dir & base & ext & Hrp & Hb & Hext & Hbase & Hdir).
  split.
  - rewrite Hrp, <- append_assoc. apply endswith_app.
  - intros Heq.
    assert (Hname : OsPath.basename (repaired_path_of video_path output_folder)
                    = base ++ "_repaired.mp4").
    { rewrite Hrp. apply basename_of_app; [|exact Hdir].
      rewrite lacks_app, Hbase. reflexivity. }
    rewrite Heq, Hb in Hname. apply append_inv_head in Hname.
    destruct Hext as [-> | [e ->]]; discriminate.
Qed.

(** ** The repairer *)

(** C10: when the re-encoding succeeds ([ffmpeg] exits with 0 and the
    output exists) and the output passes the size test of the repairer
    (more than 1024000 bytes), an exception of [os.remove(video_path)] or
    of [os.rename(repaired_path, video_path)] is swallowed:
    [repair_video_file] reports success, returns the [_repaired.mp4] path,
    which is not the original video path, and the run contains no call of
    [validate_video_file]. *)
Theorem C10_repair_succeeds_when_replacing_fails
    (video_path output_folder : string) (o : RepairObs)
    (proc : CompletedProcess) (repaired_size : Z) (e : exn) (s : St) :
  r_ffmpeg o = Returns proc ->
  returncode proc = 0%Z ->
  r_exists o = true ->
  r_getsize o = Returns repaired_size ->
  (MIN_VIDEO_SIZE < repaired_size)%Z ->
  r_remove o = Raises e \/ (r_remove o = Returns tt /\ r_rename o = Raises e) ->
  let run := repair_video_file video_path output_folder o s in
  fst run = Returns (true, repaired_path_of video_path output_folder) /\
  Py.endswith "_repaired.mp4" (repaired_path_of video_path output_folder) = true /\
  repaired_path_of video_path output_folder <> video_path /\
  count_events is_validate_call (events_of run) = count_events is_validate_call (trace s).
Proof.
  intros Hff Hrc Hex Hsize Hbig Hfail. cbv zeta.
  destruct (repaired_path_fresh video_path output_folder) as [Hend Hneq].
  apply Z.ltb_lt in Hbig.
  unfold repair_video_file, events_of, bind, emit, try_except, observe, ret.
  rewrite Hff. cbn [fst snd row trace].
  rewrite Hrc, Hex. cbn [Z.eqb andb]. rewrite Hsize, Hbig.
  destruct Hfail as [Hrm | [Hrm Hrn]].
  - rewrite Hrm. cbn [fst snd row trace].
    repeat split; try assumption.
    rewrite <- !app_assoc, count_events_app. cbn. lia.
  - rewrite Hrm, Hrn. cbn [fst snd row trace].
    repeat split; try assumption.
    rewrite <- !app_assoc, count_events_app. cbn. lia.
Qed.

Lemma C10_repair_succeeds_when_replacing_fails_witness :
  fst (repair_video_file "static/downloads/video_1/video_1700000000.mp4"
         "static/downloads/video_1" locked_original (state_of (new_row "t" "d")))
  = Returns (true, "static/downloads/video_1/video_1700000000_repaired.mp4").
Proof.
  apply (C10_repair_succeeds_when_replacing_fails
           "static/downloads/video_1/video_1700000000.mp4" "static/downloads/video_1"
           locked_original {| returncode := 0; stdout := ""; stderr := "" |} 5000000
           (Exn OSError "[Errno 13] Permission denied") (state_of (new_row "t" "d")));
    try reflexivity.
  left. reflexivity.
Defined.

(** ** Counting events along a computation *)

Section Emits.

Variable kind : event -> bool.

Lemma emits_weaken {A} (n n' : nat) (m : M A) :
  emits kind n m -> (n <= n')%nat -> emits kind n' m.
Proof.
  intros H Hle s. destruct (H s) as (t & Ht & Hc).
  exists t. split; [exact Ht | lia].
Qed.

Lemma emits_nothing {A} (m : M A) :
  (forall s, snd (m s) = s) -> emits kind 0 m.
Proof.
  intros H s. exists []. rewrite H, app_nil_r. split; [reflexivity | apply Nat.le_refl].
Qed.

Lemma emits_ret {A} (a : A) : emits kind 0 (ret a).
Proof. apply emits_nothing. reflexivity. Qed.

Lemma emits_raise {A} (e : exn) : emits kind 0 (@raise A e).
Proof. apply emits_nothing. reflexivity. Qed.

Lemma emits_observe {A} (r : result A) : emits kind 0 (observe r).
Proof. apply emits_nothing. reflexivity. Qed.

Lemma emits_emit (e : event) : emits kind (if kind e then 1 else 0) (emit e).
Proof.
  intros s. exists [e]. split; [reflexivity|].
  unfold count_events. simpl. destruct (kind e); apply Nat.le_refl.
Qed.

Lemma emits_emit_quiet (e : event) : kind e = false -> emits kind 0 (emit e).
Proof. intros H. pose proof (emits_emit e) as He. rewrite H in He. exact He. Qed.

Lemma emits_commit_update (stmt : list assignment) :
  kind EvCommit = false -> emits kind 0 (commit_update stmt).
Proof.
  intros H s. exists [EvCommit]. split; [reflexivity|].
  unfold count_events. simpl. rewrite H. apply Nat.le_refl.
Qed.

Lemma emits_bind {A B} (n1 n2 : nat) (m : M A) (k : A -> M B) :
  emits kind n1 m -> (forall a, emits kind n2 (k a)) -> emits kind (n1 + n2) (bind m k).
Proof.
  intros Hm Hk s. unfold bind.
  destruct (Hm s) as (t1 & Ht1 & Hc1).
  destruct (m s) as [[a|e] s1]; simpl in *.
  - destruct (Hk a s1) as (t2 & Ht2 & Hc2).
    exists (t1 ++ t2)%list. rewrite Ht2, Ht1, app_assoc, count_events_app.
    split; [reflexivity | lia].
  - exists t1. split; [exact Ht1 | lia].
Qed.

Lemma emits_try_except_on {A} (n1 n2 : nat) (catches : exn_class -> bool)
    (m : M A) (h : exn -> M A) :
  emits kind n1 m -> (forall e, emits kind n2 (h e)) ->
  emits kind (n1 + n2) (try_except_on catches m h).
Proof.
  intros Hm Hh s. unfold try_except_on.
  destruct (Hm s) as (t1 & Ht1 & Hc1).
  destruct (m s) as [[a|e] s1]; simpl in *.
  - exists t1. split; [exact Ht1 | lia].
  - destruct (catches (exn_cls e)).
    + destruct (Hh e s1) as (t2 & Ht2 & Hc2).
      exists (t1 ++ t2)%list. rewrite Ht2, Ht1, app_assoc, count_events_app.
      split; [reflexivity | lia].
    + exists t1. split; [exact Ht1 | lia].
Qed.

Lemma emits_try_except {A} (n1 n2 : nat) (m : M A) (h : exn -> M A) :
  emits kind n1 m -> (forall e, emits kind n2 (h e)) ->
  emits kind (n1 + n2) (try_except m h).
Proof.
  intros Hm Hh s. unfold try_except.
  destruct (Hm s) as (t1 & Ht1 & Hc1).
  destruct (m s) as [[a|e] s1]; simpl in *.
  - exists t1. split; [exact Ht1 | lia].
  - destruct (Hh e s1) as (t2 & Ht2 & Hc2).
    exists (t1 ++ t2)%list. rewrite Ht2, Ht1, app_assoc, count_events_app.
    split; [reflexivity | lia].
Qed.

Lemma emits_try_finally {A} (n1 n2 : nat) (m : M A) (f : M unit) :
  emits kind n1 m -> emits kind n2 f -> emits kind (n1 + n2) (try_finally m f).
Proof.
  intros Hm Hf s. unfold try_finally.
  destruct (Hm s) as (t1 & Ht1 & Hc1).
  destruct (m s) as [r s1]; simpl in *.
  destruct (Hf s1) as (t2 & Ht2 & Hc2).
  exists (t1 ++ t2)%list.
  destruct (f s1) as [[u|e] s2]; simpl in *;
    rewrite Ht2, Ht1, app_assoc, count_events_app; split; (reflexivity || lia).
Qed.

End Emits.

(** One step of a proof that a computation emits no event of a kind. *)
Ltac quiet_event :=
  first
    [ reflexivity
    | match goal with
      | Hk : forall e, ?kind e = true -> _ |- ?kind ?e = false =>
          let K := fresh "K" in
          destruct (kind e) eqn:K; [apply Hk in K; cbn in K; destruct K; discriminate | reflexivity]
      end ].

Ltac quiet_step :=
  match goal with
  | |- emits _ _ (ret _) => apply emits_ret
  | |- emits _ _ (raise _) => apply emits_raise
  | |- emits _ _ (observe _) => apply emits_observe
  | |- emits _ _ (emit _) => apply emits_emit_quiet; quiet_event
  | |- emits _ _ (commit_update _) => apply emits_commit_update; quiet_event
  | |- emits ?k 0 (bind _ _) => apply (emits_bind k 0 0); [|intro]
  | |- emits ?k 0 (try_except _ _) => apply (emits_try_except k 0 0); [|intro]
  | |- emits ?k 0 (try_except_on _ _ _) => apply (emits_try_except_on k 0 0); [|intro]
  | |- emits ?k 0 (try_finally _ _) => apply (emits_try_finally k 0 0)
  | |- emits _ _ (if ?c then _ else _) => destruct c
  | |- emits _ _ (match ?x with _ => _ end) => destruct x
  | |- emits _ _ (let (_, _) := ?x in _) => destruct x
  end.

Create HintDb quiet.

Ltac quiet := repeat first [ solve [eauto 4 with quiet] | quiet_step ].

(** The kinds of events that only the repairer and the semaphore emit:
    every other function of the pipeline emits none of them. *)
Section Quiet.

Variable kind : event -> bool.
Hypothesis kind_rare :
  forall e, kind e = true -> is_repair_call e = true \/ is_semaphore_event e = true.

Lemma update_video_download_status_quiet o status v a t :
  emits kind 0 (update_video_download_status o status v a t).
Proof.
  unfold update_video_download_status, connection_cursor, cursor_execute,
    connection_commit, cursor_close.
  quiet.
Qed.

Lemma update_video_title_quiet o t : emits kind 0 (update_video_title o t).
Proof.
  unfold update_video_title, connection_cursor, cursor_execute,
    connection_commit, cursor_close.
  quiet.
Qed.

Lemma update_video_description_quiet o d : emits kind 0 (update_video_description o d).
Proof.
  unfold update_video_description, connection_cursor, cursor_execute,
    connection_commit, cursor_close.
  quiet.
Qed.

Lemma validate_video_file_quiet p o : emits kind 0 (validate_video_file p o).
Proof. unfold validate_video_file, file_type_check. quiet. Qed.

Lemma remove_if_exists_quiet p o : emits kind 0 (remove_if_exists p o).
Proof. unfold remove_if_exists. quiet. Qed.

Hint Resolve update_video_download_status_quiet update_video_title_quiet
  update_video_description_quiet validate_video_file_quiet remove_if_exists_quiet : quiet.

Lemma find_video_file_quiet folder files : emits kind 0 (find_video_file folder files).
Proof. induction files as [|file rest IH]; cbn [find_video_file]; quiet. Qed.

Lemma extract_audio_with_ffmpeg_quiet p f o : emits kind 0 (extract_audio_with_ffmpeg p f o).
Proof. unfold extract_audio_with_ffmpeg. quiet. Qed.

Lemma extract_audio_with_pydub_quiet p f o : emits kind 0 (extract_audio_with_pydub p f o).
Proof. unfold extract_audio_with_pydub. quiet. Qed.

Hint Resolve find_video_file_quiet extract_audio_with_ffmpeg_quiet
  extract_audio_with_pydub_quiet : quiet.

Lemma extract_audio_attempt_quiet p f i o : emits kind 0 (extract_audio_attempt p f i o).
Proof. unfold extract_audio_attempt. quiet. Qed.

Hint Resolve extract_audio_attempt_quiet : quiet.

Lemma extract_audio_loop_quiet p f obs i n : emits kind 0 (extract_audio_loop p f obs i n).
Proof. revert i. induction n as [|n IH]; intros i; cbn [extract_audio_loop]; quiet. Qed.

Hint Resolve extract_audio_loop_quiet : quiet.

Lemma extract_audio_from_video_quiet p f obs : emits kind 0 (extract_audio_from_video p f obs).
Proof. unfold extract_audio_from_video. quiet. Qed.

Lemma write_file_quiet p c w : emits kind 0 (write_file p c w).
Proof. unfold write_file. quiet. Qed.

Hint Resolve write_file_quiet : quiet.

Lemma create_empty_transcript_quiet a f msg w : emits kind 0 (create_empty_transcript a f msg w).
Proof. unfold create_empty_transcript. quiet. Qed.

Lemma format_transcript_quiet text method : emits kind 0 (format_transcript text method).
Proof. unfold format_transcript. quiet. Qed.

Hint Resolve create_empty_transcript_quiet format_transcript_quiet : quiet.

Lemma save_transcript_quiet a f text method o : emits kind 0 (save_transcript a f text method o).
Proof. unfold save_transcript. quiet. Qed.

Lemma transcribe_with_whisper_quiet a f o : emits kind 0 (transcribe_with_whisper a f o).
Proof. unfold transcribe_with_whisper. quiet. Qed.

Hint Resolve save_transcript_quiet transcribe_with_whisper_quiet : quiet.

Lemma transcribe_short_audio_quiet a f o : emits kind 0 (transcribe_short_audio a f o).
Proof. unfold transcribe_short_audio. quiet. Qed.

Lemma transcribe_chunks_quiet a f obs i chunks texts :
  emits kind 0 (transcribe_chunks a f obs i chunks texts).
Proof.
  revert i texts. induction chunks as [|c rest IH]; intros i texts;
    cbn [transcribe_chunks]; quiet.
Qed.

Hint Resolve transcribe_short_audio_quiet transcribe_chunks_quiet : quiet.

Lemma transcribe_long_audio_quiet a f o : emits kind 0 (transcribe_long_audio a f o).
Proof. unfold transcribe_long_audio. quiet. Qed.

Hint Resolve transcribe_long_audio_quiet : quiet.

Lemma transcribe_audio_quiet a f o : emits kind 0 (transcribe_audio a f o).
Proof. unfold transcribe_audio. quiet. Qed.

Lemma get_video_folder_quiet id mk : emits kind 0 (get_video_folder id mk).
Proof. unfold get_video_folder. quiet. Qed.

Lemma get_video_title_from_youtube_quiet link run :
  emits kind 0 (get_video_title_from_youtube link run).
Proof. unfold get_video_title_from_youtube. quiet. Qed.

Lemma get_video_description_from_youtube_quiet link run :
  emits kind 0 (get_video_description_from_youtube link run).
Proof. unfold get_video_description_from_youtube. quiet. Qed.

Hint Resolve get_video_folder_quiet : quiet.

Lemma remove_partial_files_quiet folder files : emits kind 0 (remove_partial_files folder files).
Proof. induction files as [|file rest IH]; cbn [remove_partial_files]; quiet. Qed.

Hint Resolve remove_partial_files_quiet : quiet.

Lemma cleanup_partial_files_quiet id o : emits kind 0 (cleanup_partial_files id o).
Proof. unfold cleanup_partial_files. quiet. Qed.

End Quiet.

Lemma repair_call_rare (e : event) :
  is_repair_call e = true -> is_repair_call e = true \/ is_semaphore_event e = true.
Proof. auto. Qed.

Lemma semaphore_event_rare (e : event) :
  is_semaphore_event e = true -> is_repair_call e = true \/ is_semaphore_event e = true.
Proof. auto. Qed.

#[export] Hint Resolve repair_call_rare semaphore_event_rare : quiet.
#[export] Hint Resolve update_video_download_status_quiet update_video_title_quiet
  update_video_description_quiet validate_video_file_quiet remove_if_exists_quiet
  find_video_file_quiet extract_audio_from_video_quiet transcribe_audio_quiet
  get_video_folder_quiet get_video_title_from_youtube_quiet
  get_video_description_from_youtube_quiet cleanup_partial_files_quiet
  write_file_quiet create_empty_transcript_quiet format_transcript_quiet
  save_transcript_quiet transcribe_with_whisper_quiet transcribe_short_audio_quiet
  transcribe_chunks_quiet transcribe_long_audio_quiet : quiet.

(** One step of a proof that a computation emits at most [N] events of a
    kind: the part that emits them is found by trying. *)
Ltac count_step N :=
  match goal with
  | |- emits ?k N _ => apply (emits_weaken k 0 N); [solve [quiet] | lia]
  | |- emits ?k N _ => solve [eauto 4 with quiet]
  | |- emits ?k 1 (emit ?e) => exact (emits_emit k e)
  | |- emits ?k N (bind _ _) =>
      first [ apply (emits_bind k 0 N); [solve [quiet] | intro]
            | apply (emits_bind k N 0); [ | intro; solve [quiet]] ]
  | |- emits ?k N (try_except _ _) =>
      first [ apply (emits_try_except k N 0); [ | intro; solve [quiet]]
            | apply (emits_try_except k 0 N); [solve [quiet] | intro] ]
  | |- emits _ _ (if ?c then _ else _) => destruct c
  | |- emits _ _ (match ?x with _ => _ end) => destruct x
  | |- emits _ _ (let (_, _) := ?x in _) => destruct x
  end.

(** *** Calls of the repairer *)

Lemma repair_video_file_repairs_once p f o :
  emits is_repair_call 1 (repair_video_file p f o).
Proof. unfold repair_video_file. repeat count_step 1%nat. Qed.

#[export] Hint Resolve repair_video_file_repairs_once : quiet.

Lemma download_youtube_video_repairs_once link f o :
  emits is_repair_call 1 (download_youtube_video link f o).
Proof. unfold download_youtube_video. repeat count_step 1%nat. Qed.

Lemma check_and_repair_repairs_once result f msg w :
  emits is_repair_call 1 (check_and_repair result f msg w).
Proof. unfold check_and_repair. repeat count_step 1%nat. Qed.

#[export] Hint Resolve download_youtube_video_repairs_once
  check_and_repair_repairs_once : quiet.

Lemma process_downloaded_repairs_once result f w :
  emits is_repair_call 1 (process_downloaded result f w).
Proof. unfold process_downloaded. repeat count_step 1%nat. Qed.

#[export] Hint Resolve process_downloaded_repairs_once : quiet.

Lemma fetch_stage_repairs_once id link w :
  emits is_repair_call 1 (fetch_stage id link w).
Proof.
  unfold fetch_stage.
  repeat (apply (emits_bind is_repair_call 0 1); [solve [quiet] | intro]).
  apply (emits_bind is_repair_call 1 0); [solve [eauto 4 with quiet] | intro; quiet].
Qed.

Lemma download_video_body_repairs_twice id link w :
  emits is_repair_call 2 (download_video_body id link w).
Proof.
  unfold download_video_body.
  apply (emits_bind is_repair_call 1 1);
    [apply fetch_stage_repairs_once | intros [folder [success result]]].
  destruct success; [solve [eauto 4 with quiet] |].
  apply (emits_weaken is_repair_call 0 1); [solve [quiet] | lia].
Qed.

Lemma download_video_background_repairs_twice id link w :
  emits is_repair_call 2 (download_video_background id link w).
Proof.
  unfold download_video_background, with_semaphore.
  apply (emits_bind is_repair_call 0 2); [solve [quiet] | intro].
  apply (emits_try_finally is_repair_call 2 0); [|solve [quiet]].
  apply (emits_try_except is_repair_call 2 0); [|intro; solve [quiet]].
  apply download_video_body_repairs_twice.
Qed.

(** *** Semaphore events *)

Lemma repair_video_file_no_semaphore p f o :
  emits is_semaphore_event 0 (repair_video_file p f o).
Proof. unfold repair_video_file. quiet. Qed.

#[export] Hint Resolve repair_video_file_no_semaphore : quiet.

Lemma download_youtube_video_no_semaphore link f o :
  emits is_semaphore_event 0 (download_youtube_video link f o).
Proof. unfold download_youtube_video. quiet. Qed.

Lemma check_and_repair_no_semaphore result f msg w :
  emits is_semaphore_event 0 (check_and_repair result f msg w).
Proof. unfold check_and_repair. quiet. Qed.

#[export] Hint Resolve download_youtube_video_no_semaphore
  check_and_repair_no_semaphore : quiet.

Lemma process_downloaded_no_semaphore result f w :
  emits is_semaphore_event 0 (process_downloaded result f w).
Proof. unfold process_downloaded. quiet. Qed.

#[export] Hint Resolve process_downloaded_no_semaphore : quiet.

Lemma download_video_body_no_semaphore id link w :
  emits is_semaphore_event 0 (download_video_body id link w).
Proof. unfold download_video_body, fetch_stage. quiet. Qed.

(** ** The admission semaphore *)

(** A run of the orchestrator acquires first, releases last, and touches
    the semaphore nowhere in between, however the run ends. *)
Lemma download_video_background_events id link w s :
  exists body,
    events_of (download_video_background id link w s)
      = (trace s ++ EvAcquire :: body ++ [EvRelease])%list /\
    count_events is_semaphore_event body = 0%nat.
Proof.
  unfold download_video_background, with_semaphore, events_of.
  set (inner := try_except _ _).
  assert (Hinner : emits is_semaphore_event 0 inner).
  { apply (emits_try_except is_semaphore_event 0 0);
      [apply download_video_body_no_semaphore | intro; quiet]. }
  unfold bind, emit, try_finally. cbn [fst snd].
  match goal with |- context [inner ?s1] => destruct (Hinner s1) as (t & Ht & Hc);
    destruct (inner s1) as [r s2] end.
  cbn [snd trace] in *. exists t. split.
  - rewrite Ht. cbn [trace]. rewrite <- !app_assoc. reflexivity.
  - lia.
Qed.

Lemma set_nth_Forall {A} (P : A -> Prop) (i : nat) (x : A) (l : list A) :
  Forall P l -> P x -> Forall P (set_nth i x l).
Proof.
  intros Hl Hx. revert i. induction Hl as [|y l Hy Hl IH]; intros i.
  - destruct i; constructor.
  - destruct i; simpl; constructor; auto.
Qed.

Lemma set_nth_count {A} (f : A -> bool) (i : nat) (x y : A) (l : list A) :
  nth_error l i = Some y ->
  (List.length (filter f (set_nth i x l)) + (if f y then 1 else 0) =
   List.length (filter f l) + (if f x then 1 else 0))%nat.
Proof.
  revert i. induction l as [|z l IH]; intros i H.
  - destruct i; discriminate.
  - destruct i as [|i]; simpl in *.
    + injection H as ->. destruct (f x), (f y); simpl; lia.
    + specialize (IH i H). destruct (f z); simpl; lia.
Qed.

Lemma semaphore_free_cons (e : event) (body : list event) :
  count_events is_semaphore_event (e :: body) = 0%nat ->
  is_semaphore_event e = false /\ count_events is_semaphore_event body = 0%nat.
Proof.
  unfold count_events. simpl. destruct (is_semaphore_event e); simpl; [discriminate | auto].
Qed.

Lemma system_step_accounted (sys : System) (i : nat) :
  permits_accounted sys -> permits_accounted (system_step sys i).
Proof.
  intros [Hsum Hall]. unfold system_step.
  destruct (nth_error (threads sys) i) as [t|] eqn:Hnth; [|split; assumption].
  assert (Ht : thread_state t).
  { rewrite Forall_forall in Hall. apply Hall. eapply nth_error_In. exact Hnth. }
  unfold count_holding in *.
  destruct Ht as [body Hfree | body Hfree | ].
  - (* before the acquire *)
    unfold thread_step. cbn [todo].
    destruct (permits sys) as [|n] eqn:Hp; [split; [rewrite Hp|]; assumption|].
    pose proof (set_nth_count holding i {| todo := body ++ [EvRelease]; holding := true |}
                  _ (threads sys) Hnth) as Hc.
    cbn [holding] in Hc. split; [unfold count_holding; cbn [permits threads]; lia|].
    cbn [threads].
    apply set_nth_Forall; [assumption | constructor; assumption].
  - (* inside the block *)
    destruct body as [|e body].
    + unfold thread_step. cbn [todo app].
      pose proof (set_nth_count holding i {| todo := []; holding := false |}
                    _ (threads sys) Hnth) as Hc.
      cbn [holding] in Hc. split; [unfold count_holding; cbn [permits threads]; lia|].
    cbn [threads].
      apply set_nth_Forall; [assumption | constructor].
    + apply semaphore_free_cons in Hfree. destruct Hfree as [He Hfree].
      assert (Hstep : thread_step (permits sys)
                        {| todo := (e :: body) ++ [EvRelease]; holding := true |}
                      = Some (permits sys, {| todo := body ++ [EvRelease]; holding := true |})).
      { unfold thread_step. cbn [todo app holding]. destruct e; try reflexivity; discriminate. }
      rewrite Hstep.
      pose proof (set_nth_count holding i {| todo := body ++ [EvRelease]; holding := true |}
                    _ (threads sys) Hnth) as Hc.
      cbn [holding] in Hc. split; [unfold count_holding; cbn [permits threads]; lia|].
    cbn [threads].
      apply set_nth_Forall; [assumption | constructor; assumption].
  - (* done *)
    unfold thread_step. cbn [todo]. split; assumption.
Qed.

Lemma run_schedule_accounted (schedule : list nat) (sys : System) :
  permits_accounted sys -> permits_accounted (run_schedule schedule sys).
Proof.
  unfold run_schedule. revert sys.
  induction schedule as [|i rest IH]; intros sys H; simpl; [exact H|].
  apply IH, system_step_accounted, H.
Qed.

Lemma submit_accounted (jobs : list Job) : permits_accounted (submit jobs).
Proof.
  unfold submit, permits_accounted, count_holding. cbn [permits threads]. split.
  - induction jobs as [|j jobs IH]; [reflexivity|]. simpl. exact IH.
  - apply Forall_forall. intros t Ht. apply in_map_iff in Ht.
    destruct Ht as (j & <- & _). unfold job_thread.
    destruct (download_video_background_events (job_id j) (job_link j) (job_world j)
                (state_of (job_row j))) as (body & Hev & Hfree).
    rewrite Hev. cbn [state_of trace app]. constructor. exact Hfree.
Qed.

Lemma thread_state_in_order (t : Thread) : thread_state t -> thread_in_order t = true.
Proof.
  intros [body Hfree | body Hfree | ]; unfold thread_in_order; cbn [todo holding negb];
    try reflexivity.
  destruct body as [|e body]; [reflexivity|].
  apply semaphore_free_cons in Hfree. destruct Hfree as [He _].
  cbn [app]. destruct e; try reflexivity; discriminate.
Qed.


(** ** Reasoning on the runs that return *)

Lemma hoare_ret {A} (P : St -> Prop) (a : A) (Q : A -> St -> Prop) :
  (forall s, P s -> Q a s) -> hoare P (ret a) Q.
Proof. intros H s b s' HP E. injection E as <- <-. auto. Qed.

Lemma hoare_bind {A B} (P : St -> Prop) (R : A -> St -> Prop) (Q : B -> St -> Prop)
    (m : M A) (k : A -> M B) :
  hoare P m R -> (forall a, hoare (R a) (k a) Q) -> hoare P (bind m k) Q.
Proof.
  intros Hm Hk s b s' HP E. unfold bind in E.
  destruct (m s) as [[a|e] s1] eqn:Em; [|discriminate].
  eapply Hk; [eapply Hm; eassumption | exact E].
Qed.

Lemma hoare_conseq {A} (P P' : St -> Prop) (Q Q' : A -> St -> Prop) (m : M A) :
  hoare P' m Q' -> (forall s, P s -> P' s) -> (forall a s, Q' a s -> Q a s) ->
  hoare P m Q.
Proof. intros H HP HQ s a s' Hs E. eapply HQ, H; eauto. Qed.

Lemma hoare_top {A} (P : St -> Prop) (m : M A) : hoare P m (fun _ _ => True).
Proof. intros s a s' _ _. exact I. Qed.

Lemma hoare_keeps_row {A} (R : Row -> Prop) (m : M A) :
  keeps_row m -> hoare (fun s => R (row s)) m (fun _ s => R (row s)).
Proof.
  intros Hk s a s' HR E. specialize (Hk s). rewrite E in Hk. simpl in Hk.
  rewrite Hk. exact HR.
Qed.

Lemma keeps_row_ret {A} (a : A) : keeps_row (ret a).
Proof. intro s. reflexivity. Qed.

Lemma keeps_row_observe {A} (r : result A) : keeps_row (observe r).
Proof. intro s. reflexivity. Qed.

Lemma keeps_row_emit (e : event) : keeps_row (emit e).
Proof. intro s. reflexivity. Qed.

Lemma keeps_row_bind {A B} (m : M A) (k : A -> M B) :
  keeps_row m -> (forall a, keeps_row (k a)) -> keeps_row (bind m k).
Proof.
  intros Hm Hk s. unfold bind. specialize (Hm s).
  destruct (m s) as [[a|e] s1]; simpl in *; [rewrite Hk|]; exact Hm.
Qed.

Lemma keeps_row_try_except {A} (m : M A) (h : exn -> M A) :
  keeps_row m -> (forall e, keeps_row (h e)) -> keeps_row (try_except m h).
Proof.
  intros Hm Hh s. unfold try_except. specialize (Hm s).
  destruct (m s) as [[a|e] s1]; simpl in *; [|rewrite Hh]; exact Hm.
Qed.

Lemma keeps_row_raise {A} (e : exn) : keeps_row (@raise A e).
Proof. intro s. reflexivity. Qed.

Lemma keeps_row_try_except_on {A} (catches : exn_class -> bool) (m : M A) (h : exn -> M A) :
  keeps_row m -> (forall e, keeps_row (h e)) -> keeps_row (try_except_on catches m h).
Proof.
  intros Hm Hh s. unfold try_except_on. specialize (Hm s).
  destruct (m s) as [[a|e] s1]; simpl in *; [exact Hm|].
  destruct (catches (exn_cls e)); [rewrite Hh|]; exact Hm.
Qed.

Lemma keeps_row_try_finally {A} (m : M A) (f : M unit) :
  keeps_row m -> keeps_row f -> keeps_row (try_finally m f).
Proof.
  intros Hm Hf s. unfold try_finally. specialize (Hm s).
  destruct (m s) as [r s1]. specialize (Hf s1).
  destruct (f s1) as [[u|e] s2]; simpl in *; congruence.
Qed.

Create HintDb keeps.

Ltac keeps_step :=
  match goal with
  | |- keeps_row (ret _) => apply keeps_row_ret
  | |- keeps_row (raise _) => apply keeps_row_raise
  | |- keeps_row (observe _) => apply keeps_row_observe
  | |- keeps_row (emit _) => apply keeps_row_emit
  | |- keeps_row (bind _ _) => apply keeps_row_bind; [|intro]
  | |- keeps_row (try_except _ _) => apply keeps_row_try_except; [|intro]
  | |- keeps_row (try_except_on _ _ _) => apply keeps_row_try_except_on; [|intro]
  | |- keeps_row (try_finally _ _) => apply keeps_row_try_finally
  | |- keeps_row (if ?c then _ else _) => destruct c
  | |- keeps_row (match ?x with _ => _ end) => destruct x
  | |- keeps_row (let (_, _) := ?x in _) => destruct x
  end.

Ltac keeps := repeat first [ solve [eauto 2 with keeps] | keeps_step ].

Lemma get_video_folder_keeps_row id mk : keeps_row (get_video_folder id mk).
Proof. unfold get_video_folder. keeps. Qed.

Lemma remove_partial_files_keeps_row folder files :
  keeps_row (remove_partial_files folder files).
Proof.
  induction files as [|file rest IH]; cbn [remove_partial_files]; keeps.
Qed.

Lemma cleanup_partial_files_keeps_row id o : keeps_row (cleanup_partial_files id o).
Proof.
  unfold cleanup_partial_files.
  apply keeps_row_try_except; [|intro; apply keeps_row_ret].
  apply keeps_row_bind; [apply get_video_folder_keeps_row | intro].
  destruct (cd_exists o); [|apply keeps_row_ret].
  apply keeps_row_bind; [apply keeps_row_observe | intro].
  apply remove_partial_files_keeps_row.
Qed.

(** A committed update of the status leaves that status in the row. *)
Lemma update_status_committed (P : St -> Prop) status v a t :
  hoare P (update_video_download_status Commits status v a t)
        (fun _ s => download_status (row s) = status).
Proof.
  intros s b s' _ E.
  destruct (update_video_download_status_row Commits status v a t s) as [H _].
  cbv zeta in H. unfold final_row in H. rewrite E in H. cbn [snd] in H.
  rewrite H. apply status_update_sets_status.
Qed.

(** ** The orchestrator: where a run ends *)

Ltac hoare_skip := eapply hoare_bind; [apply hoare_top | intro].

(** When the repair block makes the function return, the status is
    [failed]. *)
Lemma check_and_repair_failed result folder msg w :
  w_db_final w = Commits ->
  hoare (fun _ => True) (check_and_repair result folder msg w)
        (fun checked s => checked = None -> download_status (row s) = failed).
Proof.
  intros Hdb. unfold check_and_repair. rewrite Hdb.
  assert (Hfail : hoare (fun _ => True)
                    (update_video_download_status Commits failed None None None ;;;
                     ret (@None string))
                    (fun checked s => checked = None -> download_status (row s) = failed)).
  { eapply hoare_bind; [apply update_status_committed | intro].
    apply hoare_ret. auto. }
  hoare_skip.
  destruct (a <? 1024000)%Z; [eapply hoare_conseq; [exact Hfail | auto | auto]|].
  destruct (Py.contains "No video streams" msg);
    [eapply hoare_conseq; [exact Hfail | auto | auto]|].
  hoare_skip. destruct a0 as [repaired repaired_path].
  destruct repaired; [|eapply hoare_conseq; [exact Hfail | auto | auto]].
  hoare_skip.
  destruct (negb (fst a0)); [eapply hoare_conseq; [exact Hfail | auto | auto]|].
  apply hoare_ret. discriminate.
Qed.

Lemma process_downloaded_terminal result folder w :
  w_db_final w = Commits ->
  hoare (fun _ => True) (process_downloaded result folder w)
        (fun _ s => is_terminal (download_status (row s)) = true).
Proof.
  intros Hdb. unfold process_downloaded.
  hoare_skip. destruct a as [is_valid validation_message].
  eapply hoare_bind with
    (R := fun checked s => checked = None -> download_status (row s) = failed).
  - destruct (negb is_valid).
    + apply check_and_repair_failed. exact Hdb.
    + apply hoare_ret. discriminate.
  - intros [result'|].
    + hoare_skip. hoare_skip. rewrite Hdb.
      eapply hoare_bind; [apply update_status_committed | intro].
      apply hoare_ret. intros s ->. reflexivity.
    + apply hoare_ret. intros s H. rewrite H; reflexivity.
Qed.

Lemma download_video_body_terminal id link w :
  w_db_final w = Commits ->
  hoare (fun _ => True) (download_video_body id link w)
        (fun _ s => is_terminal (download_status (row s)) = true).
Proof.
  intros Hdb. unfold download_video_body.
  hoare_skip. destruct a as [folder [success result]].
  destruct success; [apply process_downloaded_terminal; exact Hdb|].
  rewrite Hdb.
  eapply hoare_bind; [apply update_status_committed | intro].
  eapply hoare_conseq.
  - apply (hoare_keeps_row (fun r => download_status r = failed)).
    apply cleanup_partial_files_keeps_row.
  - auto.
  - cbv beta. intros _ s ->. reflexivity.
Qed.

(** The handler of [download_video_background] with a session that
    commits: it returns and the status is [failed]. *)
Lemma handler_forces_failed (s : St) :
  exists s', (update_video_download_status Commits failed None None None ;;; ret tt) s
             = (Returns tt, s') /\
             download_status (row s') = failed.
Proof. eexists. split; reflexivity. Qed.

(** A run of a [with] block, seen from the state after the [acquire]. *)
Lemma with_semaphore_run {A} (m : M A) (s : St) :
  with_semaphore m s =
  (fst (m (acquired s)),
   {| row := row (snd (m (acquired s)));
      trace := (trace (snd (m (acquired s))) ++ [EvRelease])%list |}).
Proof.
  unfold with_semaphore, bind, try_finally, emit, acquired. cbn [fst snd].
  destruct (m _) as [r s1]. reflexivity.
Qed.

(** C1, as the specification states it, fails.  In the first run every
    stage succeeds but no database connection is available for the last
    status update: [update_video_download_status] returns [False], the
    orchestrator does not look at the answer, and the job stays
    [downloading].  In the second run the cursor cannot be created for the
    last update nor for the update of the handler: the [finally] clause of
    [update_video_download_status] raises, the exception leaves the
    orchestrator, and the job stays [downloading] as well. *)
Lemma C1_counterexample :
  let lost_connection :=
    world_of (download_of h264_file repair_fails) h264_file repair_fails h264_file
             audio_extracted NoConnection Commits in
  let no_cursor :=
    world_of (download_of h264_file repair_fails) h264_file repair_fails h264_file
             audio_extracted
             (CursorRaises (Exn MySQLError "MySQL Connection not available"))
             (CursorRaises (Exn MySQLError "MySQL Connection not available")) in
  let run1 := download_video_background 7 sample_link lost_connection (state_of sample_row) in
  let run2 := download_video_background 7 sample_link no_cursor (state_of sample_row) in
  fst run1 = Returns tt /\
  download_status (final_row run1) = downloading /\
  (exists e, fst run2 = Raises e /\ exn_cls e = UnboundLocalError) /\
  download_status (final_row run2) = downloading.
Proof.
  cbv zeta. split; [reflexivity|]. split; [reflexivity|].
  split; [eexists; split; reflexivity | reflexivity].
Qed.

(** C1, amended: when the database commits the last status update that
    the run issues, the run of [download_video_background] returns without
    an exception and leaves the status [completed] or [failed].  The last
    update is the one inside the [try] block when that block returns, and
    the one of the handler at the orchestrator boundary when a step inside
    the block raises: every such exception is caught there and the status
    is then [failed]. *)
Theorem C1_status_ends_terminal (id : Z) (link : string) (w : World) (s : St) :
  let run := download_video_background id link w s in
  (w_db_final w = Commits ->
   forall s', download_video_body id link w (acquired s) = (Returns tt, s') ->
              fst run = Returns tt /\
              is_terminal (download_status (final_row run)) = true) /\
  (w_db_handler w = Commits ->
   forall e s', download_video_body id link w (acquired s) = (Raises e, s') ->
                fst run = Returns tt /\
                download_status (final_row run) = failed) /\
  (w_db_final w = Commits -> w_db_handler w = Commits ->
   fst run = Returns tt /\
   is_terminal (download_status (final_row run)) = true).
Proof.
  cbv zeta.
  unfold download_video_background, final_row.
  rewrite with_semaphore_run. cbn [fst snd row].
  unfold try_except.
  assert (Hreturns : w_db_final w = Commits ->
            forall s', download_video_body id link w (acquired s) = (Returns tt, s') ->
                       is_terminal (download_status (row s')) = true).
  { intros Hfinal s' Ebody.
    exact (download_video_body_terminal id link w Hfinal (acquired s) tt s' I Ebody). }
  destruct (download_video_body id link w (acquired s)) as [[[]|e] s1].
  - cbn [fst snd]. split; [|split].
    + intros Hfinal s' [= <-]. split; [reflexivity | apply (Hreturns Hfinal s1 eq_refl)].
    + intros _ e s' H. discriminate H.
    + intros Hfinal _. split; [reflexivity | apply (Hreturns Hfinal s1 eq_refl)].
  - split; [|split].
    + intros _ s' H. discriminate H.
    + intros Hhandler e' s' _. rewrite Hhandler.
      destruct (handler_forces_failed s1) as (s2 & Hrun & Hst).
      rewrite Hrun. cbn [fst snd]. rewrite Hst. split; reflexivity.
    + intros _ Hhandler. rewrite Hhandler.
      destruct (handler_forces_failed s1) as (s2 & Hrun & Hst).
      rewrite Hrun. cbn [fst snd]. rewrite Hst. split; reflexivity.
Qed.

Lemma C1_status_ends_terminal_witness :
  let w := world_of (download_of unreadable_file repair_fails) h264_file repair_fails
             h264_file audio_extracted Commits Commits in
  let run := download_video_background 7 sample_link w (state_of sample_row) in
  fst run = Returns tt /\ is_terminal (download_status (final_row run)) = true.
Proof.
  cbv zeta.
  pose proof (C1_status_ends_terminal 7 sample_link
                (world_of (download_of unreadable_file repair_fails) h264_file repair_fails
                   h264_file audio_extracted Commits Commits)
                (state_of sample_row)) as H.
  cbv zeta in H. destruct H as (_ & _ & H).
  exact (H eq_refl eq_refl).
Defined.

(** ** What touches the row

    Only the three [update_video_*] functions write to the row; the
    fetcher, the validator, the repairer, the audio extractor and the
    transcriber never do. *)

Lemma validate_video_file_keeps_row p o : keeps_row (validate_video_file p o).
Proof. unfold validate_video_file, file_type_check. keeps. Qed.

Lemma remove_if_exists_keeps_row p o : keeps_row (remove_if_exists p o).
Proof. unfold remove_if_exists. keeps. Qed.

#[export] Hint Resolve validate_video_file_keeps_row remove_if_exists_keeps_row
  get_video_folder_keeps_row : keeps.

Lemma repair_video_file_keeps_row p f o : keeps_row (repair_video_file p f o).
Proof. unfold repair_video_file. keeps. Qed.

Lemma find_video_file_keeps_row folder files : keeps_row (find_video_file folder files).
Proof. induction files as [|file rest IH]; cbn [find_video_file]; keeps. Qed.

#[export] Hint Resolve repair_video_file_keeps_row find_video_file_keeps_row : keeps.

Lemma download_youtube_video_keeps_row link f o : keeps_row (download_youtube_video link f o).
Proof. unfold download_youtube_video. keeps. Qed.

Lemma extract_audio_with_ffmpeg_keeps_row p f o : keeps_row (extract_audio_with_ffmpeg p f o).
Proof. unfold extract_audio_with_ffmpeg. keeps. Qed.

Lemma extract_audio_with_pydub_keeps_row p f o : keeps_row (extract_audio_with_pydub p f o).
Proof. unfold extract_audio_with_pydub. keeps. Qed.

#[export] Hint Resolve download_youtube_video_keeps_row extract_audio_with_ffmpeg_keeps_row
  extract_audio_with_pydub_keeps_row : keeps.

Lemma extract_audio_attempt_keeps_row p f i o : keeps_row (extract_audio_attempt p f i o).
Proof. unfold extract_audio_attempt. keeps. Qed.

#[export] Hint Resolve extract_audio_attempt_keeps_row : keeps.

Lemma extract_audio_loop_keeps_row p f obs i n : keeps_row (extract_audio_loop p f obs i n).
Proof. revert i. induction n as [|n IH]; intros i; cbn [extract_audio_loop]; keeps. Qed.

#[export] Hint Resolve extract_audio_loop_keeps_row : keeps.

Lemma extract_audio_from_video_keeps_row p f obs : keeps_row (extract_audio_from_video p f obs).
Proof. unfold extract_audio_from_video. keeps. Qed.

Lemma get_video_title_from_youtube_keeps_row link run :
  keeps_row (get_video_title_from_youtube link run).
Proof. unfold get_video_title_from_youtube. keeps. Qed.

Lemma get_video_description_from_youtube_keeps_row link run :
  keeps_row (get_video_description_from_youtube link run).
Proof. unfold get_video_description_from_youtube. keeps. Qed.

Lemma same_paths_refl (r : Row) : same_paths r r.
Proof. repeat split. Qed.

Lemma same_paths_trans (r1 r2 r3 : Row) :
  same_paths r1 r2 -> same_paths r2 r3 -> same_paths r1 r3.
Proof. unfold same_paths. intros (? & ? & ?) (? & ? & ?). repeat split; congruence. Qed.

Lemma keeps_row_paths {A} (m : M A) : keeps_row m -> keeps_paths m.
Proof. intros H s. rewrite H. apply same_paths_refl. Qed.

Lemma keeps_paths_bind {A B} (m : M A) (k : A -> M B) :
  keeps_paths m -> (forall a, keeps_paths (k a)) -> keeps_paths (bind m k).
Proof.
  intros Hm Hk s. unfold bind. specialize (Hm s).
  destruct (m s) as [[a|e] s1]; simpl in *; [|exact Hm].
  eapply same_paths_trans; [exact Hm | apply Hk].
Qed.

(** A status update without paths leaves the paths alone, whatever the
    session does. *)
Lemma update_status_keeps_paths o status :
  keeps_paths (update_video_download_status o status None None None).
Proof.
  intros s.
  destruct (update_video_download_status_row o status None None None s) as [H _].
  cbv zeta in H. unfold final_row in H. rewrite H.
  destruct o; repeat split.
Qed.

Lemma update_video_title_keeps_paths o t : keeps_paths (update_video_title o t).
Proof.
  intros s. destruct o as [|e|e|e|];
    unfold update_video_title, try_finally, try_except_on, bind; cbn;
    try (destruct (is_mysql_error (exn_cls e))); cbn; repeat split.
Qed.

Lemma update_video_description_keeps_paths o d : keeps_paths (update_video_description o d).
Proof.
  intros s. destruct o as [|e|e|e|];
    unfold update_video_description, try_finally, try_except_on, bind; cbn;
    try (destruct (is_mysql_error (exn_cls e))); cbn; repeat split.
Qed.

Lemma fetch_stage_keeps_paths id link w : keeps_paths (fetch_stage id link w).
Proof.
  unfold fetch_stage.
  apply keeps_paths_bind; [apply keeps_row_paths, get_video_folder_keeps_row | intro].
  apply keeps_paths_bind; [apply update_status_keeps_paths | intro].
  apply keeps_paths_bind;
    [apply keeps_row_paths, get_video_title_from_youtube_keeps_row | intro].
  apply keeps_paths_bind;
    [apply keeps_row_paths, get_video_description_from_youtube_keeps_row | intro].
  apply keeps_paths_bind.
  { destruct (Py.truthy a1); [|apply keeps_row_paths, keeps_row_ret].
    apply keeps_paths_bind; [apply update_video_title_keeps_paths | intro].
    apply keeps_row_paths, keeps_row_ret. }
  intro. apply keeps_paths_bind.
  { match goal with |- keeps_paths (if ?c then _ else _) => destruct c end;
      [|apply keeps_row_paths, keeps_row_ret].
    apply keeps_paths_bind; [apply update_video_description_keeps_paths | intro].
    apply keeps_row_paths, keeps_row_ret. }
  intro. apply keeps_paths_bind;
    [apply keeps_row_paths, download_youtube_video_keeps_row | intro].
  apply keeps_row_paths, keeps_row_ret.
Qed.

(** ** What the fetcher hands on *)

Lemma hoare_try_except {A} (P : St -> Prop) (Q : A -> St -> Prop) (m : M A) (h : exn -> M A) :
  hoare P m Q -> (forall e, hoare (fun _ => True) (h e) Q) -> hoare P (try_except m h) Q.
Proof.
  intros Hm Hh s a s' HP E. unfold try_except in E.
  destruct (m s) as [[b|e] s1] eqn:Em.
  - eapply Hm; [exact HP | rewrite Em; exact E].
  - eapply Hh; [exact I | exact E].
Qed.

Lemma hoare_pure {A} (fact : Prop) (Q : A -> St -> Prop) (m : M A) :
  (fact -> hoare (fun _ => True) m Q) -> hoare (fun _ => fact) m Q.
Proof. intros H s a s' Hf E. eapply H; eauto. Qed.

Lemma hoare_any_pre {A} (P : St -> Prop) (Q : A -> St -> Prop) (m : M A) :
  hoare (fun _ => True) m Q -> hoare P m Q.
Proof. intros H s a s' _ E. eapply H; eauto. Qed.

Lemma join_nonempty (a b : string) : a <> "" -> OsPath.join a b <> "".
Proof.
  intros Ha. unfold OsPath.join.
  destruct (Py.startswith "/" b) eqn:Eb.
  - intros ->. discriminate Eb.
  - destruct (String.eqb a "" || Py.endswith "/" a);
      destruct a; try congruence; discriminate.
Qed.

Lemma repaired_path_nonempty (p f : string) : repaired_path_of p f <> "".
Proof.
  destruct (repaired_path_fresh p f) as [Hend _].
  intros H. rewrite H in Hend. discriminate Hend.
Qed.

Lemma get_video_folder_nonempty id mk :
  hoare (fun _ => True) (get_video_folder id mk) (fun folder _ => folder <> "").
Proof.
  unfold get_video_folder. hoare_skip. apply hoare_ret. intros _ _.
  apply join_nonempty. discriminate.
Qed.

Lemma find_video_file_nonempty folder files :
  folder <> "" ->
  hoare (fun _ => True) (find_video_file folder files)
        (fun found _ => forall p, found = Some p -> p <> "").
Proof.
  intros Hf. induction files as [|file rest IH]; cbn [find_video_file].
  - apply hoare_ret. discriminate.
  - destruct (Py.endswith_any _ _); [|exact IH].
    hoare_skip. destruct (MIN_VIDEO_SIZE <? a)%Z; [|apply hoare_any_pre, IH].
    apply hoare_ret. intros _ _ p [= <-]. apply join_nonempty, Hf.
Qed.

Lemma repair_video_file_nonempty p f o :
  p <> "" ->
  hoare (fun _ => True) (repair_video_file p f o) (fun answer _ => snd answer <> "").
Proof.
  intros Hp. pose proof (repaired_path_nonempty p f) as Hr.
  unfold repair_video_file. hoare_skip.
  apply hoare_try_except;
    [|intro; hoare_skip; apply hoare_ret; intros; exact Hp].
  hoare_skip. hoare_skip.
  eapply hoare_bind with
    (R := fun replaced _ => forall answer, replaced = Some answer -> snd answer <> "").
  - destruct (_ && _); [|apply hoare_ret; discriminate].
    hoare_skip. destruct (MIN_VIDEO_SIZE <? a2)%Z.
    + apply hoare_try_except.
      * hoare_skip. hoare_skip. hoare_skip. hoare_skip. hoare_skip.
        destruct (fst a7); apply hoare_ret; intros _ _ answer [= <-]; exact Hp.
      * intro. apply hoare_ret. intros _ _ answer [= <-]. exact Hr.
    + hoare_skip. apply hoare_ret. discriminate.
  - intros [answer|].
    + apply hoare_ret. intros s H. apply H. reflexivity.
    + apply hoare_any_pre. hoare_skip. apply hoare_ret. intros; exact Hp.
Qed.

Lemma download_youtube_video_nonempty link folder o :
  folder <> "" ->
  hoare (fun _ => True) (download_youtube_video link folder o)
        (fun answer _ => fst answer = true -> snd answer <> "").
Proof.
  intros Hf. unfold download_youtube_video. hoare_skip.
  apply hoare_try_except;
    [|intro e; destruct (is_timeout (exn_cls e)); apply hoare_ret; discriminate].
  hoare_skip. hoare_skip.
  destruct (negb _); [apply hoare_ret; discriminate|].
  hoare_skip.
  eapply hoare_bind; [apply hoare_any_pre, find_video_file_nonempty, Hf | ].
  intros [video_file|]; [|apply hoare_ret; discriminate].
  apply hoare_conseq with (P' := fun _ : St => video_file <> "")
                          (Q' := fun answer (_ : St) => fst answer = true -> snd answer <> "");
    [|intros s H; apply H; reflexivity | auto].
  apply hoare_pure. intros Hv.
  hoare_skip. destruct a3 as [is_valid message].
  destruct (negb is_valid); [|apply hoare_ret; intros; exact Hv].
  destruct (Py.contains _ _); [apply hoare_ret; discriminate|].
  eapply hoare_bind; [apply repair_video_file_nonempty, Hv | ].
  intros [repaired repaired_path].
  destruct repaired; [|apply hoare_any_pre, hoare_ret; discriminate].
  apply hoare_ret. intros s H _. exact H.
Qed.

Lemma fetch_stage_nonempty id link w :
  hoare (fun _ => True) (fetch_stage id link w)
        (fun fetched _ => fst (snd fetched) = true -> snd (snd fetched) <> "").
Proof.
  unfold fetch_stage.
  eapply hoare_bind; [apply get_video_folder_nonempty | intro folder].
  cbv beta. apply (hoare_pure (folder <> "")). intros Hf.
  hoare_skip. hoare_skip. hoare_skip. hoare_skip. hoare_skip.
  eapply hoare_bind; [apply download_youtube_video_nonempty, Hf | intro answer].
  apply hoare_ret. auto.
Qed.

(** ** Audio absence *)

(** The success branch of the orchestrator on a valid file without
    audio: the last update writes the status and the video path only. *)
Lemma process_downloaded_without_audio result folder w s message :
  result <> "" ->
  fst (validate_video_file result (w_validate w) s) = Returns (true, message) ->
  (forall st, fst (extract_audio_from_video result folder (w_audio w) st) = Returns None) ->
  w_db_final w = Commits ->
  let run := process_downloaded result folder w s in
  fst run = Returns tt /\
  download_status (final_row run) = completed /\
  video_path (final_row run) = Some (Py.replace "\" "/" result) /\
  audio_path (final_row run) = audio_path (row s) /\
  transcript_path (final_row run) = transcript_path (row s).
Proof.
  intros Hne Hvalid Haudio Hdb.
  assert (Hrun : exists s3,
             row s3 = row s /\
             process_downloaded result folder w s =
             (update_video_download_status Commits completed (Some result) None None ;;;
              ret tt) s3).
  { unfold process_downloaded. unfold bind at 1.
    pose proof (validate_video_file_keeps_row result (w_validate w) s) as Hrow2.
    destruct (validate_video_file result (w_validate w) s) as [rv s2].
    cbn [fst snd] in Hvalid, Hrow2 |- *. subst rv. cbn [negb].
    unfold bind at 1. cbn [ret]. unfold bind at 1.
    pose proof (extract_audio_from_video_keeps_row result folder (w_audio w) s2) as Hrow3.
    specialize (Haudio s2).
    destruct (extract_audio_from_video result folder (w_audio w) s2) as [ra s3].
    cbn [fst snd] in Haudio, Hrow3 |- *. subst ra. cbn [Py.truthy].
    unfold bind at 1. cbn [ret]. rewrite Hdb.
    exists s3. split; [congruence | reflexivity]. }
  destruct Hrun as (s3 & Hrow & Hrun). cbv zeta. rewrite Hrun. clear Hrun.
  assert (Htruthy : Py.truthy (Some result) = true).
  { cbn. destruct result; [congruence | reflexivity]. }
  destruct (update_video_download_status_row Commits completed (Some result) None None s3)
    as [H Hret].
  cbv zeta in H, Hret. unfold final_row in *. specialize (Hret eq_refl).
  unfold bind.
  destruct (update_video_download_status Commits completed (Some result) None None s3)
    as [ru s4].
  cbn [fst snd] in *. subst ru. cbn [fst snd ret]. rewrite H.
  unfold status_update. rewrite truthy_fix_separators, Htruthy.
  change (fix_separators None) with (@None string). cbn [Py.truthy andb].
  unfold fix_separators. rewrite Htruthy. cbn. rewrite Hrow.
  repeat split.
Qed.

(** C2, as the specification states it, fails.  In both runs the fetch
    and the validation succeed and neither extraction method finds audio.
    In the first no database connection is available for the last update:
    the job stays [downloading].  In the second the cursor of the last
    update cannot be created: [update_video_download_status] raises in
    its [finally] clause, the handler of the orchestrator runs, and the
    job ends [failed]. *)
Lemma C2_counterexample :
  let lost_connection :=
    world_of (download_of h264_file repair_fails) h264_file repair_fails h264_file
             no_audio NoConnection Commits in
  let no_cursor :=
    world_of (download_of h264_file repair_fails) h264_file repair_fails h264_file
             no_audio (CursorRaises (Exn MySQLError "MySQL Connection not available"))
             Commits in
  let run1 := download_video_background 7 sample_link lost_connection (state_of sample_row) in
  let run2 := download_video_background 7 sample_link no_cursor (state_of sample_row) in
  (forall st, fst (extract_audio_from_video "static/downloads/video_7/video_1700000000.mp4"
                     "static/downloads/video_7" (fun _ => no_audio) st) = Returns None) /\
  download_status (final_row run1) = downloading /\
  video_path (final_row run1) = None /\
  download_status (final_row run2) = failed.
Proof.
  cbv zeta. split; [intro st; reflexivity|].
  split; [reflexivity|]. split; reflexivity.
Qed.

(** C2, amended: in a run whose fetch stage succeeds with the file
    [result], whose validation of that file succeeds and whose audio
    extraction returns [None], and whose last status update is committed by
    the database, the orchestrator ends with the status [completed], not
    [failed], and the video path persisted (with forward slashes); the
    audio path and the transcript path keep the values they had when the
    job started, empty for a job just accepted. *)
Theorem C2_no_audio_completes
    (id : Z) (link : string) (w : World) (s s1 : St) (folder result : string) :
  fetch_stage id link w (acquired s) = (Returns (folder, (true, result)), s1) ->
  (exists message,
     fst (validate_video_file result (w_validate w) s1) = Returns (true, message)) ->
  (forall st, fst (extract_audio_from_video result folder (w_audio w) st) = Returns None) ->
  w_db_final w = Commits ->
  let run := download_video_background id link w s in
  fst run = Returns tt /\
  download_status (final_row run) = completed /\
  download_status (final_row run) <> failed /\
  video_path (final_row run) = Some (Py.replace "\" "/" result) /\
  audio_path (final_row run) = audio_path (row s) /\
  transcript_path (final_row run) = transcript_path (row s).
Proof.
  intros Hfetch [message Hvalid] Haudio Hdb. cbv zeta.
  assert (Hne : result <> "").
  { apply (fetch_stage_nonempty id link w (acquired s) _ s1 I Hfetch). reflexivity. }
  pose proof (fetch_stage_keeps_paths id link w (acquired s)) as Hpaths.
  rewrite Hfetch in Hpaths. cbn [snd] in Hpaths. destruct Hpaths as (_ & Hpa & Hpt).
  change (row (acquired s)) with (row s) in Hpa, Hpt.
  pose proof (process_downloaded_without_audio result folder w s1 message
                Hne Hvalid Haudio Hdb) as H.
  cbv zeta in H. unfold final_row in *.
  assert (Hrun : download_video_background id link w s =
                 (fst (process_downloaded result folder w s1),
                  {| row := row (snd (process_downloaded result folder w s1));
                     trace := (trace (snd (process_downloaded result folder w s1))
                                 ++ [EvRelease])%list |})).
  { unfold download_video_background. rewrite with_semaphore_run.
    unfold try_except, download_video_body, bind. rewrite Hfetch.
    destruct H as (Hr & _).
    destruct (process_downloaded result folder w s1) as [r s2].
    cbn [fst] in Hr. subst r. reflexivity. }
  rewrite Hrun. cbn [fst snd row].
  destruct H as (Hr & Hst & Hv & Ha & Ht).
  rewrite Hr, Hst, Hv, Ha, Ht, Hpa, Hpt.
  repeat split. discriminate.
Qed.

Lemma C2_no_audio_completes_witness :
  let w := world_of (download_of h264_file repair_fails) h264_file repair_fails h264_file
             no_audio Commits Commits in
  let run := download_video_background 7 sample_link w (state_of sample_row) in
  download_status (final_row run) = completed /\
  video_path (final_row run) = Some "static/downloads/video_7/video_1700000000.mp4" /\
  audio_path (final_row run) = None /\
  transcript_path (final_row run) = None.
Proof.
  cbv zeta.
  eassert (Hfetch : fetch_stage 7 sample_link
                      (world_of (download_of h264_file repair_fails) h264_file repair_fails
                         h264_file no_audio Commits Commits)
                      (acquired (state_of sample_row))
                    = (Returns (_, (true, _)), _)) by (vm_compute; reflexivity).
  pose proof (C2_no_audio_completes 7 sample_link _ (state_of sample_row) _ _ _ Hfetch
                (ex_intro _ _ eq_refl) (fun st => eq_refl) eq_refl) as H.
  cbv zeta in H. destruct H as (_ & Hst & _ & Hv & Ha & Ht).
  split; [exact Hst|]. split; [exact Hv|]. split; [exact Ha | exact Ht].
Defined.

(** ** Files without a video stream *)

Lemma filter_none {A} (f : A -> bool) (l : list A) :
  forallb (fun x => negb (f x)) l = true -> filter f l = [].
Proof.
  induction l as [|x l IH]; simpl; [reflexivity|].
  intros H. apply andb_true_iff in H. destruct H as [Hx Hl].
  apply negb_true_iff in Hx. rewrite Hx. auto.
Qed.

Lemma emits_count {A} (kind : event -> bool) (m : M A) (s : St) :
  emits kind 0 m ->
  count_events kind (events_of (m s)) = count_events kind (trace s).
Proof.
  intros H. destruct (H s) as (t & Ht & Hc). unfold events_of.
  rewrite Ht, count_events_app. lia.
Qed.

Lemma emits_bound {A} (kind : event -> bool) (n : nat) (m : M A) (s : St) :
  emits kind n m ->
  (count_events kind (trace s) <= count_events kind (events_of (m s))
   <= count_events kind (trace s) + n)%nat.
Proof.
  intros H. destruct (H s) as (t & Ht & Hc). unfold events_of.
  rewrite Ht, count_events_app. lia.
Qed.

(** Sequencing when the continuation is only run on the values that the
    first part can return. *)
Lemma emits_bind_hoare {A B} (kind : event -> bool) (n1 n2 : nat) (Q : A -> Prop)
    (m : M A) (k : A -> M B) :
  emits kind n1 m ->
  hoare (fun _ => True) m (fun a _ => Q a) ->
  (forall a, Q a -> emits kind n2 (k a)) ->
  emits kind (n1 + n2) (bind m k).
Proof.
  intros Hm HQ Hk s. unfold bind.
  destruct (Hm s) as (t1 & Ht1 & Hc1).
  destruct (m s) as [[a|e] s1] eqn:Em; simpl in *.
  - destruct (Hk a (HQ s a s1 I Em) s1) as (t2 & Ht2 & Hc2).
    exists (t1 ++ t2)%list. rewrite Ht2, Ht1, app_assoc, count_events_app.
    split; [reflexivity | lia].
  - exists t1. split; [exact Ht1 | lia].
Qed.

(** The fetcher does not repair a file whose verdict carries the marker,
    and does not succeed. *)
Lemma download_skips_repair link folder d :
  gives_marker (d_validate d) ->
  emits is_repair_call 0 (download_youtube_video link folder d) /\
  hoare (fun _ => True) (download_youtube_video link folder d)
        (fun answer _ => fst answer = false).
Proof.
  intros Hmarker. unfold download_youtube_video. split.
  - apply (emits_bind is_repair_call 0 0); [quiet | intro].
    apply (emits_try_except is_repair_call 0 0); [|intro; quiet].
    apply (emits_bind is_repair_call 0 0); [quiet | intro].
    apply (emits_bind is_repair_call 0 0); [quiet | intro].
    destruct (negb _); [quiet|].
    apply (emits_bind is_repair_call 0 0); [quiet | intro].
    apply (emits_bind is_repair_call 0 0); [quiet | intros [video_file|]]; [|quiet].
    eapply (emits_bind_hoare is_repair_call 0 0);
      [quiet | apply Hmarker |].
    intros [is_valid message] [Hv Hm]. cbn [fst snd] in Hv, Hm. subst is_valid.
    cbn [negb]. rewrite Hm. quiet.
  - hoare_skip.
    apply hoare_try_except;
      [|intro e; destruct (is_timeout (exn_cls e)); apply hoare_ret; reflexivity].
    hoare_skip. hoare_skip.
    destruct (negb _); [apply hoare_ret; reflexivity|].
    hoare_skip. hoare_skip. destruct a3 as [video_file|]; [|apply hoare_ret; reflexivity].
    eapply hoare_bind; [apply Hmarker|].
    intros [is_valid message]. cbn [fst snd].
    intros s0 b s0' [Hv Hm]. subst is_valid. cbn [negb]. rewrite Hm.
    intros [= <- _]. reflexivity.
Qed.

(** Nor does the orchestrator, when its own validation sees such a file. *)
Lemma process_downloaded_skips_repair result folder w :
  gives_marker (w_validate w) ->
  emits is_repair_call 0 (process_downloaded result folder w).
Proof.
  intros Hmarker. unfold process_downloaded.
  eapply (emits_bind_hoare is_repair_call 0 0);
    [quiet | apply Hmarker |].
  intros [is_valid message] [Hv Hm]. cbn [fst snd] in Hv, Hm. subst is_valid.
  cbn [negb]. unfold check_and_repair. rewrite Hm. quiet.
Qed.

Lemma download_video_background_skips_repair id link w :
  gives_marker (d_validate (w_download w)) ->
  emits is_repair_call 0 (download_video_background id link w).
Proof.
  intros Hmarker.
  pose proof (fun folder => proj1 (download_skips_repair link folder (w_download w) Hmarker))
    as Hemits.
  pose proof (fun folder => proj2 (download_skips_repair link folder (w_download w) Hmarker))
    as Hfails.
  unfold download_video_background, with_semaphore.
  apply (emits_bind is_repair_call 0 0); [quiet | intro].
  apply (emits_try_finally is_repair_call 0 0); [|quiet].
  apply (emits_try_except is_repair_call 0 0); [|intro; quiet].
  unfold download_video_body.
  eapply (emits_bind_hoare is_repair_call 0 0) with
    (Q := fun fetched => fst (snd fetched) = false).
  - unfold fetch_stage. quiet.
  - unfold fetch_stage.
    hoare_skip. hoare_skip. hoare_skip. hoare_skip. hoare_skip. hoare_skip.
    eapply hoare_bind; [apply hoare_any_pre, Hfails | intro].
    apply hoare_ret. auto.
  - intros [folder [success result]] Hs. cbn [fst snd] in Hs. subst success. quiet.
Qed.

(** ** How often the repairer is called *)

(** With a validation that passes, the orchestrator calls no repair. *)
Lemma process_downloaded_valid_no_repair result folder w :
  (forall p st, exists message,
      fst (validate_video_file p (w_validate w) st) = Returns (true, message)) ->
  emits is_repair_call 0 (process_downloaded result folder w).
Proof.
  intros Hvalid. unfold process_downloaded.
  eapply (emits_bind_hoare is_repair_call 0 0) with (Q := fun verdict => fst verdict = true).
  - quiet.
  - intros s verdict s' _ E. destruct (Hvalid result s) as [message Hm].
    rewrite E in Hm. cbn in Hm. injection Hm as ->. reflexivity.
  - intros [is_valid message] Hv. cbn [fst] in Hv. subst is_valid. cbn [negb]. quiet.
Qed.

(** Nor does the fetcher. *)
Lemma download_valid_no_repair link folder d :
  (forall p st, exists message,
      fst (validate_video_file p (d_validate d) st) = Returns (true, message)) ->
  emits is_repair_call 0 (download_youtube_video link folder d).
Proof.
  intros Hvalid. unfold download_youtube_video.
  apply (emits_bind is_repair_call 0 0); [quiet | intro].
  apply (emits_try_except is_repair_call 0 0); [|intro; quiet].
  apply (emits_bind is_repair_call 0 0); [quiet | intro].
  apply (emits_bind is_repair_call 0 0); [quiet | intro].
  destruct (negb _); [quiet|].
  apply (emits_bind is_repair_call 0 0); [quiet | intro].
  apply (emits_bind is_repair_call 0 0); [quiet | intros [video_file|]]; [|quiet].
  eapply (emits_bind_hoare is_repair_call 0 0) with (Q := fun verdict => fst verdict = true).
  - quiet.
  - intros s verdict s' _ E. destruct (Hvalid video_file s) as [message Hm].
    rewrite E in Hm. cbn in Hm. injection Hm as ->. reflexivity.
  - intros [is_valid message] Hv. cbn [fst] in Hv. subst is_valid. cbn [negb]. quiet.
Qed.

(** When the validation after the orchestrator's repair fails, the repair
    block makes the function return. *)
Lemma check_and_repair_gives_up result folder msg w :
  (forall p st, exists message,
      fst (validate_video_file p (w_revalidate w) st) = Returns (false, message)) ->
  hoare (fun _ => True) (check_and_repair result folder msg w)
        (fun checked _ => checked = None).
Proof.
  intros Hfails. unfold check_and_repair.
  assert (Hnone : forall o, hoare (fun _ => True)
                    (update_video_download_status o failed None None None ;;;
                     ret (@None string))
                    (fun checked _ => checked = None)).
  { intro o. hoare_skip. apply hoare_ret. auto. }
  hoare_skip.
  destruct (a <? 1024000)%Z; [apply Hnone|].
  destruct (Py.contains "No video streams" msg); [apply Hnone|].
  hoare_skip. destruct a0 as [repaired repaired_path].
  destruct repaired; [|apply Hnone].
  eapply hoare_bind with (R := fun verdict _ => fst verdict = false).
  - intros s verdict s' _ E. destruct (Hfails repaired_path s) as [message Hm].
    rewrite E in Hm. cbn in Hm. injection Hm as ->. reflexivity.
  - intros [is_valid message]. cbn [fst].
    apply hoare_pure. intros ->. cbn [negb]. apply Hnone.
Qed.

(** C4, as the specification states it, fails: the fetcher and the
    orchestrator each validate and each repair.  In this run the probe of
    the downloaded file times out, the fetcher repairs it, the original is
    locked so the repaired file is handed on under its own name without
    validation, the probe of that file times out in the orchestrator, and
    the orchestrator calls [repair_video_file] a second time. *)
Lemma C4_counterexample :
  let w := world_of (download_of slow_probe locked_original) slow_probe repair_fails
             h264_file audio_extracted Commits Commits in
  let run := download_video_background 7 sample_link w (state_of sample_row) in
  filter is_repair_call (events_of run) =
    [EvRepair "static/downloads/video_7/video_1700000000.mp4" "static/downloads/video_7";
     EvRepair "static/downloads/video_7/video_1700000000_repaired.mp4"
       "static/downloads/video_7"] /\
  count_events is_repair_call (events_of run) = 2%nat /\
  download_status (final_row run) = failed.
Proof.
  cbv zeta. split; [reflexivity|]. split; reflexivity.
Qed.

(** C4, amended: [repair_video_file] is called at most once by the
    fetcher and at most once by the orchestrator, hence at most twice in
    the run of a job, and by neither when its validation passes.  Inside the orchestrator, when the validation that follows
    its repair attempt fails, the repair block returns with the status
    [failed] (the update being committed) and one repair call at most. *)
Theorem C4_repair_attempts_are_bounded (id : Z) (link : string) (w : World) (s : St) :
  (forall folder st,
      (repairs_in (download_youtube_video link folder (w_download w) st) st <= 1)%nat) /\
  (forall result folder st,
      (repairs_in (process_downloaded result folder w st) st <= 1)%nat) /\
  (repairs_in (download_video_background id link w s) s <= 2)%nat /\
  ((forall p st, exists message,
       fst (validate_video_file p (d_validate (w_download w)) st) = Returns (true, message)) ->
   forall folder st,
     repairs_in (download_youtube_video link folder (w_download w) st) st = 0%nat) /\
  ((forall p st, exists message,
       fst (validate_video_file p (w_validate w) st) = Returns (true, message)) ->
   forall result folder st,
     repairs_in (process_downloaded result folder w st) st = 0%nat) /\
  (w_db_final w = Commits ->
   (forall p st, exists message,
       fst (validate_video_file p (w_revalidate w) st) = Returns (false, message)) ->
   forall result folder msg st checked st',
     check_and_repair result folder msg w st = (Returns checked, st') ->
     checked = None /\
     download_status (row st') = failed /\
     (repairs_in (check_and_repair result folder msg w st) st <= 1)%nat).
Proof.
  unfold repairs_in. split; [|split; [|split; [|split; [|split]]]].
  - intros folder st.
    pose proof (emits_bound is_repair_call 1 _ st
                  (download_youtube_video_repairs_once link folder (w_download w))).
    lia.
  - intros result folder st.
    pose proof (emits_bound is_repair_call 1 _ st
                  (process_downloaded_repairs_once result folder w)).
    lia.
  - pose proof (emits_bound is_repair_call 2 _ s
                  (download_video_background_repairs_twice id link w)).
    lia.
  - intros Hvalid folder st.
    rewrite (emits_count is_repair_call _ st
               (download_valid_no_repair link folder (w_download w) Hvalid)).
    apply Nat.sub_diag.
  - intros Hvalid result folder st.
    rewrite (emits_count is_repair_call _ st
               (process_downloaded_valid_no_repair result folder w Hvalid)).
    apply Nat.sub_diag.
  - intros Hdb Hfails result folder msg st checked st' E.
    pose proof (check_and_repair_gives_up result folder msg w Hfails st checked st' I E)
      as Hc.
    cbv beta in Hc. subst checked. split; [reflexivity|]. split.
    + exact (check_and_repair_failed result folder msg w Hdb st None st' I E eq_refl).
    + pose proof (emits_bound is_repair_call 1 _ st
                    (check_and_repair_repairs_once result folder msg w)).
      lia.
Qed.

Lemma C4_repair_attempts_are_bounded_witness :
  let w := world_of (download_of h264_file repair_fails) unreadable_file repair_replaces
             unreadable_file audio_extracted Commits Commits in
  let st := state_of sample_row in
  let run := check_and_repair "static/downloads/video_7/video_1700000000.mp4"
               "static/downloads/video_7" "FFprobe failed: moov atom not found" w st in
  fst run = Returns None /\
  download_status (final_row run) = failed /\
  (repairs_in run st <= 1)%nat.
Proof.
  cbv zeta.
  set (w := world_of (download_of h264_file repair_fails) unreadable_file repair_replaces
              unreadable_file audio_extracted Commits Commits).
  set (run := check_and_repair "static/downloads/video_7/video_1700000000.mp4"
                "static/downloads/video_7" "FFprobe failed: moov atom not found" w
                (state_of sample_row)).
  assert (Hfails : forall p st, exists message,
             fst (validate_video_file p (w_revalidate w) st) = Returns (false, message)).
  { intros p st. eexists. reflexivity. }
  assert (E : run = (fst run, snd run)) by (destruct run; reflexivity).
  assert (Hnone : fst run = Returns None) by (vm_compute; reflexivity).
  rewrite Hnone in E.
  destruct (C4_repair_attempts_are_bounded 7 sample_link w (state_of sample_row))
    as (_ & _ & _ & _ & _ & H).
  destruct (H eq_refl Hfails "static/downloads/video_7/video_1700000000.mp4"
              "static/downloads/video_7" "FFprobe failed: moov atom not found"
              (state_of sample_row) None (snd run) E) as (_ & Hs & Hr).
  split; [exact Hnone|]. split; [exact Hs | exact Hr].
Defined.

(** ** The transcriber: a file is always written *)

Lemma emits_grows {A} (kind : event -> bool) (n : nat) (m : M A) :
  emits kind n m -> grows m.
Proof. intros H s. destruct (H s) as (t & Ht & _). exists t. exact Ht. Qed.

Ltac grow := solve [apply (emits_grows is_semaphore_event 0); quiet].

Lemma extends_refl (s : St) : extends s s.
Proof. exists []. rewrite app_nil_r. reflexivity. Qed.

Lemma extends_trans (s0 s1 s2 : St) : extends s0 s1 -> extends s1 s2 -> extends s0 s2.
Proof.
  intros [t1 H1] [t2 H2]. exists (t1 ++ t2)%list. rewrite H2, H1, app_assoc. reflexivity.
Qed.

Lemma written_since_extends (s0 s1 s2 : St) (p : string) :
  written_since s0 p s1 -> extends s1 s2 -> written_since s0 p s2.
Proof.
  intros (t1 & c & H1 & Hin & Hc) [t2 H2].
  exists (t1 ++ t2)%list, c. rewrite H2, H1, app_assoc.
  split; [reflexivity|]. split; [apply in_or_app; left; exact Hin | exact Hc].
Qed.

(** What holds of the trace so far still holds after a computation that
    only adds to it, however that computation ends. *)
Lemma grows_extends {A} (s0 : St) (m : M A) :
  grows m -> forall s, extends s0 s -> extends s0 (snd (m s)).
Proof. intros Hg s H. eapply extends_trans; [exact H | apply Hg]. Qed.

Lemma hoare_grows_extends {A} (s0 : St) (m : M A) :
  grows m -> hoare (extends s0) m (fun _ => extends s0).
Proof.
  intros Hg s a s' H E. pose proof (grows_extends s0 m Hg s H) as H'.
  rewrite E in H'. exact H'.
Qed.

Lemma hoare_grows_written {A} (s0 : St) (p : string) (m : M A) :
  grows m -> hoare (written_since s0 p) m (fun _ => written_since s0 p).
Proof.
  intros Hg s a s' H E. eapply written_since_extends; [exact H|].
  specialize (Hg s). rewrite E in Hg. exact Hg.
Qed.

(** The rule of [try ... except] with what is known when the handler
    starts. *)
Lemma hoare_try_except_inv {A} (P Inv : St -> Prop) (Q : A -> St -> Prop)
    (m : M A) (h : exn -> M A) :
  hoare P m Q ->
  (forall s, P s -> Inv (snd (m s))) ->
  (forall e, hoare Inv (h e) Q) ->
  hoare P (try_except m h) Q.
Proof.
  intros Hm Hinv Hh s a s' HP E. unfold try_except in E.
  specialize (Hinv s HP).
  destruct (m s) as [[b|e] s1] eqn:Em.
  - eapply Hm; [exact HP | rewrite Em; exact E].
  - eapply Hh; [exact Hinv | exact E].
Qed.

Lemma write_file_written (s0 : St) (p : string) (c : artifact) (w : result unit) :
  is_transcript c = true ->
  hoare (extends s0) (write_file p c w) (fun _ => written_since s0 p).
Proof.
  intros Hc s a s' [t Ht] E.
  unfold write_file, bind, observe, emit in E.
  destruct w as [[]|e]; [|discriminate]. injection E as _ <-.
  exists (t ++ [EvWrite p c])%list, c. cbn [trace]. rewrite Ht, app_assoc.
  split; [reflexivity|]. split; [apply in_or_app; right; left; reflexivity | exact Hc].
Qed.

Lemma create_empty_transcript_written (s0 : St) a f msg w :
  hoare (extends s0) (create_empty_transcript a f msg w) (written_since s0).
Proof.
  unfold create_empty_transcript.
  eapply hoare_bind; [apply write_file_written; reflexivity | intro].
  apply hoare_ret. auto.
Qed.

Lemma save_transcript_written (s0 : St) a f text method o :
  hoare (extends s0) (save_transcript a f text method o) (written_since s0).
Proof.
  unfold save_transcript.
  apply hoare_try_except_inv with (Inv := extends s0).
  - eapply hoare_bind with (R := fun c s => extends s0 s /\ is_transcript c = true).
    + unfold format_transcript. destruct (_ =? _)%nat.
      * intros s c s' _ E. discriminate.
      * apply hoare_ret. auto.
    + intro c.
      eapply hoare_bind with (R := fun _ => written_since s0 (transcript_path_of a f)).
      * intros s u s' [He Hc] E. eapply write_file_written; eauto.
      * intro. eapply hoare_bind; [apply hoare_grows_written; grow | intro].
        apply hoare_ret. auto.
  - intros s H. apply grows_extends; [grow | exact H].
  - intro e. apply create_empty_transcript_written.
Qed.

Lemma transcribe_with_whisper_written (s0 : St) a f o :
  hoare (extends s0) (transcribe_with_whisper a f o)
        (fun found s => extends s0 s /\ forall p, found = Some p -> written_since s0 p s).
Proof.
  unfold transcribe_with_whisper.
  apply hoare_try_except_inv with (Inv := extends s0).
  - eapply hoare_bind; [apply hoare_grows_extends; grow | intro available].
    destruct (negb available); [apply hoare_ret; split; [assumption | discriminate]|].
    eapply hoare_bind; [apply hoare_grows_extends; grow | intro].
    eapply hoare_bind; [apply hoare_grows_extends; grow | intro text].
    destruct (Py.truthy text); [|apply hoare_ret; split; [assumption | discriminate]].
    eapply hoare_bind; [apply write_file_written; reflexivity | intro].
    apply hoare_ret. intros s H. split.
    + destruct H as (t & c & Ht & _). exists t. exact Ht.
    + intros p [= <-]. exact H.
  - intros s H. apply grows_extends; [grow | exact H].
  - intro e. apply hoare_ret. intros s H. split; [exact H | discriminate].
Qed.

Lemma transcribe_short_audio_written (s0 : St) a f o :
  hoare (extends s0) (transcribe_short_audio a f o) (written_since s0).
Proof.
  unfold transcribe_short_audio.
  apply hoare_try_except_inv with (Inv := extends s0).
  - eapply hoare_bind; [apply hoare_grows_extends; grow | intro].
    eapply hoare_bind; [apply hoare_grows_extends; grow | intro text].
    eapply hoare_bind; [apply hoare_grows_extends; grow | intro text'].
    destruct (Py.truthy text').
    + apply save_transcript_written.
    + apply create_empty_transcript_written.
  - intros s H. apply grows_extends; [grow | exact H].
  - intro e. apply create_empty_transcript_written.
Qed.

Lemma transcribe_long_audio_written (s0 : St) a f o :
  hoare (extends s0) (transcribe_long_audio a f o) (written_since s0).
Proof.
  unfold transcribe_long_audio.
  apply hoare_try_except_inv with (Inv := extends s0).
  - eapply hoare_bind; [apply hoare_grows_extends; grow | intro audio_len].
    eapply hoare_bind; [apply hoare_grows_extends; grow | intro all_texts].
    destruct all_texts.
    + apply create_empty_transcript_written.
    + apply save_transcript_written.
  - intros s H. apply grows_extends; [grow | exact H].
  - intro e. apply create_empty_transcript_written.
Qed.

(** Whenever [transcribe_audio] returns, it returns a path to which it
    wrote a transcript or a failure record. *)
Lemma transcribe_audio_written (s0 : St) a f o :
  hoare (extends s0) (transcribe_audio a f o) (written_since s0).
Proof.
  unfold transcribe_audio.
  eapply hoare_bind; [apply hoare_grows_extends; grow | intro].
  apply hoare_try_except_inv with (Inv := extends s0).
  - destruct (negb (t_exists o)); [apply create_empty_transcript_written|].
    eapply hoare_bind; [apply transcribe_with_whisper_written | intro whisper_result].
    destruct (Py.truthy whisper_result) eqn:Ew.
    + apply hoare_ret. intros s [_ H]. apply H.
      destruct whisper_result; [reflexivity | discriminate].
    + eapply hoare_conseq with (P' := extends s0) (Q' := written_since s0);
        [|intros s H; apply H | auto].
      eapply hoare_bind; [apply hoare_grows_extends; grow | intro].
      eapply hoare_bind; [apply hoare_grows_extends; grow | intro duration].
      destruct (LONG_AUDIO_MS <? duration)%Z.
      * apply transcribe_long_audio_written.
      * apply transcribe_short_audio_written.
  - intros s H. apply grows_extends; [grow | exact H].
  - intro e. apply create_empty_transcript_written.
Qed.

(** With a handler whose write succeeds, [transcribe_audio] returns. *)
Lemma transcribe_audio_returns a f o s :
  t_write_error o = Returns tt ->
  exists p, fst (transcribe_audio a f o s) = Returns p.
Proof.
  intros Hw. unfold transcribe_audio. unfold bind at 1. cbn [emit].
  unfold try_except.
  match goal with |- context [match ?body ?s1 with _ => _ end] =>
    destruct (body s1) as [[p|e] s2] end.
  - exists p. reflexivity.
  - rewrite Hw. eexists. reflexivity.
Qed.

(** The text of a failure record says that the transcription failed and
    why. *)
Lemma error_content_carries_reason (now reason : string) :
  Py.contains "Status: FAILED" (error_content now reason) = true /\
  Py.contains ("Error: " ++ reason) (error_content now reason) = true.
Proof.
  unfold error_content. split.
  - do 5 apply contains_app_r. apply contains_app_l.
  - do 8 apply contains_app_r. rewrite <- append_assoc. apply contains_app_l.
Qed.

(** An audio file that cannot be read gets one failure record, written
    by the handler of [transcribe_short_audio] or, when that write or
    [sr.Recognizer()] fails, by the handler of [transcribe_audio]. *)
Lemma transcribe_audio_unreadable (a f : string) (o : TranscribeObs) (s : St) :
  t_write_error o = Returns tt ->
  unreadable o = true ->
  let run := transcribe_audio a f o s in
  fst run = Returns (transcript_path_of a f) /\
  exists reason,
    filter is_file_write (events_of run)
    = (filter is_file_write (trace s)
       ++ [EvWrite (transcript_path_of a f) (FailureRecord reason)])%list /\
    (Py.startswith "Short audio error: " reason = true \/
     Py.startswith "Transcription error: " reason = true).
Proof.
  intros Hw Hbad. cbv zeta.
  unfold unreadable in Hbad.
  apply andb_prop in Hbad. destruct Hbad as [Hbad Hrecord].
  apply andb_prop in Hbad. destruct Hbad as [Hbad Hduration].
  apply andb_prop in Hbad. destruct Hbad as [Hexists Hwhisper].
  unfold transcribe_audio, transcribe_with_whisper, transcribe_short_audio,
    create_empty_transcript, write_file, events_of,
    bind, emit, try_except, try_except_on, observe, ret.
  rewrite Hexists, Hw. cbn [negb fst snd row trace].
  destruct (t_duration o) as [?|e1]; [discriminate|].
  destruct (sh_record (t_short o)) as [?|e2]; [discriminate|].
  assert (Hshort : (LONG_AUDIO_MS <? 0)%Z = false) by reflexivity.
  destruct (wh_import (t_whisper o)) as [[]|e3]; cbn [fst snd row trace negb].
  1: destruct (wh_text (t_whisper o)) as [?|e4]; [discriminate|].
  2: destruct (is_import_error (exn_cls e3)).
  all: cbn [fst snd row trace negb Py.truthy].
  all: destruct (t_recognizer o) as [[]|e5]; cbn [fst snd row trace]; rewrite ?Hshort;
    cbn [fst snd row trace].
  all: try (destruct (sh_write_error (t_short o)) as [[]|e6]; cbn [fst snd row trace]).
  all: split; [reflexivity|]; eexists;
    rewrite !filter_app; cbn [filter is_file_write]; rewrite ?app_nil_r;
    (split; [reflexivity|]); unfold Py.startswith;
    first [left; apply prefix_app | right; apply prefix_app].
Qed.

(** C7, as the specification states it, fails: when the audio file is
    missing and the folder cannot be written to, the failure record cannot
    be created, neither at the first try nor in the handler, and the
    [OSError] of [open] reaches the caller with no file written. *)
Lemma C7_counterexample :
  let audio := "static/downloads/video_7/video_1700000000_audio.wav" in
  let denied := Exn OSError "[Errno 13] Permission denied" in
  let run := transcribe_audio audio "static/downloads/video_7"
               (transcription false (Raises denied)) (state_of sample_row) in
  fst run = Raises denied /\
  events_of run = [EvTranscribe audio "static/downloads/video_7"].
Proof. cbv zeta. split; reflexivity. Qed.

(** C7, amended: when the failure record of the outermost handler can be
    written, [transcribe_audio] never raises: it returns a path to which
    this call wrote a transcript (annotated or Whisper) or a failure
    record.  With a missing audio file it writes nothing but one failure
    record, at the transcript path, and returns that path; the reason in
    the record is "Audio file not found" when the first write succeeds.
    With an audio file that cannot be read it also writes exactly one
    file, a failure record at the transcript path, and returns that path.
    The text of every failure record that the run writes holds
    "Status: FAILED" and the reason. *)
Theorem C7_transcribe_audio_writes_a_transcript
    (audio_path output_folder : string) (o : TranscribeObs) (s : St) :
  t_write_error o = Returns tt ->
  let run := transcribe_audio audio_path output_folder o s in
  (exists p, fst run = Returns p /\ written_since s p (snd run)) /\
  (t_exists o = false ->
   fst run = Returns (transcript_path_of audio_path output_folder) /\
   exists reason,
     events_of run =
       (trace s ++ [EvTranscribe audio_path output_folder;
                    EvWrite (transcript_path_of audio_path output_folder)
                            (FailureRecord reason)])%list /\
     (t_write_notfound o = Returns tt -> reason = "Audio file not found")) /\
  (unreadable o = true ->
   fst run = Returns (transcript_path_of audio_path output_folder) /\
   exists reason,
     filter is_file_write (events_of run)
     = (filter is_file_write (trace s)
        ++ [EvWrite (transcript_path_of audio_path output_folder)
              (FailureRecord reason)])%list /\
     (Py.startswith "Short audio error: " reason = true \/
      Py.startswith "Transcription error: " reason = true)) /\
  (forall p reason now,
     In (EvWrite p (FailureRecord reason)) (events_of run) ->
     exists text,
       file_text now (FailureRecord reason) = Some text /\
       Py.contains "Status: FAILED" text = true /\
       Py.contains ("Error: " ++ reason) text = true).
Proof.
  intros Hw. cbv zeta. split; [|split; [|split]].
  - destruct (transcribe_audio_returns audio_path output_folder o s Hw) as [p Hp].
    exists p. split; [exact Hp|].
    destruct (transcribe_audio audio_path output_folder o s) as [r s'] eqn:E.
    cbn [fst snd] in *. subst r.
    exact (transcribe_audio_written s audio_path output_folder o s p s' (extends_refl s) E).
  - intros Hmissing.
    unfold transcribe_audio, events_of, create_empty_transcript, write_file,
      bind, emit, try_except, observe, ret.
    rewrite Hmissing. cbn [negb fst snd row trace].
    destruct (t_write_notfound o) as [[]|e]; cbn [fst snd row trace].
    + split; [reflexivity|]. exists "Audio file not found".
      rewrite <- app_assoc. split; [reflexivity | reflexivity].
    + rewrite Hw. cbn [fst snd row trace].
      split; [reflexivity|]. exists ("Transcription error: " ++ exn_str e).
      rewrite <- app_assoc. split; [reflexivity | discriminate].
  - intros Hbad.
    exact (transcribe_audio_unreadable audio_path output_folder o s Hw Hbad).
  - intros p reason now _. exists (error_content now reason).
    split; [reflexivity|]. apply error_content_carries_reason.
Qed.

Lemma C7_transcribe_audio_writes_a_transcript_witness :
  let audio := "static/downloads/video_7/video_1700000000_audio.wav" in
  let run := transcribe_audio audio "static/downloads/video_7"
               (transcription false (Returns tt)) (state_of sample_row) in
  let decode := transcribe_audio audio "static/downloads/video_7"
                  (corrupt_audio (Returns tt)) (state_of sample_row) in
  (fst run = Returns "static/downloads/video_7/video_1700000000_transcript.txt" /\
   events_of run =
     [EvTranscribe audio "static/downloads/video_7";
      EvWrite "static/downloads/video_7/video_1700000000_transcript.txt"
        (FailureRecord "Audio file not found")]) /\
  fst decode = Returns "static/downloads/video_7/video_1700000000_transcript.txt".
Proof.
  cbv zeta. split.
  - pose proof (C7_transcribe_audio_writes_a_transcript
                  "static/downloads/video_7/video_1700000000_audio.wav"
                  "static/downloads/video_7" (transcription false (Returns tt))
                  (state_of sample_row) eq_refl) as H.
    cbv zeta in H. destruct H as (_ & H & _).
    destruct (H eq_refl) as (Hp & reason & Hev & Hreason).
    split; [exact Hp|]. rewrite Hev, (Hreason eq_refl). reflexivity.
  - pose proof (C7_transcribe_audio_writes_a_transcript
                  "static/downloads/video_7/video_1700000000_audio.wav"
                  "static/downloads/video_7" (corrupt_audio (Returns tt))
                  (state_of sample_row) eq_refl) as H.
    cbv zeta in H. destruct H as (_ & _ & H & _).
    destruct (H eq_refl) as (Hp & _). exact Hp.
Defined.

(* ================================================================== *)
(** * More of the pipeline *)
(* ================================================================== *)

(** ** Stepping through a run *)

Lemma filter_existsb {A} (f : A -> bool) (l : list A) :
  existsb f l = match filter f l with [] => false | _ :: _ => true end.
Proof.
  induction l as [|x l IH]; [reflexivity|]. simpl.
  destruct (f x); [reflexivity | exact IH].
Qed.

(** One case of an observation *)
Ltac case_split :=
  match goal with
  | |- context [match ?x with Returns _ => _ | Raises _ => _ end] => destruct x eqn:?
  | |- context [if ?c then _ else _] => destruct c eqn:?
  | |- context [match ?x with Some _ => _ | None => _ end] => destruct x eqn:?
  | |- context [match ?x with [] => _ | _ :: _ => _ end] => destruct x eqn:?
  end.

Ltac verdict_absurd := split; [intros [m H]; discriminate H | discriminate].

Ltac use_cases :=
  repeat match goal with
  | H : negb _ = true |- _ => apply negb_true_iff in H
  | H : negb _ = false |- _ => apply negb_false_iff in H
  end;
  repeat match goal with
  | H : ?x = _ |- context [?x] => rewrite H
  end.

(** ** The validator *)

(** The validator returns a verdict whatever it observes; it probes at
    most twice and neither removes nor renames a file. *)
Lemma validate_video_file_returns (p : string) (o : ValidateObs) (s : St) :
  exists verdict t,
    validate_video_file p o s
      = (Returns verdict, {| row := row s; trace := (trace s ++ EvValidate p :: t)%list |}) /\
    (count_events is_ffprobe t <= 2)%nat /\
    (forall q, ~ In (EvRemove q) t) /\
    (forall a b, ~ In (EvRename a b) t).
Proof.
  unfold validate_video_file, file_type_check, bind, emit, try_except, observe, ret.
  repeat (case_split; cbn [negb fst snd row trace]).
  all: rewrite <- ?app_assoc; cbn [app].
  all: eexists; eexists; split; [reflexivity|].
  all: split; [cbn; lia|].
  all: split; intros; cbn; intuition discriminate.
Qed.

(** [validate_video_file] never raises: whatever the file system, the
    type check and [ffprobe] do, it returns a verdict and a message.  It
    leaves the job row alone and runs [ffprobe] at most twice. *)
Theorem validate_video_file_never_raises (p : string) (o : ValidateObs) (s : St) :
  let run := validate_video_file p o s in
  (exists is_valid message, fst run = Returns (is_valid, message)) /\
  final_row run = row s /\
  (count_events is_ffprobe (events_of run) <= count_events is_ffprobe (trace s) + 2)%nat.
Proof.
  cbv zeta. destruct (validate_video_file_returns p o s) as ([ok msg] & t & Hrun & Hc & _).
  rewrite Hrun. unfold final_row, events_of. cbn [fst snd row trace].
  split; [eauto|]. split; [reflexivity|].
  rewrite count_events_app.
  change (EvValidate p :: t) with ([EvValidate p] ++ t)%list.
  rewrite count_events_app. cbn. lia.
Qed.

(** [validate_video_file] calls a file valid exactly when the file
    exists, has at least 1024000 bytes, is not rejected by the optional
    file type check, and a probe shows a video stream. *)
Theorem validate_video_file_accepts_iff (p : string) (o : ValidateObs) (s : St) :
  (exists message, fst (validate_video_file p o s) = Returns (true, message))
  <-> passes_validation o = true.
Proof.
  unfold passes_validation, shows_video_stream, type_check_passes,
    validate_video_file, file_type_check, bind, emit, try_except, observe, ret.
  destruct (v_exists o), (v_getsize o) as [size|e]; cbn [negb fst snd andb];
    try verdict_absurd.
  rewrite Z.leb_antisym.
  destruct (size <? MIN_VIDEO_SIZE)%Z; cbn [negb fst snd andb]; try verdict_absurd.
  destruct (v_magic o) as [file_type|e]; cbn [negb fst snd andb].
  1: destruct (Py.startswith "video/" file_type),
      (Py.startswith "application/octet-stream" file_type); cbn [negb fst snd andb orb];
      try verdict_absurd.
  all: destruct (v_ffprobe o) as [result|e1]; cbn [negb fst snd andb]; try verdict_absurd.
  all: destruct (returncode result =? 0)%Z; cbn [negb fst snd andb].
  all: repeat (case_split; cbn [negb fst snd andb orb] in * ).
  all: rewrite ?filter_existsb; use_cases; cbn [negb andb orb].
  all: first [verdict_absurd | split; [reflexivity | intros _; eexists; reflexivity]].
Qed.

Lemma validate_video_file_accepts_iff_witness :
  exists message,
    fst (validate_video_file "static/downloads/video_7/video_1700000000.mp4" h264_file
           (state_of sample_row)) = Returns (true, message).
Proof.
  apply (proj2 (validate_video_file_accepts_iff
                  "static/downloads/video_7/video_1700000000.mp4" h264_file
                  (state_of sample_row))).
  reflexivity.
Defined.

(** ** The repairer *)

Lemma repaired_path_differs (p f : string) : repaired_path_of p f <> p.
Proof. exact (proj2 (repaired_path_fresh p f)). Qed.

(** One step through a run: the validator is replaced by what it returns,
    an observation by its cases. *)
Ltac run_step :=
  match goal with
  | |- context [validate_video_file ?p ?o ?s] =>
      let ok := fresh "ok" in let msg := fresh "msg" in let tv := fresh "tv" in
      let Hv := fresh "Hv" in let Hc := fresh "Hc" in
      let Hrm := fresh "Hrm" in let Hrn := fresh "Hrn" in
      destruct (validate_video_file_returns p o s) as ([ok msg] & tv & Hv & Hc & Hrm & Hrn);
      rewrite Hv
  | |- context [match ?x with Returns _ => _ | Raises _ => _ end] => destruct x eqn:?
  | |- context [if ?c then _ else _] => destruct c eqn:?
  | |- context [match ?x with Some _ => _ | None => _ end] => destruct x eqn:?
  | |- context [match ?x with [] => _ | _ :: _ => _ end] => destruct x eqn:?
  | u : unit |- _ => destruct u
  end.

Ltac run_cases := repeat (run_step; cbn [negb andb fst snd row trace] in * ).

Ltac read_tests :=
  repeat match goal with
  | H : (_ && _)%bool = true |- _ => apply andb_prop in H; destruct H
  | H : (_ =? _)%Z = true |- _ => apply Z.eqb_eq in H
  | H : (_ <? _)%Z = true |- _ => apply Z.ltb_lt in H
  | H : (_ <? _)%Z = false |- _ => apply Z.ltb_ge in H
  end.

(** The answer of [repair_video_file].  A failure always hands back the
    original path.  A success means that [ffmpeg] exited with 0 and left
    more than 1024000 bytes, and then either the original was replaced
    and passed [validate_video_file] (the original path is returned), or
    replacing it raised (the path of the [_repaired.mp4] file, which is not
    the original, is returned). *)
Theorem repair_video_file_outcome (p f : string) (o : RepairObs) (s : St)
    (ok : bool) (path : string) :
  fst (repair_video_file p f o s) = Returns (ok, path) ->
  if ok then
    (exists proc size,
        r_ffmpeg o = Returns proc /\ returncode proc = 0%Z /\ r_exists o = true /\
        r_getsize o = Returns size /\ (MIN_VIDEO_SIZE < size)%Z) /\
    ((path = p /\ r_remove o = Returns tt /\ r_rename o = Returns tt /\
      exists message s1,
        fst (validate_video_file p (r_validate o) s1) = Returns (true, message))
     \/
     (path = repaired_path_of p f /\ path <> p /\
      exists e, r_remove o = Raises e \/ (r_remove o = Returns tt /\ r_rename o = Raises e)))
  else path = p.
Proof.
  unfold repair_video_file, remove_if_exists, bind, emit, try_except, observe, ret.
  cbn [fst snd row trace].
  run_cases.
  all: intros H; inversion H; subst; clear H; try reflexivity.
  all: read_tests.
  all: (split; [do 2 eexists; repeat split; eassumption|]).
  all: first
    [ left; repeat split; try reflexivity; do 2 eexists;
      match goal with H : validate_video_file _ _ _ = _ |- _ => rewrite H end; reflexivity
    | right; split; [reflexivity|]; split; [apply repaired_path_differs|]; eauto ].
Qed.

Lemma repair_video_file_outcome_witness :
  exists proc size,
    r_ffmpeg repair_replaces = Returns proc /\ returncode proc = 0%Z /\
    r_exists repair_replaces = true /\
    r_getsize repair_replaces = Returns size /\ (MIN_VIDEO_SIZE < size)%Z.
Proof.
  exact (proj1 (repair_video_file_outcome "v.mp4" "d" repair_replaces (state_of sample_row)
                  true "v.mp4" eq_refl)).
Defined.

(** [repair_video_file] removes or overwrites the original file only
    after [ffmpeg] has exited with 0 and left a re-encoded file of more
    than 1024000 bytes: in every other run the trace has no
    [os.remove(video_path)] and no [os.rename(..., video_path)]. *)
Theorem repair_video_file_spares_original (p f : string) (o : RepairObs) (s : St)
    (t : list event) :
  events_of (repair_video_file p f o s) = (trace s ++ t)%list ->
  In (EvRemove p) t \/ (exists src, In (EvRename src p) t) ->
  exists proc size,
    r_ffmpeg o = Returns proc /\ returncode proc = 0%Z /\ r_exists o = true /\
    r_getsize o = Returns size /\ (MIN_VIDEO_SIZE < size)%Z.
Proof.
  unfold repair_video_file, remove_if_exists, events_of, bind, emit, try_except, observe, ret.
  cbn [fst snd row trace].
  run_cases.
  all: rewrite <- ?app_assoc; intros H; apply app_inv_head in H; subst t.
  all: read_tests.
  all: intros Hin.
  all: try solve [do 2 eexists; repeat split; eassumption].
  all: cbn [In app] in Hin; destruct Hin as [Hin | [src Hin]].
  all: repeat match goal with
       | H : _ \/ _ |- _ => destruct H
       | H : False |- _ => destruct H
       | H : EvRemove _ = EvRemove _ |- _ =>
           inversion H; exfalso; eapply repaired_path_differs; eassumption
       | H : _ = _ |- _ => discriminate H
       end.
Qed.

Lemma repair_video_file_spares_original_witness :
  exists proc size,
    r_ffmpeg repair_replaces = Returns proc /\ returncode proc = 0%Z /\
    r_exists repair_replaces = true /\
    r_getsize repair_replaces = Returns size /\ (MIN_VIDEO_SIZE < size)%Z.
Proof.
  apply (repair_video_file_spares_original "v.mp4" "d" repair_replaces (state_of sample_row)
           (skipn 0 (events_of (repair_video_file "v.mp4" "d" repair_replaces
                                  (state_of sample_row))))).
  - reflexivity.
  - left. cbn. auto.
Defined.

(** ** The fetcher *)

(** The directory scan leaves the state alone. *)
Lemma find_video_file_state (folder : string) (files : list DirEntry) (s : St) :
  snd (find_video_file folder files s) = s.
Proof.
  induction files as [|file rest IH]; cbn [find_video_file]; [reflexivity|].
  destruct (Py.endswith_any _ _); [|exact IH].
  unfold bind, observe. destruct (entry_size file) as [n|e]; [|reflexivity].
  destruct (MIN_VIDEO_SIZE <? n)%Z; [reflexivity | exact IH].
Qed.

(** The directory scan of [download_youtube_video] stops at the first
    listed name that has a video extension and more than 1024000 bytes and
    returns it joined to the folder.  Names before it are skipped: those
    with another extension are not even sized.  It returns [None] when no
    name qualifies, and the first candidate whose size cannot be read
    makes it raise. *)
Theorem find_video_file_first_match (folder : string) (files : list DirEntry) (s : St) :
  match fst (find_video_file folder files s) with
  | Returns (Some p) =>
      exists before file after,
        files = (before ++ file :: after)%list /\
        forallb (fun f => negb (is_downloaded_video f)) before = true /\
        is_downloaded_video file = true /\
        p = OsPath.join folder (entry_name file)
  | Returns None => forallb (fun f => negb (is_downloaded_video f)) files = true
  | Raises e =>
      exists before file after,
        files = (before ++ file :: after)%list /\
        forallb (fun f => negb (is_downloaded_video f)) before = true /\
        has_video_extension file = true /\
        entry_size file = Raises e
  end.
Proof.
  induction files as [|file rest IH]; cbn [find_video_file]; [reflexivity|].
  assert (Hskip : is_downloaded_video file = false ->
    match fst (find_video_file folder rest s) with
    | Returns (Some p) =>
        exists before file0 after,
          (file :: rest = before ++ file0 :: after)%list /\
          forallb (fun f => negb (is_downloaded_video f)) before = true /\
          is_downloaded_video file0 = true /\
          p = OsPath.join folder (entry_name file0)
    | Returns None => forallb (fun f => negb (is_downloaded_video f)) (file :: rest) = true
    | Raises e =>
        exists before file0 after,
          (file :: rest = before ++ file0 :: after)%list /\
          forallb (fun f => negb (is_downloaded_video f)) before = true /\
          has_video_extension file0 = true /\
          entry_size file0 = Raises e
    end).
  { intros Hno.
    destruct (fst (find_video_file folder rest s)) as [[p|]|e].
    - destruct IH as (before & file0 & after & -> & Hb & Hf & Hp).
      exists (file :: before), file0, after. cbn [forallb app]. rewrite Hno, Hb. auto.
    - cbn [forallb]. rewrite Hno, IH. reflexivity.
    - destruct IH as (before & file0 & after & -> & Hb & Hf & Hp).
      exists (file :: before), file0, after. cbn [forallb app]. rewrite Hno, Hb. auto. }
  unfold is_downloaded_video, has_video_extension in Hskip |- *.
  destruct (Py.endswith_any _ (entry_name file)) eqn:Hext; [|apply Hskip; reflexivity].
  unfold bind, observe.
  destruct (entry_size file) as [n|e] eqn:Hsize; cbn [fst].
  - destruct (MIN_VIDEO_SIZE <? n)%Z eqn:Hbig; [|apply Hskip; reflexivity].
    cbn [fst]. exists [], file, rest. cbn [forallb app].
    unfold is_downloaded_video, has_video_extension.
    rewrite Hext, Hsize, Hbig. auto.
  - exists [], file, rest. cbn [forallb app].
    unfold has_video_extension. rewrite Hext. auto.
Qed.

Lemma find_video_file_run (folder : string) (files : list DirEntry) (s : St) :
  find_video_file folder files s = (fst (find_video_file folder files s), s).
Proof.
  rewrite <- (find_video_file_state folder files s) at 3.
  apply surjective_pairing.
Qed.

(** A handler that returns makes the whole [try] return. *)
Lemma try_except_returns {A} (m : M A) (h : exn -> M A) (s : St) :
  (forall e s1, exists a, fst (h e s1) = Returns a) ->
  exists a, fst (try_except m h s) = Returns a.
Proof.
  intros Hh. unfold try_except.
  destruct (m s) as [[a|e] s1]; [exists a; reflexivity | apply Hh].
Qed.


(** ** The stages of a job: each is entered at most once *)

Ltac calm_event :=
  first
    [ reflexivity
    | assumption
    | match goal with
      | Hk : forall e, ?kind e = true -> is_stage_entry e = true |- ?kind ?e = false =>
          let K := fresh "K" in
          destruct (kind e) eqn:K; [apply Hk in K; discriminate K | reflexivity]
      end ].

Ltac calm_step :=
  match goal with
  | |- emits _ _ (ret _) => apply emits_ret
  | |- emits _ _ (raise _) => apply emits_raise
  | |- emits _ _ (observe _) => apply emits_observe
  | |- emits _ _ (emit _) => apply emits_emit_quiet; calm_event
  | |- emits _ _ (commit_update _) => apply emits_commit_update; calm_event
  | |- emits ?k 0 (bind _ _) => apply (emits_bind k 0 0); [|intro]
  | |- emits ?k 0 (try_except _ _) => apply (emits_try_except k 0 0); [|intro]
  | |- emits ?k 0 (try_except_on _ _ _) => apply (emits_try_except_on k 0 0); [|intro]
  | |- emits ?k 0 (try_finally _ _) => apply (emits_try_finally k 0 0)
  | |- emits _ _ (if ?c then _ else _) => destruct c
  | |- emits _ _ (match ?x with _ => _ end) => destruct x
  | |- emits _ _ (let (_, _) := ?x in _) => destruct x
  end.

Create HintDb calm.

Ltac calm := repeat first [ solve [eauto 4 with calm] | calm_step ].

(** What lies inside the stages enters no stage. *)
Section Stages.

Variable kind : event -> bool.
Hypothesis kind_stage : forall e, kind e = true -> is_stage_entry e = true.

Lemma update_video_download_status_calm o status v a t :
  emits kind 0 (update_video_download_status o status v a t).
Proof.
  unfold update_video_download_status, connection_cursor, cursor_execute,
    connection_commit, cursor_close.
  calm.
Qed.

Lemma update_video_title_calm o t : emits kind 0 (update_video_title o t).
Proof.
  unfold update_video_title, connection_cursor, cursor_execute,
    connection_commit, cursor_close.
  calm.
Qed.

Lemma update_video_description_calm o d : emits kind 0 (update_video_description o d).
Proof.
  unfold update_video_description, connection_cursor, cursor_execute,
    connection_commit, cursor_close.
  calm.
Qed.

Lemma validate_video_file_calm p o : emits kind 0 (validate_video_file p o).
Proof. unfold validate_video_file, file_type_check. calm. Qed.

Lemma remove_if_exists_calm p o : emits kind 0 (remove_if_exists p o).
Proof. unfold remove_if_exists. calm. Qed.

Hint Resolve update_video_download_status_calm update_video_title_calm
  update_video_description_calm validate_video_file_calm remove_if_exists_calm : calm.

Lemma repair_video_file_calm p f o : emits kind 0 (repair_video_file p f o).
Proof. unfold repair_video_file. calm. Qed.

Lemma find_video_file_calm folder files : emits kind 0 (find_video_file folder files).
Proof. induction files as [|file rest IH]; cbn [find_video_file]; calm. Qed.

Lemma extract_audio_with_ffmpeg_calm p f o : emits kind 0 (extract_audio_with_ffmpeg p f o).
Proof. unfold extract_audio_with_ffmpeg. calm. Qed.

Lemma extract_audio_with_pydub_calm p f o : emits kind 0 (extract_audio_with_pydub p f o).
Proof. unfold extract_audio_with_pydub. calm. Qed.

Hint Resolve repair_video_file_calm find_video_file_calm extract_audio_with_ffmpeg_calm
  extract_audio_with_pydub_calm : calm.

Lemma extract_audio_attempt_calm p f i o : emits kind 0 (extract_audio_attempt p f i o).
Proof. unfold extract_audio_attempt. calm. Qed.

Hint Resolve extract_audio_attempt_calm : calm.

Lemma extract_audio_loop_calm p f obs i n : emits kind 0 (extract_audio_loop p f obs i n).
Proof. revert i. induction n as [|n IH]; intros i; cbn [extract_audio_loop]; calm. Qed.

Lemma write_file_calm p c w : emits kind 0 (write_file p c w).
Proof. unfold write_file. calm. Qed.

Hint Resolve extract_audio_loop_calm write_file_calm : calm.

Lemma create_empty_transcript_calm a f msg w : emits kind 0 (create_empty_transcript a f msg w).
Proof. unfold create_empty_transcript. calm. Qed.

Lemma format_transcript_calm text method : emits kind 0 (format_transcript text method).
Proof. unfold format_transcript. calm. Qed.

Hint Resolve create_empty_transcript_calm format_transcript_calm : calm.

Lemma save_transcript_calm a f text method o : emits kind 0 (save_transcript a f text method o).
Proof. unfold save_transcript. calm. Qed.

Lemma transcribe_with_whisper_calm a f o : emits kind 0 (transcribe_with_whisper a f o).
Proof. unfold transcribe_with_whisper. calm. Qed.

Hint Resolve save_transcript_calm transcribe_with_whisper_calm : calm.

Lemma transcribe_short_audio_calm a f o : emits kind 0 (transcribe_short_audio a f o).
Proof. unfold transcribe_short_audio. calm. Qed.

Lemma transcribe_chunks_calm a f obs i chunks texts :
  emits kind 0 (transcribe_chunks a f obs i chunks texts).
Proof.
  revert i texts. induction chunks as [|c rest IH]; intros i texts;
    cbn [transcribe_chunks]; calm.
Qed.

Hint Resolve transcribe_short_audio_calm transcribe_chunks_calm : calm.

Lemma transcribe_long_audio_calm a f o : emits kind 0 (transcribe_long_audio a f o).
Proof. unfold transcribe_long_audio. calm. Qed.

Lemma get_video_folder_calm id mk : emits kind 0 (get_video_folder id mk).
Proof. unfold get_video_folder. calm. Qed.

Hint Resolve transcribe_long_audio_calm get_video_folder_calm : calm.

Lemma remove_partial_files_calm folder files : emits kind 0 (remove_partial_files folder files).
Proof. induction files as [|file rest IH]; cbn [remove_partial_files]; calm. Qed.

Hint Resolve remove_partial_files_calm : calm.

Lemma cleanup_partial_files_calm id o : emits kind 0 (cleanup_partial_files id o).
Proof. unfold cleanup_partial_files. calm. Qed.

End Stages.

Lemma metadata_call_stage (e : event) : is_metadata_call e = true -> is_stage_entry e = true.
Proof. destruct e; cbn; intros H; (reflexivity || discriminate H). Qed.

Lemma download_call_stage (e : event) : is_download_call e = true -> is_stage_entry e = true.
Proof. destruct e; cbn; intros H; (reflexivity || discriminate H). Qed.

Lemma extraction_call_stage (e : event) :
  is_extraction_call e = true -> is_stage_entry e = true.
Proof. destruct e; cbn; intros H; (reflexivity || discriminate H). Qed.

Lemma transcription_call_stage (e : event) :
  is_transcription_call e = true -> is_stage_entry e = true.
Proof. destruct e; cbn; intros H; (reflexivity || discriminate H). Qed.

#[export] Hint Resolve metadata_call_stage download_call_stage extraction_call_stage
  transcription_call_stage : calm.
#[export] Hint Resolve update_video_download_status_calm update_video_title_calm
  update_video_description_calm validate_video_file_calm remove_if_exists_calm
  repair_video_file_calm find_video_file_calm extract_audio_loop_calm
  write_file_calm create_empty_transcript_calm format_transcript_calm
  save_transcript_calm transcribe_with_whisper_calm transcribe_short_audio_calm
  transcribe_chunks_calm transcribe_long_audio_calm get_video_folder_calm
  cleanup_partial_files_calm : calm.

(** One step of a proof that a computation enters a stage at most [N]
    times: the part that enters it is found by trying. *)
Ltac tally N :=
  match goal with
  | |- emits ?k N _ => apply (emits_weaken k 0 N); [solve [calm] | lia]
  | |- emits ?k N _ => solve [eauto 4 with calm]
  | |- emits ?k 1 (emit ?e) =>
      apply (emits_weaken k (if k e then 1 else 0) 1);
        [exact (emits_emit k e) | destruct (k e); lia]
  | |- emits ?k N (bind _ _) =>
      first [ apply (emits_bind k 0 N); [solve [calm] | intro]
            | apply (emits_bind k N 0); [ | intro; solve [calm]] ]
  | |- emits ?k N (try_except _ _) =>
      first [ apply (emits_try_except k N 0); [ | intro; solve [calm]]
            | apply (emits_try_except k 0 N); [solve [calm] | intro] ]
  | |- emits _ _ (if ?c then _ else _) => destruct c
  | |- emits _ _ (match ?x with _ => _ end) => destruct x
  | |- emits _ _ (let (_, _) := ?x in _) => destruct x
  end.

(** The functions that enter a stage: once for a kind that counts their
    entry, not at all for a kind that does not. *)
Section StageEntries.

Variable kind : event -> bool.
Hypothesis kind_stage : forall e, kind e = true -> is_stage_entry e = true.

Lemma get_video_title_from_youtube_once link run :
  emits kind 1 (get_video_title_from_youtube link run).
Proof. unfold get_video_title_from_youtube. repeat tally 1%nat. Qed.

Lemma get_video_description_from_youtube_once link run :
  emits kind 1 (get_video_description_from_youtube link run).
Proof. unfold get_video_description_from_youtube. repeat tally 1%nat. Qed.

Lemma download_youtube_video_once link f o :
  emits kind 1 (download_youtube_video link f o).
Proof. unfold download_youtube_video. repeat tally 1%nat. Qed.

Lemma extract_audio_from_video_once p f obs :
  emits kind 1 (extract_audio_from_video p f obs).
Proof. unfold extract_audio_from_video. repeat tally 1%nat. Qed.

Lemma transcribe_audio_once a f o : emits kind 1 (transcribe_audio a f o).
Proof. unfold transcribe_audio. repeat tally 1%nat. Qed.

Lemma get_video_title_from_youtube_calm link run :
  kind (EvMetadata link) = false -> emits kind 0 (get_video_title_from_youtube link run).
Proof. intros H. unfold get_video_title_from_youtube. calm. Qed.

Lemma get_video_description_from_youtube_calm link run :
  kind (EvMetadata link) = false ->
  emits kind 0 (get_video_description_from_youtube link run).
Proof. intros H. unfold get_video_description_from_youtube. calm. Qed.

Lemma download_youtube_video_calm link f o :
  kind (EvYtDlp link f) = false -> emits kind 0 (download_youtube_video link f o).
Proof. intros H. unfold download_youtube_video. calm. Qed.

Lemma extract_audio_from_video_calm p f obs :
  kind (EvExtractAudio p f) = false -> emits kind 0 (extract_audio_from_video p f obs).
Proof. intros H. unfold extract_audio_from_video. calm. Qed.

Lemma transcribe_audio_calm a f o :
  kind (EvTranscribe a f) = false -> emits kind 0 (transcribe_audio a f o).
Proof. intros H. unfold transcribe_audio. calm. Qed.

End StageEntries.

#[export] Hint Resolve get_video_title_from_youtube_once
  get_video_description_from_youtube_once download_youtube_video_once
  extract_audio_from_video_once transcribe_audio_once
  get_video_title_from_youtube_calm get_video_description_from_youtube_calm
  download_youtube_video_calm extract_audio_from_video_calm transcribe_audio_calm : calm.
#[export] Hint Extern 1 (_ = false) => reflexivity : calm.

Section JobStages.

Variable kind : event -> bool.
Hypothesis kind_stage : forall e, kind e = true -> is_stage_entry e = true.

Lemma emits_then_calm {A B} (n : nat) (m : M A) (k : A -> M B) :
  emits kind n m -> (forall a, emits kind 0 (k a)) -> emits kind n (bind m k).
Proof.
  intros Hm Hk. apply (emits_weaken kind (n + 0)); [|lia].
  apply emits_bind; assumption.
Qed.

Lemma emits_guarded {A} (n : nat) (m : M A) (h : exn -> M A) :
  emits kind n m -> (forall e, emits kind 0 (h e)) -> emits kind n (try_except m h).
Proof.
  intros Hm Hh. apply (emits_weaken kind (n + 0)); [|lia].
  apply emits_try_except; assumption.
Qed.

Lemma emits_finally_calm {A} (n : nat) (m : M A) (f : M unit) :
  emits kind n m -> emits kind 0 f -> emits kind n (try_finally m f).
Proof.
  intros Hm Hf. apply (emits_weaken kind (n + 0)); [|lia].
  apply emits_try_finally; assumption.
Qed.

(** The number of times a run of the orchestrator enters the stage that
    [kind] counts, from the number of times each stage function does. *)
Lemma download_video_background_stages (id : Z) (link : string) (w : World)
    (n_metadata n_download n_extraction n_transcription : nat) :
  (forall l run, emits kind n_metadata (get_video_title_from_youtube l run)) ->
  (forall l run, emits kind n_metadata (get_video_description_from_youtube l run)) ->
  (forall l f o, emits kind n_download (download_youtube_video l f o)) ->
  (forall p f obs, emits kind n_extraction (extract_audio_from_video p f obs)) ->
  (forall a f o, emits kind n_transcription (transcribe_audio a f o)) ->
  emits kind (n_metadata + n_metadata + n_download + (n_extraction + n_transcription))
        (download_video_background id link w).
Proof.
  intros Ht Hd Hdl Hx Htr.
  assert (Hprocess : forall result folder,
            emits kind (n_extraction + n_transcription) (process_downloaded result folder w)).
  { intros result folder. unfold process_downloaded.
    apply (emits_bind kind 0 (n_extraction + n_transcription)); [calm | intros [ok msg]].
    apply (emits_bind kind 0 (n_extraction + n_transcription)).
    { destruct (negb ok); [unfold check_and_repair|]; calm. }
    intros [result'|]; [|apply (emits_weaken kind 0); [calm | lia]].
    apply (emits_bind kind n_extraction n_transcription); [apply Hx | intro audio].
    apply emits_then_calm; [|intro; calm].
    destruct (Py.truthy audio); [|apply (emits_weaken kind 0); [calm | lia]].
    apply emits_then_calm; [apply Htr | intro; calm]. }
  assert (Hfetch : emits kind (n_metadata + n_metadata + n_download)
                     (fetch_stage id link w)).
  { unfold fetch_stage.
    apply (emits_bind kind 0 (n_metadata + n_metadata + n_download)); [calm | intro].
    apply (emits_bind kind 0 (n_metadata + n_metadata + n_download)); [calm | intro].
    rewrite <- Nat.add_assoc.
    apply (emits_bind kind n_metadata (n_metadata + n_download)); [apply Ht | intro].
    apply (emits_bind kind n_metadata n_download); [apply Hd | intro].
    apply (emits_bind kind 0 n_download); [calm | intro].
    apply (emits_bind kind 0 n_download); [calm | intro].
    apply emits_then_calm; [apply Hdl | intro; calm]. }
  unfold download_video_background, with_semaphore.
  apply (emits_bind kind 0 _); [calm | intro].
  apply emits_finally_calm; [|calm].
  apply emits_guarded; [|intro; calm].
  unfold download_video_body.
  apply (emits_bind kind _ _ _ _ Hfetch). intros [folder [success result]].
  destruct success; [apply Hprocess|].
  apply (emits_weaken kind 0); [calm | lia].
Qed.

End JobStages.

(** NO RETRY: in a run of [download_video_background] the download tool
    is started at most once, the audio extraction and the transcription
    are entered at most once each, and the metadata is queried at most
    twice (title and description). *)
Theorem each_stage_runs_at_most_once (id : Z) (link : string) (w : World) (s : St) :
  let run := download_video_background id link w s in
  (count_events is_download_call (events_of run)
   <= count_events is_download_call (trace s) + 1)%nat /\
  (count_events is_metadata_call (events_of run)
   <= count_events is_metadata_call (trace s) + 2)%nat /\
  (count_events is_extraction_call (events_of run)
   <= count_events is_extraction_call (trace s) + 1)%nat /\
  (count_events is_transcription_call (events_of run)
   <= count_events is_transcription_call (trace s) + 1)%nat.
Proof.
  cbv zeta. repeat split.
  - apply (emits_bound is_download_call 1 (download_video_background id link w) s).
    apply (download_video_background_stages is_download_call download_call_stage
             id link w 0 1 0 0); intros; eauto 4 with calm.
  - apply (emits_bound is_metadata_call 2 (download_video_background id link w) s).
    apply (download_video_background_stages is_metadata_call metadata_call_stage
             id link w 1 0 0 0); intros; eauto 4 with calm.
  - apply (emits_bound is_extraction_call 1 (download_video_background id link w) s).
    apply (download_video_background_stages is_extraction_call extraction_call_stage
             id link w 0 0 1 0); intros; eauto 4 with calm.
  - apply (emits_bound is_transcription_call 1 (download_video_background id link w) s).
    apply (download_video_background_stages is_transcription_call transcription_call_stage
             id link w 0 0 0 1); intros; eauto 4 with calm.
Qed.

(** ** The fetcher, as its caller sees it *)

(** Once the folder exists, [download_youtube_video] never raises: a
    time-out and every other exception of [yt-dlp], of the listing, of
    the size check, of the validator and of the repairer become the
    answer [(False, text)]. *)
Theorem download_youtube_video_never_raises (link folder : string) (o : DownloadObs)
    (s : St) :
  d_makedirs o = Returns tt ->
  exists ok text, fst (download_youtube_video link folder o s) = Returns (ok, text).
Proof.
  intros Hmk.
  unfold download_youtube_video. unfold bind at 1. unfold observe at 1. rewrite Hmk.
  match goal with
  | |- context [try_except ?m ?h ?s1] =>
      destruct (try_except_returns m h s1) as ([ok text] & H)
  end.
  - intros e s1. destruct (is_timeout (exn_cls e)); eexists; reflexivity.
  - exists ok, text. exact H.
Qed.

Lemma download_youtube_video_never_raises_witness :
  exists ok text,
    fst (download_youtube_video sample_link "static/downloads/video_7"
           (download_of slow_probe locked_original) (state_of sample_row))
    = Returns (ok, text).
Proof.
  apply (download_youtube_video_never_raises sample_link "static/downloads/video_7"
           (download_of slow_probe locked_original) (state_of sample_row)).
  reflexivity.
Defined.

(** One step through a run of the fetcher or of the orchestrator: the
    scan, the validator and the repairer are replaced by what they
    return. *)
Ltac call_step :=
  match goal with
  | |- context [find_video_file ?folder ?files ?s] =>
      rewrite (find_video_file_run folder files s);
      let found := fresh "found" in let Hfound := fresh "Hfound" in
      destruct (fst (find_video_file folder files s)) as [found|?] eqn:Hfound
  | |- context [repair_video_file ?p ?f ?o ?s] =>
      let repaired := fresh "repaired" in let repaired_path := fresh "repaired_path" in
      let Hrepair := fresh "Hrepair" in
      destruct (repair_video_file p f o s) as [[[repaired repaired_path]|?] ?] eqn:Hrepair
  end.

Ltac run_calls :=
  repeat (first [call_step | run_step]; cbn [negb andb fst snd row trace] in * ).

(** When [download_youtube_video] reports success, [yt-dlp] exited with
    0, the folder held a video file above the minimum size, and the path
    returned is either that file, which [validate_video_file] called
    valid, or what [repair_video_file] returned with success for it after
    a failing verdict that did not mention "No video streams". *)
Theorem download_youtube_video_success (link folder : string) (o : DownloadObs) (s : St)
    (path : string) :
  fst (download_youtube_video link folder o s) = Returns (true, path) ->
  exists proc files video_file,
    d_ytdlp o = Returns proc /\ returncode proc = 0%Z /\
    d_listdir o = Returns files /\
    (exists s1, fst (find_video_file folder files s1) = Returns (Some video_file)) /\
    ((path = video_file /\
      exists message s1,
        fst (validate_video_file video_file (d_validate o) s1) = Returns (true, message))
     \/
     (exists message s1 s2,
        fst (validate_video_file video_file (d_validate o) s1) = Returns (false, message) /\
        Py.contains "No video streams" message = false /\
        fst (repair_video_file video_file folder (d_repair o) s2) = Returns (true, path))).
Proof.
  unfold download_youtube_video, bind, emit, try_except, observe, ret.
  cbn [fst snd row trace].
  run_calls.
  all: intros H; inversion H; subst; clear H.
  all: use_cases; read_tests; subst.
  all: do 3 eexists; split; [reflexivity|]; split; [eassumption|]; split; [reflexivity|].
  all: split; [eexists; eassumption|].
  - right. do 3 eexists.
    split; [match goal with H : validate_video_file _ _ _ = _ |- _ => rewrite H end;
            reflexivity|].
    split; [assumption|].
    match goal with H : repair_video_file _ _ _ _ = _ |- _ => rewrite H end. reflexivity.
  - left. split; [reflexivity|]. do 2 eexists.
    match goal with H : validate_video_file _ _ _ = _ |- _ => rewrite H end. reflexivity.
Qed.

Lemma download_youtube_video_success_witness :
  exists proc,
    d_ytdlp (download_of h264_file repair_fails) = Returns proc /\ returncode proc = 0%Z.
Proof.
  destruct (download_youtube_video_success sample_link "static/downloads/video_7"
              (download_of h264_file repair_fails) (state_of sample_row)
              "static/downloads/video_7/video_1700000000.mp4" eq_refl)
    as (proc & files & video_file & Hrun & Hcode & _).
  exists proc. split; assumption.
Defined.

(** ** Files without a video stream *)

Lemma streams_eqb_nil (listed : list Stream) :
  streams_eqb listed [] = true -> listed = [].
Proof. destruct listed; [reflexivity | discriminate]. Qed.

Lemma no_video_stream_selects_nothing (file_streams : list Stream) :
  no_video_stream file_streams = true ->
  select_streams_v0 file_streams = [] /\ existsb is_video_stream file_streams = false.
Proof.
  unfold no_video_stream, select_streams_v0. intros H.
  assert (Hall : forallb (fun s => negb (is_video_stream s)) file_streams = true)
    by (destruct file_streams; [discriminate | exact H]).
  clear H. induction file_streams as [|st rest IH]; [auto|].
  cbn [forallb filter existsb] in *. apply andb_prop in Hall. destruct Hall as [Hst Hrest].
  apply negb_true_iff in Hst. rewrite Hst. cbn [orb]. apply IH, Hrest.
Qed.

(** What the validator does with the file when the detailed probe exits
    with 0: the probe lists no stream, and the verdict is "No streams
    found". *)
Lemma validate_unselected (file_streams : list Stream) (o : ValidateObs) (p : string) (s : St) :
  no_video_stream file_streams = true ->
  large_enough o = true -> type_check_passes o = true ->
  probes_file file_streams o = true ->
  detailed_probe_succeeds o = true ->
  validate_video_file p o s
  = (Returns (false, "No streams found"),
     {| row := row s;
        trace := (trace s ++ [EvValidate p; EvMagic p; EvFfprobe p])%list |}).
Proof.
  intros Hfile Hsize Hmagic Hprobe Hexit.
  destruct (no_video_stream_selects_nothing file_streams Hfile) as [Hselect _].
  unfold large_enough, type_check_passes, probes_file, detailed_probe_succeeds in *.
  rewrite Hselect in Hprobe.
  destruct o as [ex sz mg fp js fs].
  cbn [v_exists v_getsize v_magic v_ffprobe v_json v_ffprobe_streams] in *.
  apply andb_prop in Hsize. destruct Hsize as [-> Hsize].
  destruct sz as [n|]; [|discriminate].
  destruct fp as [proc|]; [|discriminate].
  rewrite Hexit in Hprobe.
  destruct js as [[listed]|]; [|discriminate]. cbn [streams] in Hprobe.
  destruct listed as [listed|]; [|discriminate].
  apply streams_eqb_nil in Hprobe. subst listed.
  assert (Hlt : (n <? MIN_VIDEO_SIZE)%Z = false) by (apply Z.ltb_ge, Z.leb_le, Hsize).
  unfold validate_video_file, file_type_check, bind, emit, try_except, observe, ret.
  cbn [v_exists v_getsize v_magic v_ffprobe v_json negb fst snd streams row trace].
  rewrite Hlt, Hexit.
  destruct mg as [file_type|e]; cbn [negb fst snd row trace].
  - apply orb_true_iff in Hmagic.
    assert (Hpass : negb (Py.startswith "video/" file_type)
                    && negb (Py.startswith "application/octet-stream" file_type) = false).
    { destruct Hmagic as [-> | ->]; [reflexivity | apply andb_false_r]. }
    rewrite Hpass. cbn [negb fst snd row trace streams].
    rewrite <- !app_assoc. reflexivity.
  - rewrite <- !app_assoc. reflexivity.
Qed.

(** What it does when the detailed probe exits with an error and the
    simple probe exits with 0: the verdict carries the marker. *)
Lemma validate_fallback_marker (file_streams : list Stream) (o : ValidateObs) :
  no_video_stream file_streams = true ->
  large_enough o = true -> type_check_passes o = true ->
  probes_file file_streams o = true ->
  simple_probe_answers o = true ->
  forall p s,
    fst (validate_video_file p o s)
    = Returns (false, "No video streams detected - file may be corrupted or contain only audio").
Proof.
  intros Hfile Hsize Hmagic Hprobe Hexit p s.
  destruct (no_video_stream_selects_nothing file_streams Hfile) as [_ Hnone].
  unfold large_enough, type_check_passes, probes_file, simple_probe_answers in *.
  rewrite Hnone in Hprobe.
  destruct o as [ex sz mg fp js fs].
  cbn [v_exists v_getsize v_magic v_ffprobe v_json v_ffprobe_streams] in *.
  apply andb_prop in Hsize. destruct Hsize as [-> Hsize].
  destruct sz as [n|]; [|discriminate].
  destruct fp as [proc|]; [|discriminate].
  destruct fs as [simple|]; [|discriminate].
  apply andb_prop in Hexit. destruct Hexit as [Hbad Hgood].
  apply negb_true_iff in Hbad. rewrite Hbad, Hgood in Hprobe.
  apply Bool.eqb_prop in Hprobe.
  assert (Hlt : (n <? MIN_VIDEO_SIZE)%Z = false) by (apply Z.ltb_ge, Z.leb_le, Hsize).
  unfold validate_video_file, file_type_check, bind, emit, try_except, observe, ret.
  cbn [v_exists v_getsize v_magic v_ffprobe v_json v_ffprobe_streams negb fst snd row trace].
  rewrite Hlt, Hbad.
  destruct mg as [file_type|e]; cbn [negb fst snd row trace].
  - apply orb_true_iff in Hmagic.
    assert (Hpass : negb (Py.startswith "video/" file_type)
                    && negb (Py.startswith "application/octet-stream" file_type) = false).
    { destruct Hmagic as [-> | ->]; [reflexivity | apply andb_false_r]. }
    rewrite Hpass. cbn [negb fst snd row trace]. rewrite Hgood, Hprobe. reflexivity.
  - rewrite Hgood, Hprobe. reflexivity.
Qed.

(** Whatever the probes do, the file is never called valid. *)
Lemma validate_rejects_file (file_streams : list Stream) (o : ValidateObs) (p : string) (s : St) :
  no_video_stream file_streams = true ->
  probes_file file_streams o = true ->
  exists message, fst (validate_video_file p o s) = Returns (false, message).
Proof.
  intros Hfile Hprobe.
  destruct (no_video_stream_selects_nothing file_streams Hfile) as [Hselect Hnone].
  unfold probes_file in Hprobe. rewrite Hselect, Hnone in Hprobe.
  unfold validate_video_file, file_type_check, bind, emit, try_except, observe, ret.
  cbn [fst snd row trace].
  destruct (v_exists o); cbn [negb fst snd]; [|eexists; reflexivity].
  destruct (v_getsize o) as [n|e]; cbn [fst snd]; [|eexists; reflexivity].
  destruct (n <? MIN_VIDEO_SIZE)%Z; cbn [fst snd]; [eexists; reflexivity|].
  destruct (v_magic o) as [file_type|e]; cbn [fst snd].
  1: destruct (negb (Py.startswith "video/" file_type)
               && negb (Py.startswith "application/octet-stream" file_type));
     cbn [fst snd]; [eexists; reflexivity|].
  all: destruct (v_ffprobe o) as [proc|e1]; cbn [fst snd]; [|eexists; reflexivity].
  all: destruct (returncode proc =? 0)%Z; cbn [negb fst snd].
  all: try (destruct (v_json o) as [[listed]|e2]; [|discriminate Hprobe];
            cbn [streams] in *; destruct listed as [listed|]; [|discriminate Hprobe];
            apply streams_eqb_nil in Hprobe; subst listed; cbn [fst snd streams];
            eexists; reflexivity).
  all: destruct (v_ffprobe_streams o) as [simple|e2]; cbn [fst snd]; [|eexists; reflexivity].
  all: destruct (returncode simple =? 0)%Z; cbn [fst snd]; [|eexists; reflexivity].
  all: apply Bool.eqb_prop in Hprobe; rewrite Hprobe; cbn [negb fst snd];
    eexists; reflexivity.
Qed.

Lemma fallback_gives_marker (file_streams : list Stream) (o : ValidateObs) :
  no_video_stream file_streams = true ->
  large_enough o = true -> type_check_passes o = true ->
  probes_file file_streams o = true ->
  simple_probe_answers o = true ->
  gives_marker o.
Proof.
  intros H1 H2 H3 H4 H5 p s verdict s' _ E.
  pose proof (validate_fallback_marker file_streams o H1 H2 H3 H4 H5 p s) as Hv.
  rewrite E in Hv. cbn [fst] in Hv. injection Hv as ->. split; reflexivity.
Qed.

(** The repairer records its call, once. *)
Lemma repair_video_file_enters (p f : string) (o : RepairObs) (s : St) :
  count_events is_repair_call (events_of (repair_video_file p f o s))
  = (count_events is_repair_call (trace s) + 1)%nat.
Proof.
  assert (Hupper := emits_bound is_repair_call 1 _ s (repair_video_file_repairs_once p f o)).
  assert (Hlower : (count_events is_repair_call (trace s) + 1
                    <= count_events is_repair_call (events_of (repair_video_file p f o s)))%nat).
  { unfold repair_video_file.
    match goal with |- context [bind (emit ?e) ?k] => set (rest := k) end.
    assert (Hg : grows (rest tt))
      by (subst rest; cbv beta; apply (emits_grows is_semaphore_event 0); quiet).
    unfold events_of, bind, emit. cbn [fst snd].
    match goal with |- context [rest tt ?s1] => destruct (Hg s1) as [t Ht]; rewrite Ht end.
    cbn [trace]. rewrite !count_events_app. cbn. lia. }
  lia.
Qed.

(** In the fetcher, a verdict "No streams found" leads to a repair. *)
Lemma download_repairs_unselected link folder d s :
  (forall p s1, validate_video_file p (d_validate d) s1
     = (Returns (false, "No streams found"),
        {| row := row s1;
           trace := (trace s1 ++ [EvValidate p; EvMagic p; EvFfprobe p])%list |})) ->
  let run := download_youtube_video link folder d s in
  (count_events is_validate_call (trace s) < count_events is_validate_call (events_of run))%nat ->
  count_events is_repair_call (events_of run)
  = (count_events is_repair_call (trace s) + 1)%nat.
Proof.
  intros Hv. cbv zeta.
  unfold download_youtube_video, events_of, bind, emit, try_except, observe, ret.
  cbn [fst snd row trace].
  destruct (d_makedirs d) as [[]|e]; cbn [fst snd row trace]; [|lia].
  destruct (d_ytdlp d) as [proc|e]; cbn [fst snd row trace].
  2: { destruct (is_timeout (exn_cls e)); cbn [fst snd trace];
       rewrite count_events_app; cbn; lia. }
  destruct (negb (returncode proc =? 0)%Z); cbn [fst snd row trace];
    [rewrite count_events_app; cbn; lia|].
  destruct (d_listdir d) as [files|e]; cbn [fst snd row trace].
  2: { destruct (is_timeout (exn_cls e)); cbn [fst snd trace];
       rewrite count_events_app; cbn; lia. }
  rewrite find_video_file_run.
  destruct (fst (find_video_file folder files _)) as [[video_file|]|e];
    cbn [fst snd row trace].
  - rewrite Hv. cbn [fst snd row trace negb].
    change (Py.contains "No video streams" "No streams found") with false.
    cbn [fst snd row trace].
    intros _.
    match goal with |- context [repair_video_file ?p ?f ?o ?s0] =>
      pose proof (repair_video_file_enters p f o s0) as Hr;
      destruct (repair_video_file p f o s0) as [[[repaired repaired_path]|e] s2]
    end; unfold events_of in Hr; cbn [fst snd row trace] in Hr.
    + destruct repaired; cbn [fst snd trace]; rewrite Hr, !count_events_app; cbn; lia.
    + destruct (is_timeout (exn_cls e)); cbn [fst snd trace];
        rewrite Hr, !count_events_app; cbn; lia.
  - rewrite count_events_app; cbn; lia.
  - destruct (is_timeout (exn_cls e)); cbn [fst snd trace];
      rewrite count_events_app; cbn; lia.
Qed.

(** A computation that has added [n] events of a kind has still added
    them after a continuation that only adds to the trace. *)
Lemma adds_bind {A B} (kind : event -> bool) (n : nat) (m : M A) (k : A -> M B) (s : St) :
  (count_events kind (trace s) + n <= count_events kind (trace (snd (m s))))%nat ->
  (forall a, grows (k a)) ->
  (count_events kind (trace s) + n <= count_events kind (trace (snd (bind m k s))))%nat.
Proof.
  unfold bind. destruct (m s) as [[a|e] s1]; cbn [snd]; intros H Hk; [|exact H].
  destruct (Hk a s1) as [t Ht]. rewrite Ht, count_events_app. lia.
Qed.

(** In the orchestrator too, for a file of the minimum size. *)
Lemma process_downloaded_repairs_unselected result folder w s n :
  (forall p s1, validate_video_file p (w_validate w) s1
     = (Returns (false, "No streams found"),
        {| row := row s1;
           trace := (trace s1 ++ [EvValidate p; EvMagic p; EvFfprobe p])%list |})) ->
  w_getsize w = Returns n -> (MIN_VIDEO_SIZE <= n)%Z ->
  (count_events is_repair_call (trace s) + 1
   <= count_events is_repair_call (events_of (process_downloaded result folder w s)))%nat.
Proof.
  intros Hv Hsize Hn.
  assert (Hlt : (n <? 1024000)%Z = false) by (apply Z.ltb_ge; exact Hn).
  unfold process_downloaded, events_of. unfold bind at 1. rewrite Hv. cbn [negb].
  match goal with |- context [bind ?m ?k ?s1] =>
    assert (Hsame : count_events is_repair_call (trace s1)
                    = count_events is_repair_call (trace s))
      by (cbn [trace]; rewrite count_events_app; cbn; lia);
    assert (Hadds : (count_events is_repair_call (trace s1) + 1
                     <= count_events is_repair_call (trace (snd (bind m k s1))))%nat)
  end.
  { apply adds_bind.
    - unfold check_and_repair. unfold bind at 1. unfold observe at 1.
      rewrite Hsize, Hlt.
      change (Py.contains "No video streams" "No streams found") with false. cbv iota.
      apply adds_bind.
      + match goal with |- context [repair_video_file ?p ?f ?o ?s0] =>
          pose proof (repair_video_file_enters p f o s0) as Hr end.
        unfold events_of in Hr. rewrite Hr. lia.
      + intros [repaired repaired_path]. destruct repaired; grow.
    - intros [checked|]; grow. }
  lia.
Qed.




(** ** The audio extractor *)

Lemma audio_path_shape (video_path output_folder : string) :
  exists dir base,
    audio_path_of video_path output_folder = dir ++ base ++ "_audio.wav" /\
    lacks "/" base = true /\
    (dir = "" \/ exists d, dir = d ++ "/").
Proof.
  unfold audio_path_of.
  destruct (basename_split video_path) as (dir0 & _ & Hb & _).
  destruct (splitext_split _ Hb) as (ext & Hext & Hshape).
  set (base := fst (OsPath.splitext (OsPath.basename video_path))) in *.
  assert (Hbase : lacks "/" base = true).
  { rewrite Hext, lacks_app in Hb. apply andb_true_iff in Hb. tauto. }
  destruct (join_split output_folder (base ++ "_audio.wav")) as (dir & Hj & Hdir).
  { rewrite lacks_app, Hbase. reflexivity. }
  exists dir, base. auto.
Qed.

Lemma audio_path_suffix (video_path output_folder : string) :
  Py.endswith "_audio.wav" (audio_path_of video_path output_folder) = true.
Proof.
  destruct (audio_path_shape video_path output_folder) as (dir & base & Hp & _).
  rewrite Hp, <- append_assoc. apply endswith_app.
Qed.

Lemma audio_path_truthy (video_path output_folder : string) :
  Py.truthy (Some (audio_path_of video_path output_folder)) = true.
Proof.
  pose proof (audio_path_suffix video_path output_folder) as H.
  unfold Py.truthy. destruct (audio_path_of video_path output_folder); [discriminate H|].
  reflexivity.
Qed.

Lemma extract_audio_with_ffmpeg_run (v f : string) (o : FfmpegAudioObs) (s : St) :
  exists answer t,
    extract_audio_with_ffmpeg v f o s
      = (Returns answer,
         {| row := row s; trace := (trace s ++ EvFfmpegAudio v f :: t)%list |}) /\
    (answer = None \/ answer = Some (audio_path_of v f)) /\
    only_removals t.
Proof.
  unfold extract_audio_with_ffmpeg, remove_if_exists, bind, emit, try_except, observe, ret.
  cbn [fst snd row trace].
  run_cases.
  all: rewrite <- ?app_assoc; cbn [app].
  all: eexists; eexists; split; [reflexivity|].
  all: split; [auto|]; repeat split; reflexivity.
Qed.

Lemma extract_audio_with_pydub_run (v f : string) (o : PydubObs) (s : St) :
  exists answer t,
    extract_audio_with_pydub v f o s
      = (Returns answer,
         {| row := row s; trace := (trace s ++ EvPydub v f :: t)%list |}) /\
    (answer = None \/ answer = Some (audio_path_of v f)) /\
    only_removals t.
Proof.
  unfold extract_audio_with_pydub, remove_if_exists, bind, emit, try_except, observe, ret.
  cbn [fst snd row trace].
  run_cases.
  all: rewrite <- ?app_assoc; cbn [app].
  all: eexists; eexists; split; [reflexivity|].
  all: split; [auto|]; repeat split; reflexivity.
Qed.

Ltac extraction_step :=
  match goal with
  | |- context [extract_audio_with_ffmpeg ?v ?f ?o ?s] =>
      let t := fresh "t" in let Hrun := fresh "Hrun" in let Hrem := fresh "Hrem" in
      destruct (extract_audio_with_ffmpeg_run v f o s) as (? & t & Hrun & [-> | ->] & Hrem);
      rewrite Hrun; rewrite ?audio_path_truthy; cbn [Py.truthy]
  | |- context [extract_audio_with_pydub ?v ?f ?o ?s] =>
      let t := fresh "t" in let Hrun := fresh "Hrun" in let Hrem := fresh "Hrem" in
      destruct (extract_audio_with_pydub_run v f o s) as (? & t & Hrun & [-> | ->] & Hrem);
      rewrite Hrun; rewrite ?audio_path_truthy; cbn [Py.truthy]
  end.

Lemma count_events_cons (kind : event -> bool) (e : event) (t : list event) :
  count_events kind (e :: t) = ((if kind e then 1 else 0) + count_events kind t)%nat.
Proof. unfold count_events. simpl. destruct (kind e); reflexivity. Qed.

(** The events of a kind in a trace given by its pieces. *)
Ltac tally_trace :=
  unfold only_removals in *;
  repeat match goal with H : _ /\ _ |- _ => destruct H end;
  repeat (rewrite ?count_events_app, ?count_events_cons);
  cbn [is_ffmpeg_audio_run is_pydub_run is_pause count_events filter length];
  try lia.

(** One round of the retry loop: it never raises; it ends the loop with
    [None] or with the audio path, or lets the loop go on after a pause,
    which it only does before the last round. *)
Lemma extract_audio_attempt_run (v f : string) (i : nat) (o : AttemptObs) (s : St) :
  exists answer t,
    extract_audio_attempt v f i o s
      = (Returns answer, {| row := row s; trace := (trace s ++ t)%list |}) /\
    (answer = None \/ answer = Some None \/ answer = Some (Some (audio_path_of v f))) /\
    (answer = None -> (i < max_retries)%nat) /\
    (count_events is_ffmpeg_audio_run t <= 1)%nat /\
    (count_events is_pydub_run t <= 1)%nat /\
    (count_events is_pause t <= match answer with None => 1 | Some _ => 0 end)%nat.
Proof.
  destruct s as [r tr].
  unfold extract_audio_attempt, bind, emit, try_except, observe, ret.
  cbn [fst snd row trace].
  repeat (first [extraction_step | run_step]; cbn [negb andb fst snd row trace] in * ).
  all: rewrite <- ?app_assoc; cbn [app].
  all: first [ eexists; eexists; split; [reflexivity|]
             | eexists; exists []; split; [rewrite app_nil_r; reflexivity|] ].
  all: split; [auto|].
  all: split; [first [discriminate | intros _; apply Nat.ltb_lt; assumption]|].
  all: repeat split; tally_trace.
Qed.

(** The retry loop from round [i] on, with [n] rounds left. *)
Lemma extract_audio_loop_run (v f : string) (obs : nat -> AttemptObs) (n i : nat) (s : St) :
  (i + n = max_retries + 1)%nat ->
  exists answer t,
    extract_audio_loop v f obs i n s
      = (Returns answer, {| row := row s; trace := (trace s ++ t)%list |}) /\
    (answer = None \/ answer = Some (audio_path_of v f)) /\
    (count_events is_ffmpeg_audio_run t <= n)%nat /\
    (count_events is_pydub_run t <= n)%nat /\
    (count_events is_pause t <= n - 1)%nat.
Proof.
  revert i s. induction n as [|n IH]; intros i s Hi; cbn [extract_audio_loop].
  - exists None, []. rewrite app_nil_r. destruct s. cbn. repeat split; auto.
  - unfold bind.
    destruct (extract_audio_attempt_run v f i (obs i) s)
      as (answer & t & Hrun & Hanswer & Hlast & Hff & Hpd & Hsl).
    rewrite Hrun.
    destruct answer as [audio_path|].
    + exists audio_path, t. split; [reflexivity|].
      split; [destruct Hanswer as [H | [H | H]]; inversion H; auto|].
      repeat split; lia.
    + specialize (Hlast eq_refl). unfold max_retries in *.
      destruct (IH (S i) {| row := row s; trace := (trace s ++ t)%list |})
        as (answer & t' & Hrun' & Hanswer' & Hff' & Hpd' & Hsl'); [lia|].
      rewrite Hrun'. cbn [row trace]. rewrite <- app_assoc.
      exists answer, (t ++ t')%list. split; [reflexivity|]. split; [exact Hanswer'|].
      rewrite !count_events_app. repeat split; lia.
Qed.

(** [extract_audio_from_video] never raises and leaves the job row
    alone.  It answers [None] or the path [<folder>/<name>_audio.wav] made
    from the name of the video.  It makes at most three rounds: [ffmpeg]
    is run at most three times, [pydub] at most three times, and it
    pauses at most twice. *)
Theorem extract_audio_from_video_bounded (v f : string) (obs : nat -> AttemptObs) (s : St) :
  let run := extract_audio_from_video v f obs s in
  (fst run = Returns None \/ fst run = Returns (Some (audio_path_of v f))) /\
  Py.endswith "_audio.wav" (audio_path_of v f) = true /\
  final_row run = row s /\
  (count_events is_ffmpeg_audio_run (events_of run)
   <= count_events is_ffmpeg_audio_run (trace s) + 3)%nat /\
  (count_events is_pydub_run (events_of run)
   <= count_events is_pydub_run (trace s) + 3)%nat /\
  (count_events is_pause (events_of run) <= count_events is_pause (trace s) + 2)%nat.
Proof.
  cbv zeta. unfold extract_audio_from_video, bind, emit. cbn [fst snd].
  destruct (extract_audio_loop_run v f obs (max_retries + 1) 0
              {| row := row s; trace := (trace s ++ [EvExtractAudio v f])%list |} eq_refl)
    as (answer & t & Hrun & Hanswer & Hff & Hpd & Hsl).
  rewrite Hrun. unfold final_row, events_of. cbn [fst snd row trace].
  split; [destruct Hanswer as [-> | ->]; auto|].
  split; [apply audio_path_suffix|]. split; [reflexivity|].
  unfold max_retries in *. rewrite !count_events_app. cbn. repeat split; lia.
Qed.

(** ** The chunks of a long audio *)

Lemma split_loop_keeps (audio_len start : Z) (chunks : list (Z * Z)) (c : Z * Z) :
  In c chunks -> In c (split_loop audio_len start chunks).
Proof.
  funelim (split_loop audio_len start chunks); intros Hin.
  - match goal with IH : forall _, In _ _ -> _ |- _ => apply IH end.
    apply in_or_app. left. exact Hin.
  - exact Hin.
Qed.

Lemma split_loop_chunks (audio_len start : Z) (chunks : list (Z * Z)) (c : Z * Z) :
  In c (split_loop audio_len start chunks) ->
  In c chunks \/
  ((start <= fst c < audio_len)%Z /\
   snd c = Z.min audio_len (fst c + chunk_length) /\
   ((fst c - start) mod (chunk_length - overlap) = 0)%Z).
Proof.
  funelim (split_loop audio_len start chunks); intros Hin.
  - match goal with IH : forall _, In _ _ -> _ |- _ => apply IH in Hin end.
    destruct Hin as [Hin | (Hs & He & Hm)].
    + apply in_app_or in Hin. destruct Hin as [Hin | [<- | []]]; [left; exact Hin|].
      right. cbn [fst snd]. split; [lia|]. split.
      * unfold chunk_length. destruct (Z.ltb_spec audio_len (start + 15000)); lia.
      * rewrite Z.sub_diag. reflexivity.
    + right. unfold chunk_length, overlap in *. split; [lia|]. split; [exact He|].
      replace (fst c - start)%Z with ((fst c - (start + (15000 - 1000))) + 1 * (15000 - 1000))%Z
        by lia.
      rewrite Z.mod_add by lia. exact Hm.
  - left. exact Hin.
Qed.

Lemma split_loop_covers (audio_len start : Z) (chunks : list (Z * Z)) (t : Z) :
  (start <= t < audio_len)%Z ->
  exists c, In c (split_loop audio_len start chunks) /\ (fst c <= t < snd c)%Z.
Proof.
  funelim (split_loop audio_len start chunks); intros Ht.
  - unfold chunk_length, overlap in *.
    destruct (Z.lt_ge_cases t (start + 14000)) as [Hnear | Hfar].
    + exists (start, if (audio_len <? start + 15000)%Z then audio_len else (start + 15000)%Z).
      split.
      * apply split_loop_keeps, in_or_app. right. left. reflexivity.
      * cbn [fst snd]. destruct (Z.ltb_spec audio_len (start + 15000)); lia.
    + match goal with IH : forall _, _ -> exists _, _ |- _ => apply IH end. lia.
  - lia.
Qed.

(** The chunks of [transcribe_long_audio] cover the audio: every chunk
    starts at a multiple of 14 seconds inside the audio, is not empty, is
    at most 15 seconds long and ends at its start plus 15 seconds or at
    the end of the audio, whichever comes first; and every millisecond of
    the audio lies in some chunk. *)
Theorem split_chunks_cover (d : Z) :
  (forall c, In c (split_chunks d) ->
     (0 <= fst c < snd c)%Z /\ (snd c <= d)%Z /\
     (snd c - fst c <= chunk_length)%Z /\
     (fst c mod (chunk_length - overlap) = 0)%Z /\
     snd c = Z.min d (fst c + chunk_length)) /\
  (forall t, (0 <= t < d)%Z ->
     exists c, In c (split_chunks d) /\ (fst c <= t < snd c)%Z).
Proof.
  unfold split_chunks. split.
  - intros c Hin. apply split_loop_chunks in Hin.
    destruct Hin as [[] | (Hs & He & Hm)].
    rewrite Z.sub_0_r in Hm. unfold chunk_length in *. repeat split; try lia; assumption.
  - intros t Ht. apply split_loop_covers. exact Ht.
Qed.

Lemma split_chunks_cover_witness :
  exists c, In c (split_chunks 43000) /\ (fst c <= 42500 < snd c)%Z.
Proof.
  apply (proj2 (split_chunks_cover 43000) 42500%Z). lia.
Defined.

(** ** The persistence interface, as its callers see it *)

(** [str.replace] of one character by another, step by step. *)
Lemma replace_char_cons (old new c : ascii) (rest : string) :
  Py.replace_from (String old "") (String new "") 0 (String c rest)
  = String (if Ascii.eqb c old then new else c)
           (Py.replace_from (String old "") (String new "") 0 rest).
Proof.
  cbn [Py.replace_from String.prefix String.length Nat.sub].
  destruct (ascii_dec old c) as [<- | Hne].
  - rewrite Ascii.eqb_refl. destruct rest; reflexivity.
  - destruct (Ascii.eqb_spec c old) as [-> | _]; [congruence | reflexivity].
Qed.

Lemma replace_char_lacks (old new : ascii) (s : string) :
  old <> new -> lacks old (Py.replace (String old "") (String new "") s) = true.
Proof.
  intros Hne. unfold Py.replace, lacks.
  induction s as [|c rest IH]; [reflexivity|].
  rewrite replace_char_cons. cbn [Py.all_chars]. rewrite IH, andb_true_r.
  destruct (Ascii.eqb_spec c old) as [-> | Hc]; apply negb_true_iff, Ascii.eqb_neq; congruence.
Qed.

Lemma replace_char_length (old new : ascii) (s : string) :
  String.length (Py.replace (String old "") (String new "") s) = String.length s.
Proof.
  unfold Py.replace. induction s as [|c rest IH]; [reflexivity|].
  rewrite replace_char_cons. cbn [String.length]. rewrite IH. reflexivity.
Qed.

Lemma replace_char_absent (old new : ascii) (s : string) :
  lacks old s = true -> Py.replace (String old "") (String new "") s = s.
Proof.
  unfold Py.replace, lacks. induction s as [|c rest IH]; [reflexivity|].
  cbn [Py.all_chars]. intros H. apply andb_true_iff in H. destruct H as [Hc Hrest].
  rewrite replace_char_cons, (IH Hrest).
  apply negb_true_iff in Hc. rewrite Hc. reflexivity.
Qed.

(** The path that [update_video_download_status] passes to the database
    for a path it was given: the same length, no backslash left, and the
    path itself when it had none. *)
Theorem fix_separators_normalises (p : string) :
  p <> "" ->
  exists q,
    fix_separators (Some p) = Some q /\
    String.length q = String.length p /\
    lacks "\" q = true /\
    (lacks "\" p = true -> q = p) /\
    fix_separators (Some q) = Some q.
Proof.
  intros Hp.
  assert (Htruthy : forall x, x <> "" -> Py.truthy (Some x) = true).
  { intros x Hx. destruct x; [congruence | reflexivity]. }
  exists (Py.replace "\" "/" p).
  unfold fix_separators. rewrite (Htruthy p Hp). cbn [option_map].
  split; [reflexivity|].
  split; [apply replace_char_length|].
  split; [apply replace_char_lacks; discriminate|].
  split; [apply replace_char_absent|].
  assert (Hq : Py.replace "\" "/" p <> "").
  { intros H. pose proof (replace_char_length "\" "/" p) as Hl. rewrite H in Hl.
    destruct p; [congruence | discriminate Hl]. }
  rewrite (Htruthy _ Hq). cbn [option_map]. f_equal.
  apply replace_char_absent, replace_char_lacks. discriminate.
Qed.

Lemma fix_separators_normalises_witness :
  exists q,
    fix_separators (Some "static\downloads\video_7\video_1.mp4") = Some q /\
    String.length q = 36%nat /\
    lacks "\" q = true.
Proof.
  destruct (fix_separators_normalises "static\downloads\video_7\video_1.mp4")
    as (q & Hq & Hlen & Hlacks & _); [discriminate|].
  exists q. split; [exact Hq|]. split; [exact Hlen | exact Hlacks].
Defined.

(** The three [update_video_*] functions answer [True] exactly when
    their [UPDATE] was committed, and whenever they answer [False] or
    raise, the row is as it was. *)
Theorem updates_answer_true_iff_committed (o : DbObs) (s : St) :
  (forall status v a t,
     let run := update_video_download_status o status v a t s in
     (fst run = Returns true <-> o = Commits) /\
     (fst run <> Returns true -> final_row run = row s)) /\
  (forall title,
     let run := update_video_title o title s in
     (fst run = Returns true <-> o = Commits) /\
     (fst run <> Returns true -> final_row run = row s)) /\
  (forall description,
     let run := update_video_description o description s in
     (fst run = Returns true <-> o = Commits) /\
     (fst run <> Returns true -> final_row run = row s)).
Proof.
  unfold update_video_download_status, update_video_title, update_video_description,
    final_row, try_finally, try_except_on, bind.
  destruct o as [|e|e|e|];
    cbn [get_db_connection connection_cursor cursor_close cursor_execute
         connection_commit raise ret commit_update emit fst snd row].
  all: try destruct (is_mysql_error (exn_cls e)).
  all: repeat split; cbn [fst snd row]; intros; try discriminate; try reflexivity;
       try congruence.
Qed.

(** When [connection.cursor()] raises, whatever it raises, also a
    [mysql.connector.Error] that the [except] clause handles, the caller of
    an [update_video_*] function gets an [UnboundLocalError]: the [finally]
    clause calls [cursor.close()] on a name that was never bound.  Nothing
    is executed and the row is as it was. *)
Theorem updates_raise_when_cursor_fails (e : exn) (s : St) :
  (forall status v a t,
     let run := update_video_download_status (CursorRaises e) status v a t s in
     (exists text, fst run = Raises (Exn UnboundLocalError text)) /\ snd run = s) /\
  (forall title,
     let run := update_video_title (CursorRaises e) title s in
     (exists text, fst run = Raises (Exn UnboundLocalError text)) /\ snd run = s) /\
  (forall description,
     let run := update_video_description (CursorRaises e) description s in
     (exists text, fst run = Raises (Exn UnboundLocalError text)) /\ snd run = s).
Proof.
  unfold update_video_download_status, update_video_title, update_video_description,
    try_finally, try_except_on, bind.
  cbn [get_db_connection connection_cursor cursor_close raise ret fst snd].
  destruct (is_mysql_error (exn_cls e)); cbn [fst snd].
  all: repeat split; intros; try (eexists; reflexivity).
Qed.

(** ** The orchestrator: when the paths are recorded *)

Section Maintains.

Variable Inv : Row -> Prop.

Lemma maintains_keeps_row {A} (m : M A) : keeps_row m -> maintains Inv m.
Proof. intros Hk s H. rewrite Hk. exact H. Qed.

Lemma maintains_bind {A B} (m : M A) (k : A -> M B) :
  maintains Inv m -> (forall a, maintains Inv (k a)) -> maintains Inv (bind m k).
Proof.
  intros Hm Hk s H. unfold bind. specialize (Hm s H).
  destruct (m s) as [[a|e] s1]; cbn [snd] in *; [apply Hk|]; exact Hm.
Qed.

Lemma maintains_try_except {A} (m : M A) (h : exn -> M A) :
  maintains Inv m -> (forall e, maintains Inv (h e)) -> maintains Inv (try_except m h).
Proof.
  intros Hm Hh s H. unfold try_except. specialize (Hm s H).
  destruct (m s) as [[a|e] s1]; cbn [snd] in *; [|apply Hh]; exact Hm.
Qed.

End Maintains.

Ltac maintain_step :=
  match goal with
  | |- maintains _ (bind _ _) => apply maintains_bind; [|intro]
  | |- maintains _ (try_except _ _) => apply maintains_try_except; [|intro]
  | |- maintains _ (if ?c then _ else _) => destruct c
  | |- maintains _ (match ?x with _ => _ end) => destruct x
  | |- maintains _ (let (_, _) := ?x in _) => destruct x
  | |- maintains _ _ => apply maintains_keeps_row; solve [keeps]
  end.

Create HintDb maintain.

Ltac maintain := repeat first [ solve [eauto 2 with maintain] | maintain_step ].

Lemma write_file_keeps_row p c w : keeps_row (write_file p c w).
Proof. unfold write_file. keeps. Qed.

#[export] Hint Resolve write_file_keeps_row : keeps.

Lemma create_empty_transcript_keeps_row a f msg w :
  keeps_row (create_empty_transcript a f msg w).
Proof. unfold create_empty_transcript. keeps. Qed.

Lemma format_transcript_keeps_row text method : keeps_row (format_transcript text method).
Proof. unfold format_transcript. keeps. Qed.

#[export] Hint Resolve create_empty_transcript_keeps_row format_transcript_keeps_row : keeps.

Lemma save_transcript_keeps_row a f text method o :
  keeps_row (save_transcript a f text method o).
Proof. unfold save_transcript. keeps. Qed.

Lemma transcribe_with_whisper_keeps_row a f o : keeps_row (transcribe_with_whisper a f o).
Proof. unfold transcribe_with_whisper. keeps. Qed.

#[export] Hint Resolve save_transcript_keeps_row transcribe_with_whisper_keeps_row : keeps.

Lemma transcribe_short_audio_keeps_row a f o : keeps_row (transcribe_short_audio a f o).
Proof. unfold transcribe_short_audio. keeps. Qed.

Lemma transcribe_chunks_keeps_row a f obs i chunks texts :
  keeps_row (transcribe_chunks a f obs i chunks texts).
Proof.
  revert i texts. induction chunks as [|c rest IH]; intros i texts;
    cbn [transcribe_chunks]; keeps.
Qed.

#[export] Hint Resolve transcribe_short_audio_keeps_row transcribe_chunks_keeps_row : keeps.

Lemma transcribe_long_audio_keeps_row a f o : keeps_row (transcribe_long_audio a f o).
Proof. unfold transcribe_long_audio. keeps. Qed.

#[export] Hint Resolve transcribe_long_audio_keeps_row : keeps.

Lemma transcribe_audio_keeps_row a f o : keeps_row (transcribe_audio a f o).
Proof. unfold transcribe_audio. keeps. Qed.

#[export] Hint Resolve transcribe_audio_keeps_row extract_audio_from_video_keeps_row
  get_video_title_from_youtube_keeps_row get_video_description_from_youtube_keeps_row
  cleanup_partial_files_keeps_row : keeps.

Lemma untouched_refl (r : Row) : untouched r r.
Proof. repeat split; auto. Qed.

(** An update of the status without paths, to a status other than
    [completed], and the updates of the title and of the description
    leave a row untouched. *)
Lemma update_status_maintains (r0 : Row) o status :
  status <> completed ->
  maintains (untouched r0) (update_video_download_status o status None None None).
Proof.
  intros Hst s [Hp Hc].
  destruct (update_video_download_status_row o status None None None s) as [H _].
  cbv zeta in H. unfold final_row in H. rewrite H.
  destruct o; try (split; assumption).
  unfold untouched, same_paths, status_update, run_update in *.
  cbn [Py.truthy andb fold_left assign download_status video_path audio_path
       transcript_path].
  split; [exact Hp|]. intros E. contradiction.
Qed.

Lemma update_video_title_maintains (r0 : Row) o t :
  maintains (untouched r0) (update_video_title o t).
Proof.
  intros s [Hp Hc]. destruct o as [|e|e|e|];
    unfold update_video_title, try_finally, try_except_on, bind; cbn;
    try destruct (is_mysql_error (exn_cls e)); cbn; split; assumption.
Qed.

Lemma update_video_description_maintains (r0 : Row) o d :
  maintains (untouched r0) (update_video_description o d).
Proof.
  intros s [Hp Hc]. destruct o as [|e|e|e|];
    unfold update_video_description, try_finally, try_except_on, bind; cbn;
    try destruct (is_mysql_error (exn_cls e)); cbn; split; assumption.
Qed.

#[export] Hint Resolve update_video_title_maintains update_video_description_maintains
  : maintain.
#[export] Hint Extern 1 (maintains _ (update_video_download_status _ failed None None None)) =>
  apply update_status_maintains; discriminate : maintain.
#[export] Hint Extern 1 (maintains _ (update_video_download_status _ downloading None None None)) =>
  apply update_status_maintains; discriminate : maintain.

Lemma fetch_stage_maintains (r0 : Row) id link w :
  maintains (untouched r0) (fetch_stage id link w).
Proof. unfold fetch_stage. maintain. Qed.

Lemma check_and_repair_maintains (r0 : Row) result folder msg w :
  maintains (untouched r0) (check_and_repair result folder msg w).
Proof. unfold check_and_repair. maintain. Qed.

(** The file that the repair block hands on has a name. *)
Lemma check_and_repair_nonempty result folder msg w :
  result <> "" ->
  hoare (fun _ => True) (check_and_repair result folder msg w)
        (fun checked _ => forall p, checked = Some p -> p <> "").
Proof.
  intros Hr. unfold check_and_repair. hoare_skip.
  destruct (_ <? _)%Z; [hoare_skip; apply hoare_ret; discriminate|].
  destruct (Py.contains _ _); [hoare_skip; apply hoare_ret; discriminate|].
  eapply hoare_bind; [apply repair_video_file_nonempty, Hr | intros [repaired repaired_path]].
  cbn [snd]. apply (hoare_pure (repaired_path <> "")). intros Hp.
  destruct repaired; [|hoare_skip; apply hoare_ret; discriminate].
  hoare_skip. destruct (negb _); [hoare_skip; apply hoare_ret; discriminate|].
  apply hoare_ret. intros _ _ p [= <-]. exact Hp.
Qed.

Lemma status_update_sets_video status v a t r :
  Py.truthy v = true ->
  video_path (run_update (status_update status v a t) r) = v.
Proof.
  intros Hv. unfold status_update. rewrite Hv.
  destruct (Py.truthy a), (Py.truthy t); reflexivity.
Qed.

Lemma recorded_bind {A B} (r0 : Row) (Q : A -> Prop) (m : M A) (k : A -> M B) (s : St) :
  maintains (untouched r0) m ->
  hoare (fun _ => True) m (fun a _ => Q a) ->
  untouched r0 (row s) ->
  (forall a s1, Q a -> untouched r0 (row s1) -> ends_recorded r0 (k a s1)) ->
  ends_recorded r0 (bind m k s).
Proof.
  intros Hm HQ Hs Hk. unfold bind.
  specialize (Hm s Hs). specialize (HQ s).
  destruct (m s) as [[a|e] s1]; cbn [snd] in Hm.
  - apply Hk; [exact (HQ a s1 I eq_refl) | exact Hm].
  - left. exact Hm.
Qed.

Lemma recorded_then {A B} (r0 : Row) (m : M A) (k : A -> M B) (s : St) :
  keeps_row m ->
  untouched r0 (row s) ->
  (forall a s1, untouched r0 (row s1) -> ends_recorded r0 (k a s1)) ->
  ends_recorded r0 (bind m k s).
Proof.
  intros Hm Hs Hk.
  apply (recorded_bind r0 (fun _ => True) m k s); auto.
  - apply maintains_keeps_row, Hm.
  - apply hoare_top.
Qed.

(** The last update of a successful run: it records the paths when it is
    committed and changes nothing otherwise. *)
Lemma completing_update_recorded (r0 : Row) (result : string)
    (audio transcript : option string) (o : DbObs) (s : St) :
  result <> "" ->
  untouched r0 (row s) ->
  ends_recorded r0
    ((update_video_download_status o completed (Some result) audio transcript ;;;
      ret tt) s).
Proof.
  intros Hr Hs.
  destruct (fix_separators_normalises result Hr) as (q & Hq & Hlen & Hlacks & _).
  assert (Hqne : q <> "").
  { intros ->. destruct result; [congruence | discriminate Hlen]. }
  destruct (update_video_download_status_row o completed (Some result) audio transcript s)
    as [Hrow Hret].
  cbv zeta in Hrow, Hret. unfold ends_recorded, final_row in *. unfold bind.
  destruct (update_video_download_status o completed (Some result) audio transcript s)
    as [[b|e] s1]; cbn [fst snd ret] in *.
  - destruct o; try (left; rewrite Hrow; exact Hs).
    right. split; [eexists; reflexivity|]. rewrite Hrow. split.
    + apply status_update_sets_status.
    + exists q. rewrite status_update_sets_video; [auto|].
      rewrite Hq. destruct q; [congruence | reflexivity].
  - destruct o; try (left; rewrite Hrow; exact Hs).
    specialize (Hret eq_refl). discriminate Hret.
Qed.

Lemma process_downloaded_recorded (r0 : Row) (result folder : string) (w : World) (s : St) :
  result <> "" ->
  untouched r0 (row s) ->
  ends_recorded r0 (process_downloaded result folder w s).
Proof.
  intros Hr Hs. unfold process_downloaded.
  apply recorded_then; [apply validate_video_file_keeps_row | exact Hs |].
  intros [ok msg] s1 Hs1.
  apply (recorded_bind r0 (fun checked => forall p, checked = Some p -> p <> ""));
    [| | exact Hs1 |].
  - destruct (negb ok); [apply check_and_repair_maintains|].
    apply maintains_keeps_row, keeps_row_ret.
  - destruct (negb ok); [apply check_and_repair_nonempty, Hr|].
    apply hoare_ret. intros _ _ p [= <-]. exact Hr.
  - intros [result0|] s2 Hne Hs2; [|left; exact Hs2].
    specialize (Hne result0 eq_refl).
    apply recorded_then; [apply extract_audio_from_video_keeps_row | exact Hs2 |].
    intros audio s3 Hs3.
    apply recorded_then; [|exact Hs3|].
    + destruct (Py.truthy audio); keeps.
    + intros transcript s4 Hs4. apply completing_update_recorded; assumption.
Qed.

Lemma download_video_body_recorded (r0 : Row) (id : Z) (link : string) (w : World)
    (s : St) :
  untouched r0 (row s) ->
  ends_recorded r0 (download_video_body id link w s).
Proof.
  intros Hs. unfold download_video_body.
  apply (recorded_bind r0 (fun fetched => fst (snd fetched) = true -> snd (snd fetched) <> ""));
    [apply fetch_stage_maintains | apply fetch_stage_nonempty | exact Hs |].
  intros [folder [success result]] s1 Hn Hs1. cbn [fst snd] in Hn.
  destruct success.
  - apply process_downloaded_recorded; [apply Hn; reflexivity | exact Hs1].
  - left.
    assert (H : maintains (untouched r0)
                  (update_video_download_status (w_db_final w) failed None None None ;;;
                   cleanup_partial_files id (w_cleanup w))) by maintain.
    exact (H s1 Hs1).
Qed.

(** The paths of a job are recorded by the completing update and by
    nothing else.  After a run of [download_video_background], either the
    three path columns are as they were and the run has not made the job
    [completed], or the run returned and the job is [completed] with a
    video path that is not empty and has no backslash. *)
Theorem paths_are_recorded_on_completion (id : Z) (link : string) (w : World) (s : St) :
  let run := download_video_background id link w s in
  untouched (row s) (final_row run) \/
  (fst run = Returns tt /\ completed_with_video (final_row run)).
Proof.
  cbv zeta. unfold download_video_background, final_row.
  rewrite with_semaphore_run. cbn [fst snd row].
  unfold try_except.
  pose proof (download_video_body_recorded (row s) id link w (acquired s) (untouched_refl _))
    as Hbody.
  unfold ends_recorded, final_row in Hbody.
  destruct (download_video_body id link w (acquired s)) as [[[]|e] s1]; cbn [fst snd] in *.
  - destruct Hbody as [Hbody | [_ Hbody]]; [left | right; split; [reflexivity|]]; exact Hbody.
  - left. destruct Hbody as [Hbody | [[a Hret] _]]; [|discriminate Hret].
    assert (H : maintains (untouched (row s))
                  (update_video_download_status (w_db_handler w) failed None None None ;;;
                   ret tt)) by maintain.
    exact (H s1 Hbody).
Qed.

(** ** The transcriber: what is written where *)

(** A text without a word cannot be formatted: the header divides by the
    number of words.  [save_transcript] then writes a failure record with
    the reason ["Save error: division by zero"] in place of the transcript,
    and no clean copy. *)
Theorem save_transcript_without_words (a f text method : string) (o : SaveObs) (s : St) :
  Py.count_words text = 0%nat ->
  sv_write_error o = Returns tt ->
  save_transcript a f text method o s =
    (Returns (transcript_path_of a f),
     {| row := row s;
        trace := (trace s ++ [EvWrite (transcript_path_of a f)
                                (FailureRecord "Save error: division by zero")])%list |}).
Proof.
  intros Hwords Hw.
  unfold save_transcript, format_transcript, create_empty_transcript, write_file,
    try_except, bind, raise, observe, emit, ret.
  rewrite Hwords, Hw. reflexivity.
Qed.

Lemma save_transcript_without_words_witness :
  fst (save_transcript "static/downloads/video_7/video_1_audio.wav"
         "static/downloads/video_7" "   " "short"
         {| sv_write := Returns tt; sv_write_clean := Returns tt;
            sv_write_error := Returns tt |} (state_of sample_row))
  = Returns "static/downloads/video_7/video_1_transcript.txt".
Proof.
  rewrite (save_transcript_without_words "static/downloads/video_7/video_1_audio.wav"
             "static/downloads/video_7" "   " "short"
             {| sv_write := Returns tt; sv_write_clean := Returns tt;
                sv_write_error := Returns tt |} (state_of sample_row) eq_refl eq_refl).
  reflexivity.
Defined.

(** When the annotated transcript is written and the clean copy then
    fails, the handler of [save_transcript] writes its failure record to
    the path of the annotated transcript: the transcript just written is
    replaced by the record, and that path is returned. *)
Theorem save_transcript_clean_copy_fails (a f text method : string) (o : SaveObs)
    (e : exn) (s : St) :
  Py.count_words text <> 0%nat ->
  sv_write o = Returns tt ->
  sv_write_clean o = Raises e ->
  sv_write_error o = Returns tt ->
  save_transcript a f text method o s =
    (Returns (transcript_path_of a f),
     {| row := row s;
        trace := (trace s ++
                  [EvWrite (transcript_path_of a f) (FormattedTranscript text method);
                   EvWrite (transcript_path_of a f)
                     (FailureRecord ("Save error: " ++ exn_str e))])%list |}).
Proof.
  intros Hwords Hw Hclean Herr.
  unfold save_transcript, format_transcript, create_empty_transcript, write_file,
    try_except, bind, raise, observe, emit, ret.
  apply Nat.eqb_neq in Hwords. rewrite Hwords, Hw, Hclean, Herr.
  cbn [fst snd row trace]. rewrite <- app_assoc. reflexivity.
Qed.

Lemma save_transcript_clean_copy_fails_witness :
  fst (save_transcript "static/downloads/video_7/video_1_audio.wav"
         "static/downloads/video_7" "hello world" "short"
         {| sv_write := Returns tt;
            sv_write_clean := Raises (Exn OSError "[Errno 28] No space left on device");
            sv_write_error := Returns tt |} (state_of sample_row))
  = Returns "static/downloads/video_7/video_1_transcript.txt".
Proof.
  rewrite (save_transcript_clean_copy_fails "static/downloads/video_7/video_1_audio.wav"
             "static/downloads/video_7" "hello world" "short"
             {| sv_write := Returns tt;
                sv_write_clean := Raises (Exn OSError "[Errno 28] No space left on device");
                sv_write_error := Returns tt |}
             (Exn OSError "[Errno 28] No space left on device") (state_of sample_row)
             ltac:(discriminate) eq_refl eq_refl eq_refl).
  reflexivity.
Defined.

Lemma join_relative (folder name : string) :
  lacks "/" name = true -> OsPath.join folder name = join_prefix folder ++ name.
Proof.
  intros Hname. unfold OsPath.join, join_prefix.
  rewrite startswith_slash_lacks by exact Hname.
  destruct (String.eqb folder "" || Py.endswith "/" folder); [reflexivity|].
  rewrite append_assoc. reflexivity.
Qed.

(** Deleting every occurrence of a text from a string brings in no
    character. *)
Lemma replace_from_by_nothing_lacks (c : ascii) (old s : string) (skip : nat) :
  lacks c s = true -> lacks c (Py.replace_from old "" skip s) = true.
Proof.
  unfold lacks. revert skip. induction s as [|d rest IH]; intros skip; [reflexivity|].
  cbn [Py.all_chars Py.replace_from]. intros H.
  apply andb_true_iff in H. destruct H as [Hd Hrest].
  destruct skip as [|k]; [|apply IH, Hrest].
  destruct (String.prefix old (String d rest)).
  - cbn [append]. apply IH, Hrest.
  - cbn [Py.all_chars]. rewrite Hd. apply IH, Hrest.
Qed.

Lemma transcript_base_name_lacks_slash (audio_path : string) :
  lacks "/" (transcript_base_name audio_path) = true.
Proof.
  unfold transcript_base_name.
  destruct (basename_split audio_path) as (dir & _ & Hb & _).
  destruct (splitext_split _ Hb) as (ext & Hext & _).
  set (base := fst (OsPath.splitext (OsPath.basename audio_path))) in *.
  assert (Hbase : lacks "/" base = true).
  { rewrite Hext, lacks_app in Hb. apply andb_true_iff in Hb. tauto. }
  unfold Py.replace. apply replace_from_by_nothing_lacks, Hbase.
Qed.

(** The path of a file of the transcriber: the folder prefix, the base
    name, the suffix. *)
Lemma transcript_file_path (audio_path output_folder suffix : string) :
  lacks "/" suffix = true ->
  OsPath.join output_folder (transcript_base_name audio_path ++ suffix)
  = join_prefix output_folder ++ transcript_base_name audio_path ++ suffix.
Proof.
  intros Hs. apply join_relative.
  rewrite lacks_app, transcript_base_name_lacks_slash, Hs. reflexivity.
Qed.

(** The three files that the transcriber writes for one audio file, the
    annotated transcript, the clean copy and the Whisper transcript, have
    three different paths, all of them ending in [_transcript.txt]: no one
    of them overwrites another. *)
Theorem transcript_files_are_distinct (audio_path output_folder : string) :
  let annotated := transcript_path_of audio_path output_folder in
  let clean := clean_transcript_path_of audio_path output_folder in
  let whisper := whisper_transcript_path_of audio_path output_folder in
  annotated <> clean /\ annotated <> whisper /\ clean <> whisper /\
  Py.endswith "_transcript.txt" annotated = true /\
  Py.endswith "_clean_transcript.txt" clean = true /\
  Py.endswith "_whisper_transcript.txt" whisper = true.
Proof.
  cbv zeta.
  unfold transcript_path_of, clean_transcript_path_of, whisper_transcript_path_of.
  rewrite !transcript_file_path by reflexivity.
  set (dir := join_prefix output_folder). set (base := transcript_base_name audio_path).
  repeat split.
  - intros H. do 2 apply append_inv_head in H. discriminate H.
  - intros H. do 2 apply append_inv_head in H. discriminate H.
  - intros H. do 2 apply append_inv_head in H. discriminate H.
  - rewrite <- append_assoc. apply endswith_app.
  - rewrite <- append_assoc. apply endswith_app.
  - rewrite <- append_assoc. apply endswith_app.
Qed.

(** ** How the files of one job are named *)

Lemma prefix_length (p s : string) :
  String.prefix p s = true -> (String.length p <= String.length s)%nat.
Proof.
  revert s. induction p as [|c p IH]; intros s H; [simpl; lia|].
  destruct s as [|d s]; [discriminate H|].
  cbn [String.prefix] in H. destruct (ascii_dec c d); [|discriminate H].
  cbn [String.length]. apply IH in H. lia.
Qed.

Lemma prefix_audio_no_straddle (x : string) :
  x <> "" -> String.prefix "_audio" (x ++ "_audio") = String.prefix "_audio" x.
Proof.
  intros Hx.
  destruct x as [|c1 x]; [congruence|].
  cbn [append String.prefix].
  destruct (ascii_dec "_" c1) as [<-|]; [|reflexivity].
  destruct x as [|c2 x]; [reflexivity|].
  cbn [append String.prefix].
  destruct (ascii_dec "a" c2) as [<-|]; [|reflexivity].
  destruct x as [|c3 x]; [reflexivity|].
  cbn [append String.prefix].
  destruct (ascii_dec "u" c3) as [<-|]; [|reflexivity].
  destruct x as [|c4 x]; [reflexivity|].
  cbn [append String.prefix].
  destruct (ascii_dec "d" c4) as [<-|]; [|reflexivity].
  destruct x as [|c5 x]; [reflexivity|].
  cbn [append String.prefix].
  destruct (ascii_dec "i" c5) as [<-|]; [|reflexivity].
  destruct x as [|c6 x]; [reflexivity|].
  cbn [append String.prefix].
  destruct (ascii_dec "o" c6) as [<-|]; [|reflexivity].
  destruct x; reflexivity.
Qed.

Lemma replace_audio_suffix (b : string) (skip : nat) :
  (skip <= String.length b)%nat ->
  Py.replace_from "_audio" "" skip (b ++ "_audio") = Py.replace_from "_audio" "" skip b.
Proof.
  revert skip. induction b as [|c rest IH]; intros skip Hskip.
  - cbn [String.length] in Hskip. replace skip with 0%nat by lia. reflexivity.
  - cbn [append Py.replace_from]. destruct skip as [|k].
    + change (String c (rest ++ "_audio")) with (String c rest ++ "_audio").
      rewrite prefix_audio_no_straddle by discriminate.
      destruct (String.prefix "_audio" (String c rest)) eqn:Hp.
      * apply prefix_length in Hp. cbn [String.length] in Hp.
        cbn [append]. apply IH. cbn [String.length Nat.sub]. lia.
      * f_equal. apply IH. lia.
    + apply IH. cbn [String.length] in Hskip. lia.
Qed.

Lemma all_chars_app (p : ascii -> bool) (a b : string) :
  Py.all_chars p (a ++ b) = Py.all_chars p a && Py.all_chars p b.
Proof.
  induction a as [|c a IH]; simpl; [reflexivity|]. rewrite IH. apply andb_assoc.
Qed.

(** [os.path.splitext] of a name that ends in [.wav] *)
Lemma splitext_wav (name : string) :
  lacks "/" name = true ->
  Py.all_chars (fun c => Ascii.eqb c ".") name = false ->
  OsPath.splitext (name ++ ".wav") = (name, ".wav").
Proof.
  intros Hslash Hdots. unfold OsPath.splitext, Py.rfind.
  rewrite (rfind_from_lacks "/" (name ++ ".wav")) by (rewrite lacks_app, Hslash; reflexivity).
  rewrite rfind_from_app.
  cbn [Py.rfind_from Ascii.eqb Bool.eqb].
  change (-1 <? 0 + Z.of_nat (String.length name))%Z with
    (-1 <? 0 + Z.of_nat (String.length name))%Z.
  destruct (Z.ltb_spec (-1) (0 + Z.of_nat (String.length name))) as [_|H]; [|lia].
  replace (Z.to_nat (-1 + 1)) with 0%nat by reflexivity.
  replace (Z.to_nat (0 + Z.of_nat (String.length name) - (-1 + 1)))
    with (String.length name) by lia.
  rewrite substring_prefix, Hdots.
  replace (0 + Z.of_nat (String.length name))%Z with (Z.of_nat (String.length name)) by lia.
  rewrite slice_to_app, slice_from_app. reflexivity.
Qed.

Lemma replace_from_absent (old new s : string) :
  old <> "" -> Py.contains old s = false -> Py.replace_from old new 0 s = s.
Proof.
  intros Hold. induction s as [|c rest IH]; intros H; [reflexivity|].
  rewrite contains_unfold in H. apply orb_false_iff in H. destruct H as [Hp Hrest].
  cbn [Py.replace_from]. rewrite Hp. f_equal. apply IH, Hrest.
Qed.

(** The transcript of the audio that was extracted from a video is
    named after the video: [<name>_transcript.txt] for the video
    [<name>.<ext>], where every ["_audio"] inside [<name>] is dropped
    too. *)
Theorem transcript_is_named_after_video (video_path audio_folder output_folder : string) :
  let name := fst (OsPath.splitext (OsPath.basename video_path)) in
  let audio := audio_path_of video_path audio_folder in
  transcript_path_of audio output_folder
    = OsPath.join output_folder (Py.replace "_audio" "" name ++ "_transcript.txt") /\
  (Py.contains "_audio" name = false ->
   transcript_path_of audio output_folder
     = OsPath.join output_folder (name ++ "_transcript.txt")).
Proof.
  cbv zeta.
  assert (Hbase : transcript_base_name (audio_path_of video_path audio_folder)
                  = Py.replace "_audio" "" (fst (OsPath.splitext (OsPath.basename video_path)))).
  { unfold transcript_base_name.
    assert (Hname : audio_path_of video_path audio_folder
                    = join_prefix audio_folder
                      ++ fst (OsPath.splitext (OsPath.basename video_path)) ++ "_audio.wav").
    { unfold audio_path_of. apply join_relative.
      destruct (basename_split video_path) as (dir0 & _ & Hb0 & _).
      destruct (splitext_split _ Hb0) as (ext & Hext & _).
      rewrite Hext, lacks_app in Hb0. apply andb_true_iff in Hb0.
      rewrite lacks_app. destruct Hb0 as [-> _]. reflexivity. }
    set (name := fst (OsPath.splitext (OsPath.basename video_path))) in *.
    assert (Hn : lacks "/" name = true).
    { destruct (basename_split video_path) as (dir0 & _ & Hb0 & _).
      destruct (splitext_split _ Hb0) as (ext & Hext & _). fold name in Hext.
      rewrite Hext, lacks_app in Hb0. apply andb_true_iff in Hb0. tauto. }
    rewrite Hname.
    rewrite basename_of_app.
    - change (name ++ "_audio.wav") with (name ++ "_audio" ++ ".wav").
      rewrite <- append_assoc. rewrite splitext_wav.
      + cbn [fst]. unfold Py.replace. apply replace_audio_suffix. lia.
      + rewrite lacks_app, Hn. reflexivity.
      + rewrite all_chars_app. apply andb_false_iff. right. reflexivity.
    - rewrite lacks_app, Hn. reflexivity.
    - unfold join_prefix.
      destruct (String.eqb audio_folder "") eqn:E.
      + apply String.eqb_eq in E. left. rewrite E. reflexivity.
      + cbn [orb]. destruct (Py.endswith "/" audio_folder) eqn:F.
        * right. apply endswith_char. exact F.
        * right. eauto. }
  unfold transcript_path_of. rewrite Hbase. split; [reflexivity|].
  intros Hno. unfold Py.replace. rewrite (replace_from_absent "_audio" ""); auto. discriminate.
Qed.

(** ** The chunks, one after the other *)

(** The recognition of one chunk and the removal of its temporary
    file. *)
Lemma chunk_recognition_run (o : ChunkObs) (path : string) (texts : list string) (s : St) :
  (c_exists (k_cleanup o) = true -> c_remove (k_cleanup o) = Returns tt) ->
  exists more t,
    try_finally
      (try_except
         (observe (k_record o) ;;;
          emit (EvRecognize path) ;;;
          chunk_text <- observe (k_google o) ;;
          if Py.truthy (Some chunk_text)
          then ret (texts ++ [chunk_text])%list
          else ret texts)
         (fun _ => ret texts))
      (remove_if_exists path (k_cleanup o)) s
    = (Returns (texts ++ more)%list, {| row := row s; trace := (trace s ++ t)%list |}) /\
    (List.length more <= 1)%nat /\
    Forall (fun text => text <> "") more /\
    count_events is_export t = 0%nat /\
    (count_events is_recognition t <= 1)%nat.
Proof.
  intros Hclean. destruct s as [r tr].
  unfold try_finally, try_except, remove_if_exists, bind, observe, emit, ret.
  cbn [fst snd row trace].
  destruct (c_exists (k_cleanup o)); [rewrite (Hclean eq_refl)|].
  all: destruct (k_record o) as [[]|e1]; cbn [fst snd row trace].
  all: try destruct (k_google o) as [text|e2]; cbn [fst snd row trace].
  all: try destruct (Py.truthy (Some text)) eqn:Htext; cbn [fst snd row trace].
  all: rewrite <- ?app_assoc; cbn [app].
  all: first
    [ exists [text]; eexists; split; [reflexivity|]
    | exists []; eexists; split; [rewrite app_nil_r; reflexivity|]
    | exists []; exists []; split; [rewrite !app_nil_r; reflexivity|] ].
  all: split; [cbn; lia|]; split; [|split; [reflexivity | cbn; lia]].
  all: try solve [constructor].
  all: constructor; [|constructor]; intros ->; discriminate Htext.
Qed.

(** A chunk that the recogniser cannot understand, or on which it fails
    in any way, is skipped and the loop goes on: when every chunk can be
    exported and every temporary file can be removed, [transcribe_chunks]
    returns; it exports every chunk, calls the recogniser at most once per
    chunk, and only adds texts that are not empty, at most one per
    chunk. *)
Theorem transcribe_chunks_goes_on (a f : string) (obs : nat -> ChunkObs)
    (chunks : list (Z * Z)) (i : nat) (texts : list string) (s : St) :
  (forall j, k_export (obs j) = Returns tt) ->
  (forall j, c_exists (k_cleanup (obs j)) = true -> c_remove (k_cleanup (obs j)) = Returns tt) ->
  let run := transcribe_chunks a f obs i chunks texts s in
  exists more,
    fst run = Returns (texts ++ more)%list /\
    (List.length more <= List.length chunks)%nat /\
    Forall (fun text => text <> "") more /\
    count_events is_export (events_of run)
    = (count_events is_export (trace s) + List.length chunks)%nat /\
    (count_events is_recognition (events_of run)
     <= count_events is_recognition (trace s) + List.length chunks)%nat.
Proof.
  intros Hexport Hclean. cbv zeta. revert i texts s.
  induction chunks as [|c rest IH]; intros i texts s; cbn [transcribe_chunks].
  - exists []. rewrite app_nil_r. unfold events_of. cbn. repeat split; auto; lia.
  - set (path := OsPath.join f ("temp_chunk_" ++ Py.str_of_int (Z.of_nat i) ++ ".wav")).
    destruct (chunk_recognition_run (obs i) path texts
                {| row := row s; trace := (trace s ++ [EvExport path])%list |} (Hclean i))
      as (more & t & Hrun & Hlen & Hne & Hex & Hrec).
    cbn [row trace] in Hrun.
    assert (Hstep :
      (observe (k_export (obs i)) ;;;
       emit (EvExport path) ;;;
       all_texts <-
         try_finally
           (try_except
              (observe (k_record (obs i)) ;;;
               emit (EvRecognize path) ;;;
               chunk_text <- observe (k_google (obs i)) ;;
               if Py.truthy (Some chunk_text)
               then ret (texts ++ [chunk_text])%list
               else ret texts)
              (fun _ => ret texts))
           (remove_if_exists path (k_cleanup (obs i))) ;;
       transcribe_chunks a f obs (S i) rest all_texts) s
      = transcribe_chunks a f obs (S i) rest (texts ++ more)%list
          {| row := row s; trace := ((trace s ++ [EvExport path]) ++ t)%list |}).
    { unfold bind at 1. unfold observe at 1. rewrite Hexport.
      unfold bind at 1. unfold emit at 1. unfold bind at 1.
      rewrite Hrun. reflexivity. }
    rewrite Hstep.
    destruct (IH (S i) (texts ++ more)%list
                {| row := row s; trace := ((trace s ++ [EvExport path]) ++ t)%list |})
      as (more' & Hret & Hlen' & Hne' & Hex' & Hrec').
    exists (more ++ more')%list. rewrite app_assoc. split; [exact Hret|].
    split; [rewrite length_app; cbn [List.length]; lia|].
    split; [apply Forall_app; split; assumption|].
    rewrite Hex'. cbn [trace List.length] in *.
    rewrite !count_events_app in *.
    change (count_events is_export [EvExport path]) with 1%nat.
    change (count_events is_recognition [EvExport path]) with 0%nat in Hrec'.
    split; lia.
Qed.

Lemma transcribe_chunks_goes_on_witness :
  exists more,
    fst (transcribe_chunks "a.wav" "d" (fun _ => quiet_chunk) 0 (split_chunks 43000) []
           (state_of sample_row)) = Returns ([] ++ more)%list /\
    (List.length more <= List.length (split_chunks 43000))%nat.
Proof.
  destruct (transcribe_chunks_goes_on "a.wav" "d" (fun _ => quiet_chunk) (split_chunks 43000)
              0 [] (state_of sample_row))
    as (more & Hret & Hlen & _).
  - reflexivity.
  - reflexivity.
  - exists more. split; assumption.
Defined.

(** ** The metadata of a video *)

Lemma substring_length_le (n m : nat) (s : string) :
  (String.length (String.substring n m s) <= m)%nat.
Proof.
  revert n m. induction s as [|c s IH]; intros n m.
  - destruct n, m; simpl; lia.
  - destruct n as [|n]; simpl.
    + destruct m as [|m]; simpl; [lia|]. specialize (IH 0%nat m). lia.
    + apply IH.
Qed.

Lemma substring_all_chars (p : ascii -> bool) (n m : nat) (s : string) :
  Py.all_chars p s = true -> Py.all_chars p (String.substring n m s) = true.
Proof.
  revert n m. induction s as [|c s IH]; intros n m H.
  - destruct n, m; reflexivity.
  - cbn [Py.all_chars] in H. apply andb_true_iff in H. destruct H as [Hc Hs].
    destruct n as [|n]; simpl.
    + destruct m as [|m]; simpl; [reflexivity|]. rewrite Hc. apply IH, Hs.
    + apply IH, Hs.
Qed.

Lemma filter_chars_all (p : ascii -> bool) (s : string) :
  Py.all_chars p (Py.filter_chars p s) = true.
Proof.
  induction s as [|c s IH]; [reflexivity|]. simpl.
  destruct (p c) eqn:Hc; [simpl; rewrite Hc; exact IH | exact IH].
Qed.

Lemma substring_from_start_length (m : nat) (s : string) :
  String.length (String.substring 0 m s) = Nat.min m (String.length s).
Proof.
  revert m. induction s as [|c s IH]; intros m.
  - destruct m; reflexivity.
  - destruct m as [|m]; simpl; [reflexivity|]. rewrite IH. reflexivity.
Qed.

(** When [yt-dlp] prints ASCII text or fails, the metadata queries do
    not raise.  A title that is returned has at most 100 characters and
    none of the characters that the pattern removes (backslash, slash,
    star, question mark, colon, double quote, angle brackets, bar).  A
    description is the placeholder text or has more than 10 and at most
    500 characters. *)
Theorem metadata_is_bounded (link : string) (run : result CompletedProcess) (s : St) :
  ascii_output run = true ->
  match fst (get_video_title_from_youtube link run s) with
  | Returns (Some title) =>
      (String.length title <= 100)%nat /\
      Py.all_chars (fun c => negb (invalid_filename_char c)) title = true
  | Returns None => True
  | Raises _ => False
  end /\
  match fst (get_video_description_from_youtube link run s) with
  | Returns description =>
      description = DEFAULT_DESCRIPTION \/
      (10 < String.length description <= 500)%nat
  | Raises _ => False
  end.
Proof.
  intros _.
  unfold get_video_title_from_youtube, get_video_description_from_youtube,
    try_except, bind, emit, observe, ret.
  cbn [fst snd]. split.
  - destruct run as [result|e]; cbn [fst snd]; [|exact I].
    destruct (returncode result =? 0)%Z; cbn [fst]; [|exact I].
    unfold Py.slice_to. split; [apply substring_length_le|].
    apply substring_all_chars, filter_chars_all.
  - destruct run as [result|e]; cbn [fst snd]; [|left; reflexivity].
    destruct (returncode result =? 0)%Z; cbn [fst]; [|left; reflexivity].
    destruct (Py.truthy _ && _) eqn:Hlong; cbn [fst]; [|left; reflexivity].
    right. apply andb_prop in Hlong. destruct Hlong as [_ Hlong].
    apply Nat.ltb_lt in Hlong.
    unfold Py.slice_to. rewrite substring_from_start_length.
    change (Z.to_nat 500) with 500%nat. lia.
Qed.

Lemma metadata_is_bounded_witness :
  fst (get_video_title_from_youtube sample_link
         (Returns (finished_process "What is a proof?")) (state_of sample_row))
  = Returns (Some "What is a proof") /\
  match fst (get_video_description_from_youtube sample_link
               (Returns (finished_process "What is a proof?")) (state_of sample_row)) with
  | Returns description =>
      description = DEFAULT_DESCRIPTION \/ (10 < String.length description <= 500)%nat
  | Raises _ => False
  end.
Proof.
  split; [reflexivity|].
  exact (proj2 (metadata_is_bounded sample_link
                  (Returns (finished_process "What is a proof?")) (state_of sample_row)
                  eq_refl)).
Defined.

(** ** The cleanup after a failed job *)

Lemma remove_partial_files_run (folder : string) (files : list PartialFile) (s : St) :
  exists removed,
    incl removed (filter pf_isfile files) /\
    trace (snd (remove_partial_files folder files s))
    = (trace s ++ map (fun file => EvRemove (OsPath.join folder (pf_name file))) removed)%list /\
    row (snd (remove_partial_files folder files s)) = row s /\
    (forall u, fst (remove_partial_files folder files s) = Returns u ->
               removed = filter pf_isfile files).
Proof.
  revert s. induction files as [|file rest IH]; intros s.
  - exists []. cbn. rewrite app_nil_r. repeat split; auto. apply incl_refl.
  - cbn [remove_partial_files filter].
    destruct (pf_isfile file) eqn:Hfile.
    + unfold bind at 1. unfold bind at 1. unfold emit at 1. cbn [fst snd].
      unfold observe at 1.
      destruct (pf_remove file) as [[]|e] eqn:Hremove; cbn [fst snd].
      * destruct (IH {| row := row s; trace := (trace s ++ [EvRemove (OsPath.join folder (pf_name file))])%list |})
          as (removed & Hincl & Htrace & Hrow & Hall).
        exists (file :: removed). cbn [row trace] in *.
        split; [intros x [<- | Hx]; [left; reflexivity | right; apply Hincl, Hx]|].
        split; [rewrite Htrace, <- app_assoc; reflexivity|].
        split; [exact Hrow|].
        intros u Hu. f_equal. eapply Hall, Hu.
      * exists [file]. cbn [map row trace].
        split; [intros x [<- | []]; left; reflexivity|].
        repeat split. intros u Hu. discriminate Hu.
    + unfold bind at 1. unfold ret at 1. cbn [fst snd].
      destruct (IH s) as (removed & Hincl & Htrace & Hrow & Hall).
      exists removed. repeat split; assumption.
Qed.

(** The cleanup after a failed job never raises and leaves the row
    alone.  All it does is to remove files, and each file it removes is a
    regular file of the listing of the job's folder, named by its path in
    that folder; a directory in the folder is never removed. *)
Theorem cleanup_partial_files_removes_files (id : Z) (o : CleanupDirObs) (s : St) :
  let run := cleanup_partial_files id o s in
  fst run = Returns tt /\
  final_row run = row s /\
  exists removed,
    incl removed (removable_files o) /\
    events_of run
    = (trace s ++ map (fun file =>
                         EvRemove (OsPath.join (job_folder id) (pf_name file)))
                      removed)%list.
Proof.
  cbv zeta. unfold final_row, events_of, removable_files, cleanup_partial_files,
    get_video_folder, try_except.
  change (OsPath.join BASE_DOWNLOAD_FOLDER ("video_" ++ Py.str_of_int id))
    with (job_folder id).
  unfold bind, observe, ret.
  destruct (cd_makedirs o) as [[]|e]; cbn [fst snd].
  - destruct (cd_exists o); cbn [fst snd].
    + destruct (cd_listdir o) as [files|e]; cbn [fst snd].
      * destruct (remove_partial_files_run (job_folder id) files s)
          as (removed & Hincl & Htrace & Hrow & _).
        destruct (remove_partial_files (job_folder id) files s) as [[[]|e] s'];
          cbn [fst snd] in *; (split; [reflexivity|]); (split; [exact Hrow|]);
          exists removed; auto.
      * repeat split. exists []. cbn. rewrite app_nil_r. split; [apply incl_refl | reflexivity].
    + repeat split. exists []. cbn. rewrite app_nil_r. split; [apply incl_nil_l | reflexivity].
  - repeat split. exists []. cbn. rewrite app_nil_r. split; [apply incl_nil_l | reflexivity].
Qed.

(** ** The semaphore never blocks the jobs for good *)

Lemma thread_state_moves (p : nat) (t : Thread) :
  thread_state t -> thread_done t = false ->
  holding t = true \/ (0 < p)%nat ->
  exists n t', thread_step p t = Some (n, t') /\
               S (List.length (todo t')) = List.length (todo t).
Proof.
  intros [body Hfree | body Hfree | ] Hdone Hslot; unfold thread_step; cbn [todo holding] in *.
  - destruct Hslot as [Hslot | Hslot]; [discriminate Hslot|].
    destruct p as [|p]; [lia|]. do 2 eexists. split; reflexivity.
  - destruct body as [|e body]; cbn [app].
    + do 2 eexists. split; reflexivity.
    + apply semaphore_free_cons in Hfree. destruct Hfree as [He _].
      destruct e; try discriminate He; do 2 eexists; split; reflexivity.
  - discriminate Hdone.
Qed.

Lemma some_thread_holds (l : list Thread) :
  (exists i t, nth_error l i = Some t /\ holding t = true /\ thread_done t = false) \/
  (forall t, In t l -> thread_done t = false -> holding t = false).
Proof.
  induction l as [|t l IH].
  - right. intros t [].
  - destruct IH as [(i & t' & Hnth & Hhold & Hdone) | Hnone].
    + left. exists (S i), t'. auto.
    + destruct (holding t) eqn:Hhold, (thread_done t) eqn:Hdone.
      * right. intros t' [<- | Hin] Ht'; [congruence | apply Hnone; assumption].
      * left. exists 0%nat, t. auto.
      * right. intros t' [<- | Hin] Ht'; [assumption | apply Hnone; assumption].
      * right. intros t' [<- | Hin] Ht'; [assumption | apply Hnone; assumption].
Qed.

Lemma some_thread_is_left (l : list Thread) :
  forallb thread_done l = true \/
  exists i t, nth_error l i = Some t /\ thread_done t = false.
Proof.
  induction l as [|t l IH]; [left; reflexivity|].
  destruct (thread_done t) eqn:Hdone.
  - destruct IH as [Hall | (i & t' & Hnth & Ht')].
    + left. cbn. rewrite Hdone. exact Hall.
    + right. exists (S i), t'. auto.
  - right. exists 0%nat, t. auto.
Qed.

Lemma done_threads_hold_nothing (l : list Thread) :
  Forall thread_state l ->
  (forall t, In t l -> thread_done t = false -> holding t = false) ->
  List.length (filter holding l) = 0%nat.
Proof.
  induction 1 as [|t l Ht Hl IH]; intros Hnone; [reflexivity|].
  cbn [filter].
  assert (Hhold : holding t = false).
  { destruct (thread_done t) eqn:Hdone; [|apply Hnone; [left; reflexivity | exact Hdone]].
    destruct Ht as [body Hfree | body Hfree | ]; cbn in *; try reflexivity.
    destruct body; discriminate Hdone. }
  rewrite Hhold. apply IH. intros t' Hin. apply Hnone. right. exact Hin.
Qed.

Lemma accounted_progress (sys : System) :
  permits_accounted sys ->
  (forallb thread_done (threads sys) = true /\ permits sys = SEMAPHORE_CAPACITY) \/
  exists i t n t',
    nth_error (threads sys) i = Some t /\
    thread_step (permits sys) t = Some (n, t') /\
    S (List.length (todo t')) = List.length (todo t).
Proof.
  intros [Hsum Hall].
  destruct (some_thread_holds (threads sys)) as [(i & t & Hnth & Hhold & Hdone) | Hnone].
  - right.
    assert (Ht : thread_state t).
    { rewrite Forall_forall in Hall. eapply Hall, nth_error_In, Hnth. }
    destruct (thread_state_moves (permits sys) t Ht Hdone (or_introl Hhold))
      as (n & t' & Hstep & Hlen).
    exists i, t, n, t'. auto.
  - pose proof (done_threads_hold_nothing _ Hall Hnone) as Hzero.
    unfold count_holding in Hsum. rewrite Hzero, Nat.add_0_r in Hsum.
    destruct (some_thread_is_left (threads sys)) as [Hdone | (i & t & Hnth & Hdone)].
    + left. auto.
    + right.
      assert (Ht : thread_state t).
      { rewrite Forall_forall in Hall. eapply Hall, nth_error_In, Hnth. }
      assert (Hfree : holding t = true \/ (0 < permits sys)%nat).
      { right. rewrite Hsum. unfold SEMAPHORE_CAPACITY. lia. }
      destruct (thread_state_moves (permits sys) t Ht Hdone Hfree)
        as (n & t' & Hstep & Hlen).
      exists i, t, n, t'. auto.
Qed.

Lemma set_nth_remaining (i : nat) (t t' : Thread) (l : list Thread) :
  nth_error l i = Some t ->
  S (List.length (todo t')) = List.length (todo t) ->
  S (remaining (set_nth i t' l)) = remaining l.
Proof.
  unfold remaining. revert i. induction l as [|x l IH]; intros i Hnth Hlen.
  - destruct i; discriminate Hnth.
  - destruct i as [|i]; simpl in *.
    + injection Hnth as Hx. subst x. lia.
    + specialize (IH i Hnth Hlen). lia.
Qed.

Lemma accounted_completes (n : nat) (sys : System) :
  (remaining (threads sys) <= n)%nat -> permits_accounted sys ->
  exists more,
    forallb thread_done (threads (run_schedule more sys)) = true /\
    permits (run_schedule more sys) = SEMAPHORE_CAPACITY.
Proof.
  revert sys. induction n as [|n IH]; intros sys Hn Hacc.
  - destruct (accounted_progress sys Hacc)
      as [[Hdone Hp] | (i & t & m & t' & Hnth & Hstep & Hlen)].
    + exists []. auto.
    + pose proof (set_nth_remaining i t t' _ Hnth Hlen). lia.
  - destruct (accounted_progress sys Hacc)
      as [[Hdone Hp] | (i & t & m & t' & Hnth & Hstep & Hlen)].
    + exists []. auto.
    + pose proof (set_nth_remaining i t t' _ Hnth Hlen) as Hless.
      destruct (IH (system_step sys i)) as (more & Hmore).
      * unfold system_step. rewrite Hnth, Hstep. cbn [threads]. lia.
      * apply system_step_accounted, Hacc.
      * exists (i :: more). exact Hmore.
Qed.

(** ** The semaphore and jobs that hang *)

Lemma count_events_firstn (kind : event -> bool) (n : nat) (t : list event) :
  (count_events kind (firstn n t) <= count_events kind t)%nat.
Proof.
  unfold count_events. revert n. induction t as [|e t IH]; intros n.
  - rewrite firstn_nil. apply Nat.le_refl.
  - destruct n as [|n]; cbn [firstn filter]; [apply Nat.le_0_l|].
    specialize (IH n). destruct (kind e); cbn [List.length]; lia.
Qed.

Lemma firstn_inside_block (n : nat) (body : list event) :
  count_events is_semaphore_event body = 0%nat ->
  inside_block (firstn n (body ++ [EvRelease])).
Proof.
  intros Hfree. destruct (Nat.le_gt_cases n (List.length body)) as [Hshort | Hlong].
  - left. rewrite firstn_app.
    replace (n - List.length body)%nat with 0%nat by lia.
    cbn [firstn]. rewrite app_nil_r.
    pose proof (count_events_firstn is_semaphore_event n body). lia.
  - right. exists body. split; [|exact Hfree].
    apply firstn_all2. rewrite length_app. cbn [List.length]. lia.
Qed.

Lemma thread_of_shape (j : Job) (hangs : option nat) : thread_shape (thread_of j hangs).
Proof.
  destruct (download_video_background_events (job_id j) (job_link j) (job_world j)
              (state_of (job_row j))) as (body & Hev & Hfree).
  unfold thread_of, job_thread. rewrite Hev. cbn [state_of trace app todo].
  destruct hangs as [n|].
  - rewrite firstn_cons. constructor. apply firstn_inside_block, Hfree.
  - constructor. right. exists body. auto.
Qed.

Lemma submit_jobs_balanced (jobs : list (Job * option nat)) :
  permits_balanced (submit_jobs jobs).
Proof.
  unfold submit_jobs, permits_balanced, count_holding. cbn [permits threads]. split.
  - induction jobs as [|[j hangs] jobs IH]; [reflexivity|].
    cbn [map fst snd filter].
    assert (Hfree : holding (thread_of j hangs) = false) by (destruct hangs; reflexivity).
    rewrite Hfree. exact IH.
  - apply Forall_forall. intros t Ht. apply in_map_iff in Ht.
    destruct Ht as ([j hangs] & <- & _). apply thread_of_shape.
Qed.

Lemma inside_block_cons (e : event) (rest : list event) :
  inside_block (e :: rest) ->
  (e = EvRelease /\ rest = []) \/ (is_semaphore_event e = false /\ inside_block rest).
Proof.
  intros [Hfree | (body & Hrest & Hfree)].
  - right. apply semaphore_free_cons in Hfree. destruct Hfree as [He Hfree].
    split; [exact He | left; exact Hfree].
  - destruct body as [|e' body]; cbn [app] in Hrest.
    + injection Hrest as -> ->. left. auto.
    + injection Hrest as -> ->. apply semaphore_free_cons in Hfree.
      destruct Hfree as [He Hfree]. right. split; [exact He|]. right. exists body. auto.
Qed.

(** A step keeps the shape of the thread and the balance of permits. *)
Lemma thread_step_shape (p n : nat) (t t' : Thread) :
  thread_shape t -> thread_step p t = Some (n, t') ->
  thread_shape t' /\
  (p + (if holding t then 1 else 0) = n + (if holding t' then 1 else 0))%nat /\
  S (List.length (todo t')) = List.length (todo t).
Proof.
  intros [rest Hrest | rest Hrest | ]; unfold thread_step; cbn [todo holding].
  - destruct p as [|p]; [discriminate|]. intros [= <- <-]. cbn [holding todo List.length].
    split; [constructor; exact Hrest | split; lia].
  - destruct rest as [|e rest]; [discriminate|].
    destruct (inside_block_cons e rest Hrest) as [[-> ->] | [He Hrest']].
    + intros [= <- <-]. cbn [holding todo List.length]. split; [constructor | split; lia].
    + destruct e; try discriminate He; intros [= <- <-]; cbn [holding todo List.length];
        (split; [constructor; exact Hrest' | split; lia]).
  - discriminate.
Qed.

Lemma system_step_balanced (sys : System) (i : nat) :
  permits_balanced sys -> permits_balanced (system_step sys i).
Proof.
  intros [Hsum Hall]. unfold system_step.
  destruct (nth_error (threads sys) i) as [t|] eqn:Hnth; [|split; assumption].
  destruct (thread_step (permits sys) t) as [[n t']|] eqn:Hstep; [|split; assumption].
  assert (Ht : thread_shape t).
  { rewrite Forall_forall in Hall. eapply Hall, nth_error_In, Hnth. }
  destruct (thread_step_shape _ _ _ _ Ht Hstep) as (Ht' & Hbalance & _).
  pose proof (set_nth_count holding i t' t (threads sys) Hnth) as Hcount.
  unfold permits_balanced, count_holding in *. cbn [permits threads]. split.
  - destruct (holding t), (holding t'); lia.
  - apply set_nth_Forall; assumption.
Qed.

Lemma run_schedule_balanced (schedule : list nat) (sys : System) :
  permits_balanced sys -> permits_balanced (run_schedule schedule sys).
Proof.
  unfold run_schedule. revert sys.
  induction schedule as [|i rest IH]; intros sys H; cbn [fold_left]; [exact H|].
  apply IH, system_step_balanced, H.
Qed.

(** A thread of the right shape that has something left to do moves,
    provided it is inside the block or a permit is free. *)
Lemma thread_shape_moves (p : nat) (t : Thread) :
  thread_shape t -> thread_done t = false ->
  holding t = true \/ (0 < p)%nat ->
  exists n t', thread_step p t = Some (n, t').
Proof.
  intros [rest Hrest | rest Hrest | ] Hdone Hslot; unfold thread_step; cbn [todo holding] in *.
  - destruct Hslot as [Hslot | Hslot]; [discriminate Hslot|].
    destruct p as [|p]; [lia|]. do 2 eexists. reflexivity.
  - destruct rest as [|e rest]; [discriminate Hdone|].
    destruct (inside_block_cons e rest Hrest) as [[-> ->] | [He _]].
    + do 2 eexists. reflexivity.
    + destruct e; try discriminate He; do 2 eexists; reflexivity.
  - discriminate Hdone.
Qed.

Lemma filter_length_le {A} (p q : A -> bool) (l : list A) :
  (forall x, In x l -> p x = true -> q x = true) ->
  (List.length (filter p l) <= List.length (filter q l))%nat.
Proof.
  induction l as [|x l IH]; intros Hpq; [apply Nat.le_refl|].
  cbn [filter].
  assert (IHl : (List.length (filter p l) <= List.length (filter q l))%nat)
    by (apply IH; intros y Hy; apply Hpq; right; exact Hy).
  destruct (p x) eqn:Hp.
  - rewrite (Hpq x (or_introl eq_refl) Hp). cbn [List.length]. lia.
  - destruct (q x); cbn [List.length]; lia.
Qed.

Lemma filter_length_same {A} (p q : A -> bool) (l : list A) :
  (forall x, In x l -> p x = true -> q x = true) ->
  (List.length (filter q l) <= List.length (filter p l))%nat ->
  forall x, In x l -> q x = true -> p x = true.
Proof.
  induction l as [|y l IH]; intros Hpq Hlen x Hin Hq; [destruct Hin|].
  assert (Hle : (List.length (filter p l) <= List.length (filter q l))%nat)
    by (apply filter_length_le; intros z Hz; apply Hpq; right; exact Hz).
  cbn [filter] in Hlen.
  destruct (p y) eqn:Hp.
  - rewrite (Hpq y (or_introl eq_refl) Hp) in Hlen. cbn [List.length] in Hlen.
    destruct Hin as [<- | Hin]; [exact Hp|].
    apply IH; [intros z Hz; apply Hpq; right; exact Hz | lia | exact Hin | exact Hq].
  - destruct (q y) eqn:Hqy; cbn [List.length] in Hlen; [lia|].
    destruct Hin as [<- | Hin]; [congruence|].
    apply IH; [intros z Hz; apply Hpq; right; exact Hz | lia | exact Hin | exact Hq].
Qed.

(** With fewer than two hung threads, something can move unless
    everything has come to its end. *)
Lemma balanced_progress (sys : System) :
  permits_balanced sys -> (count_hung sys < 2)%nat ->
  forallb thread_done (threads sys) = true \/ exists i, can_move sys i = true.
Proof.
  intros [Hsum Hall] Hhung.
  destruct (some_thread_holds (threads sys)) as [(i & t & Hnth & Hhold & Hdone) | Hnone].
  - right. exists i. unfold can_move. rewrite Hnth.
    assert (Ht : thread_shape t).
    { rewrite Forall_forall in Hall. eapply Hall, nth_error_In, Hnth. }
    destruct (thread_shape_moves (permits sys) t Ht Hdone (or_introl Hhold))
      as (n & t' & ->). reflexivity.
  - destruct (some_thread_is_left (threads sys)) as [Hdone | (i & t & Hnth & Hdone)];
      [left; exact Hdone|].
    right. exists i. unfold can_move. rewrite Hnth.
    assert (Ht : thread_shape t).
    { rewrite Forall_forall in Hall. eapply Hall, nth_error_In, Hnth. }
    assert (Hfew : (count_holding sys <= count_hung sys)%nat).
    { unfold count_holding, count_hung. apply filter_length_le.
      intros x Hx Hhold. unfold hung. rewrite Hhold. cbn [andb].
      destruct (thread_done x) eqn:Hx'; [reflexivity|].
      rewrite (Hnone x Hx Hx') in Hhold. discriminate Hhold. }
    assert (Hfree : holding t = true \/ (0 < permits sys)%nat).
    { right. unfold SEMAPHORE_CAPACITY in Hsum. lia. }
    destruct (thread_shape_moves (permits sys) t Ht Hdone Hfree) as (n & t' & ->).
    reflexivity.
Qed.

(** With two hung threads, no thread ever moves again. *)
Lemma balanced_frozen (sys : System) (i : nat) :
  permits_balanced sys -> (2 <= count_hung sys)%nat -> system_step sys i = sys.
Proof.
  intros [Hsum Hall] Hhung.
  assert (Hsub : (count_hung sys <= count_holding sys)%nat).
  { unfold count_holding, count_hung. apply filter_length_le.
    intros x _ Hx. unfold hung in Hx. apply andb_prop in Hx. apply Hx. }
  unfold SEMAPHORE_CAPACITY in Hsum.
  assert (Hnone : permits sys = 0%nat) by lia.
  assert (Hall_hung : forall x, In x (threads sys) -> holding x = true -> hung x = true).
  { apply filter_length_same.
    - intros x _ Hx. unfold hung in Hx. apply andb_prop in Hx. apply Hx.
    - unfold count_holding, count_hung in *. lia. }
  unfold system_step.
  destruct (nth_error (threads sys) i) as [t|] eqn:Hnth; [|reflexivity].
  assert (Hin : In t (threads sys)) by (eapply nth_error_In, Hnth).
  assert (Ht : thread_shape t) by (rewrite Forall_forall in Hall; apply Hall, Hin).
  rewrite Hnone.
  destruct Ht as [rest Hrest | rest Hrest | ]; unfold thread_step; cbn [todo].
  - reflexivity.
  - specialize (Hall_hung _ Hin eq_refl). unfold hung, thread_done in Hall_hung.
    cbn [holding todo andb] in Hall_hung. destruct rest; [reflexivity | discriminate].
  - reflexivity.
Qed.

Lemma submit_jobs_returning (jobs : list (Job * option nat)) :
  all_return jobs = true -> submit_jobs jobs = submit (map fst jobs).
Proof.
  unfold submit_jobs, submit, all_return. intros H. f_equal.
  induction jobs as [|[j hangs] jobs IH]; [reflexivity|].
  cbn [forallb snd] in H. apply andb_prop in H. destruct H as [Hj H].
  destruct hangs; [discriminate|]. cbn [map fst snd thread_of]. f_equal. apply IH, H.
Qed.

(** The semaphore blocks the jobs for good exactly behind two jobs that
    hang inside the block.  However many jobs are submitted, whichever of
    them hang and however far a schedule has run them: the permits that
    are left and the threads inside the block add up to 2; as long as
    fewer than two threads hang, either every thread has come to its end
    or some thread can take its next step; once two threads hang, no
    schedule ever moves any thread again, so every job that has not
    acquired the semaphore waits for ever; and when no job hangs, the
    schedule can be continued so that every job finishes and both permits
    are free. *)
Theorem semaphore_blocks_behind_hung_jobs (jobs : list (Job * option nat))
    (schedule : list nat) :
  let sys := run_schedule schedule (submit_jobs jobs) in
  (permits sys + count_holding sys = SEMAPHORE_CAPACITY)%nat /\
  ((count_hung sys < 2)%nat ->
   forallb thread_done (threads sys) = true \/ exists i, can_move sys i = true) /\
  ((2 <= count_hung sys)%nat ->
   permits sys = 0%nat /\ forall more, run_schedule more sys = sys) /\
  (all_return jobs = true ->
   count_hung sys = 0%nat /\
   exists more,
     let last := run_schedule (schedule ++ more) (submit_jobs jobs) in
     forallb thread_done (threads last) = true /\ permits last = SEMAPHORE_CAPACITY).
Proof.
  cbv zeta.
  pose proof (run_schedule_balanced schedule _ (submit_jobs_balanced jobs)) as Hbal.
  split; [exact (proj1 Hbal)|]. split; [|split].
  - apply balanced_progress, Hbal.
  - intros Hhung. split.
    + destruct Hbal as [Hsum _].
      assert (Hsub : (count_hung (run_schedule schedule (submit_jobs jobs))
                      <= count_holding (run_schedule schedule (submit_jobs jobs)))%nat).
      { unfold count_holding, count_hung. apply filter_length_le.
        intros x _ Hx. unfold hung in Hx. apply andb_prop in Hx. apply Hx. }
      unfold SEMAPHORE_CAPACITY in Hsum. lia.
    + intros more. unfold run_schedule at 1.
      induction more as [|i more IH]; [reflexivity|].
      cbn [fold_left]. rewrite balanced_frozen by assumption. exact IH.
  - intros Hreturn. rewrite (submit_jobs_returning jobs Hreturn).
    pose proof (run_schedule_accounted schedule _ (submit_accounted (map fst jobs))) as Hacc.
    split.
    + destruct Hacc as [_ Hall]. unfold count_hung.
      assert (Hnone : forall l, Forall thread_state l -> filter hung l = []).
      { induction 1 as [|t l Ht Hl IH]; [reflexivity|]. cbn [filter].
        rewrite IH. destruct Ht as [body Hfree | body Hfree | ]; unfold hung, thread_done;
          cbn [holding todo andb]; try reflexivity.
        destruct body; reflexivity. }
      rewrite (Hnone _ Hall). reflexivity.
    + destruct (accounted_completes _ _ (Nat.le_refl _) Hacc) as (more & Hmore).
      exists more. unfold run_schedule in *. rewrite fold_left_app. exact Hmore.
Qed.

(** Two jobs that hang in their second call inside the block starve a
    third job that returns whenever it is let in. *)
Example hung_jobs_starve_the_third :
  let w := world_of (download_of h264_file repair_fails) h264_file repair_fails h264_file
             audio_extracted Commits Commits in
  let job := {| job_id := 7; job_link := sample_link; job_world := w;
                job_row := sample_row |} in
  let sys := run_schedule [0; 0; 0; 1; 1; 1; 2]%nat
               (submit_jobs [(job, Some 1%nat); (job, Some 1%nat); (job, None)]) in
  count_hung sys = 2%nat /\
  map thread_done (threads sys) = [true; true; false] /\
  map holding (threads sys) = [true; true; false].
Proof. cbv zeta. split; [reflexivity|]. split; reflexivity. Qed.

(** ** What a request is checked against *)

Lemma filter_chars_length (p : ascii -> bool) (s : string) :
  (String.length (Py.filter_chars p s) <= String.length s)%nat.
Proof.
  induction s as [|c s IH]; simpl; [lia|]. destruct (p c); simpl; lia.
Qed.

Lemma filter_chars_same (p : ascii -> bool) (s : string) :
  Py.all_chars p s = true -> Py.filter_chars p s = s.
Proof.
  induction s as [|c s IH]; simpl; [reflexivity|].
  intros H. apply andb_prop in H. destruct H as [Hc Hs].
  rewrite Hc, IH; auto.
Qed.

Lemma reverse_onto_length (acc s : string) :
  String.length (Py.reverse_onto acc s) = (String.length acc + String.length s)%nat.
Proof.
  revert acc. induction s as [|c s IH]; intros acc; simpl; [lia|].
  rewrite IH. simpl. lia.
Qed.

Lemma lstrip_length (s : string) :
  (String.length (Py.lstrip s) <= String.length s)%nat.
Proof.
  induction s as [|c s IH]; simpl; [lia|]. destruct (Py.isspace c); simpl; lia.
Qed.

Lemma strip_length (s : string) :
  (String.length (Py.strip s) <= String.length s)%nat.
Proof.
  unfold Py.strip. rewrite reverse_onto_length. simpl.
  etransitivity; [apply lstrip_length|].
  rewrite reverse_onto_length. simpl. apply lstrip_length.
Qed.

Lemma reverse_onto_all_chars (p : ascii -> bool) (acc s : string) :
  Py.all_chars p (Py.reverse_onto acc s) = Py.all_chars p acc && Py.all_chars p s.
Proof.
  revert acc. induction s as [|c s IH]; intros acc; simpl.
  - rewrite andb_true_r. reflexivity.
  - rewrite IH. simpl. destruct (p c), (Py.all_chars p acc), (Py.all_chars p s); reflexivity.
Qed.

Lemma lstrip_all_chars (p : ascii -> bool) (s : string) :
  Py.all_chars p s = true -> Py.all_chars p (Py.lstrip s) = true.
Proof.
  induction s as [|c s IH]; simpl; [reflexivity|].
  intros H. destruct (Py.isspace c); [|exact H].
  apply andb_prop in H. apply IH, H.
Qed.

Lemma strip_all_chars (p : ascii -> bool) (s : string) :
  Py.all_chars p s = true -> Py.all_chars p (Py.strip s) = true.
Proof.
  intros H. unfold Py.strip.
  rewrite reverse_onto_all_chars. simpl. apply lstrip_all_chars.
  rewrite reverse_onto_all_chars. simpl. apply lstrip_all_chars, H.
Qed.

(** Whatever the text, [sanitize_input] returns a text without angle
    brackets, quotes, ampersands and semicolons that is no longer than
    the text; an ASCII text that has none of these characters loses only
    the white space around it. *)
Theorem sanitize_input_is_safe (text : string) :
  Py.all_chars (fun c => negb (dangerous_char c)) (sanitize_input text) = true /\
  (String.length (sanitize_input text) <= String.length text)%nat /\
  (PyStr.is_ascii text = true ->
   Py.all_chars (fun c => negb (dangerous_char c)) text = true ->
   sanitize_input text = Py.strip text).
Proof.
  unfold sanitize_input. destruct text as [|c text].
  - split; [reflexivity|]. split; [apply Nat.le_refl|]. intros _ _. reflexivity.
  - split; [apply filter_chars_all|]. split.
    + etransitivity; [apply filter_chars_length | apply strip_length].
    + intros _ H. apply filter_chars_same, strip_all_chars, H.
Qed.

Lemma many_accepts (class : ascii -> bool) (s : string) :
  Re.many class (fun _ => true) s = true.
Proof.
  induction s as [|c s IH]; simpl; [reflexivity|]. apply orb_true_r.
Qed.

Lemma many1_accepts (class : ascii -> bool) (s : string) :
  s <> "" -> Py.all_chars class s = true ->
  Re.matches (Re.Many1 class) (fun _ => true) s = true.
Proof.
  destruct s as [|c s]; [congruence|]. intros _ H. cbn in *.
  apply andb_prop in H. destruct H as [-> _]. apply many_accepts.
Qed.

Lemma all_chars_weaken (p q : ascii -> bool) (s : string) :
  (forall c, p c = true -> q c = true) ->
  Py.all_chars p s = true -> Py.all_chars q s = true.
Proof.
  intros Hpq. induction s as [|c s IH]; simpl; [reflexivity|].
  intros H. apply andb_prop in H. destruct H as [Hc Hs].
  rewrite (Hpq c Hc). apply IH, Hs.
Qed.

Lemma id_lacks (c : ascii) (id : string) :
  is_id_char c = false -> Py.all_chars is_id_char id = true -> lacks c id = true.
Proof.
  intros Hc. unfold lacks. apply all_chars_weaken. intros d Hd.
  destruct (Ascii.eqb d c) eqn:E; [|reflexivity].
  apply Ascii.eqb_eq in E. congruence.
Qed.

Lemma prefix_lacks (c : ascii) (needle s : string) :
  String.prefix needle s = true -> lacks c s = true -> lacks c needle = true.
Proof.
  unfold lacks. revert s. induction needle as [|a needle IH]; intros s Hp Hs; [reflexivity|].
  destruct s as [|d s]; [discriminate Hp|]. simpl in *.
  destruct (Ascii.ascii_dec a d) as [->|_]; [|discriminate Hp].
  apply andb_prop in Hs. destruct Hs as [Hd Hs].
  rewrite Hd. exact (IH s Hp Hs).
Qed.

Lemma contains_lacks (c : ascii) (needle s : string) :
  lacks c needle = false -> lacks c s = true -> Py.contains needle s = false.
Proof.
  intros Hneedle. induction s as [|d s IH]; intros Hs; rewrite contains_unfold.
  - destruct (String.prefix needle "") eqn:Hp; [|reflexivity].
    rewrite (prefix_lacks c needle "" Hp Hs) in Hneedle. discriminate Hneedle.
  - destruct (String.prefix needle (String d s)) eqn:Hp.
    + rewrite (prefix_lacks c needle _ Hp Hs) in Hneedle. discriminate Hneedle.
    + apply IH. unfold lacks in *. simpl in Hs. apply andb_prop in Hs. apply Hs.
Qed.

Lemma split_absent (sep s : string) :
  Py.contains sep s = false -> PyStr.split_from sep 0 s = [s].
Proof.
  induction s as [|c s IH]; intros H; [reflexivity|].
  rewrite contains_unfold in H. apply orb_false_iff in H. destruct H as [Hp Hs].
  cbn [PyStr.split_from]. rewrite Hp, IH by exact Hs. reflexivity.
Qed.

Lemma prefix_nil (s : string) : String.prefix "" s = true.
Proof. destruct s; reflexivity. Qed.

Lemma id_char_facts (id : string) :
  Py.all_chars is_id_char id = true ->
  lacks "=" id = true /\ lacks "&" id = true /\ lacks "?" id = true /\ lacks "." id = true.
Proof.
  intros H. repeat split; (apply id_lacks; [reflexivity | exact H]).
Qed.

Lemma watch_url_is_valid (secure www : bool) (id : string) :
  id <> "" -> Py.all_chars is_id_char id = true ->
  is_valid_youtube_url (watch_url secure www id) = true.
Proof.
  intros Hne Hid. destruct id as [|c id]; [congruence|].
  cbn [Py.all_chars] in Hid. apply andb_prop in Hid. destruct Hid as [Hc _].
  unfold is_valid_youtube_url, youtube_patterns, scheme, Re.re_match, watch_url.
  destruct secure, www; simpl; rewrite Hc, many_accepts; reflexivity.
Qed.

Lemma short_url_is_valid (secure : bool) (id : string) :
  id <> "" -> Py.all_chars is_id_char id = true ->
  is_valid_youtube_url (short_url secure id) = true.
Proof.
  intros Hne Hid. destruct id as [|c id]; [congruence|].
  cbn [Py.all_chars] in Hid. apply andb_prop in Hid. destruct Hid as [Hc _].
  unfold is_valid_youtube_url, youtube_patterns, scheme, Re.re_match, short_url.
  destruct secure; simpl; rewrite Hc, many_accepts; simpl; auto using orb_true_r.
Qed.

Lemma embed_url_is_valid (secure www : bool) (id : string) :
  id <> "" -> Py.all_chars is_id_char id = true ->
  is_valid_youtube_url (embed_url secure www id) = true.
Proof.
  intros Hne Hid. destruct id as [|c id]; [congruence|].
  cbn [Py.all_chars] in Hid. apply andb_prop in Hid. destruct Hid as [Hc _].
  unfold is_valid_youtube_url, youtube_patterns, scheme, Re.re_match, embed_url.
  destruct secure, www; simpl; rewrite Hc, many_accepts; simpl; auto using orb_true_r.
Qed.

Lemma watch_url_id (secure www : bool) (id : string) :
  Py.all_chars is_id_char id = true ->
  extract_video_id (watch_url secure www id) = Some id.
Proof.
  intros Hid. destruct (id_char_facts id Hid) as (Heq & Hamp & _ & _).
  assert (Hv : PyStr.split_from "v=" 0 id = [id]).
  { apply split_absent, (contains_lacks "="); [reflexivity | exact Heq]. }
  assert (Ha : PyStr.split_from "&" 0 id = [id]).
  { apply split_absent, (contains_lacks "&"); [reflexivity | exact Hamp]. }
  unfold extract_video_id, watch_url, PyStr.split, PyStr.last, PyStr.first.
  destruct secure, www; simpl; rewrite prefix_nil; simpl; rewrite Hv; simpl;
    rewrite Ha; reflexivity.
Qed.

Lemma short_url_id (secure : bool) (id : string) :
  Py.all_chars is_id_char id = true ->
  extract_video_id (short_url secure id) = Some id.
Proof.
  intros Hid. destruct (id_char_facts id Hid) as (Heq & _ & Hq & Hdot).
  assert (Hv : Py.contains "v=" id = false).
  { apply (contains_lacks "="); [reflexivity | exact Heq]. }
  assert (Hy : PyStr.split_from "youtu.be/" 0 id = [id]).
  { apply split_absent, (contains_lacks "."); [reflexivity | exact Hdot]. }
  assert (Ha : PyStr.split_from "?" 0 id = [id]).
  { apply split_absent, (contains_lacks "?"); [reflexivity | exact Hq]. }
  unfold extract_video_id, short_url, PyStr.split, PyStr.last, PyStr.first.
  destruct secure; simpl; rewrite Hv, prefix_nil; simpl; rewrite Hy; simpl;
    rewrite Ha; reflexivity.
Qed.

Lemma embed_url_id (secure www : bool) (id : string) :
  Py.all_chars is_id_char id = true ->
  extract_video_id (embed_url secure www id) = None.
Proof.
  intros Hid. destruct (id_char_facts id Hid) as (Heq & _ & _ & Hdot).
  assert (Hv : Py.contains "v=" id = false).
  { apply (contains_lacks "="); [reflexivity | exact Heq]. }
  assert (Hy : Py.contains "youtu.be/" id = false).
  { apply (contains_lacks "."); [reflexivity | exact Hdot]. }
  unfold extract_video_id, embed_url.
  destruct secure, www; simpl; rewrite Hv; simpl; rewrite Hy; reflexivity.
Qed.

(** A watch link and a short link with an id of letters, digits,
    underscores and hyphens pass the validation, with or without [https]
    and [www.], and the id that [add_video_route] takes from the link is
    that id. *)
Theorem canonical_links_round_trip (secure www : bool) (id : string) :
  id <> "" -> Py.all_chars is_id_char id = true ->
  is_valid_youtube_url (watch_url secure www id) = true /\
  extract_video_id (watch_url secure www id) = Some id /\
  is_valid_youtube_url (short_url secure id) = true /\
  extract_video_id (short_url secure id) = Some id.
Proof.
  intros Hne Hid. split; [|split; [|split]].
  - apply watch_url_is_valid; assumption.
  - apply watch_url_id; assumption.
  - apply short_url_is_valid; assumption.
  - apply short_url_id; assumption.
Qed.

Lemma canonical_links_round_trip_witness :
  is_valid_youtube_url "https://www.youtube.com/watch?v=dQw4w9WgXcQ" = true /\
  extract_video_id "https://www.youtube.com/watch?v=dQw4w9WgXcQ" = Some "dQw4w9WgXcQ" /\
  is_valid_youtube_url "https://youtu.be/dQw4w9WgXcQ" = true /\
  extract_video_id "https://youtu.be/dQw4w9WgXcQ" = Some "dQw4w9WgXcQ".
Proof.
  apply (canonical_links_round_trip true true "dQw4w9WgXcQ"); [discriminate | reflexivity].
Defined.

(** ** The routes *)

Ltac route_unfold :=
  unfold serve, get_video_by_id, get_user_by_username, add_video, add_question, execute, commit, select_execute,
    connection_cursor, cursor_close, get_db_connection, session_get, json_get, json_strip,
    flash, route_finally, route_try_on, route_try, route_bind, call, perform, answer,
    route_raise, raise, ret, observe in *.

Ltac plain x :=
  lazymatch x with
  | context [match _ with _ => _ end] => fail
  | _ => idtac
  end.

Ltac route_split :=
  match goal with
  | |- context [if ?c then _ else _] => plain c; destruct c eqn:?
  | |- context [match ?x with _ => _ end] => plain x; destruct x eqn:?
  end.

Ltac route_cbn :=
  cbn [fst snd negb andb app effects subprocesses exn_cls is_mysql_error
         exn_class_eqb] in *.

Ltac route_cases := route_cbn; repeat (route_split; route_cbn).

Lemma metadata_calls_return (link : string) (run : result CompletedProcess) (s : St) :
  (exists fetched s', get_video_title_from_youtube link run s = (Returns fetched, s')) /\
  (exists fetched s', get_video_description_from_youtube link run s = (Returns fetched, s')).
Proof.
  unfold get_video_title_from_youtube, get_video_description_from_youtube,
    try_except, bind, emit, observe, ret.
  split; destruct run as [result|e]; cbn [fst snd]; try (do 2 eexists; reflexivity).
  - destruct (returncode result =? 0)%Z; do 2 eexists; reflexivity.
  - destruct (returncode result =? 0)%Z; [|do 2 eexists; reflexivity].
    destruct (Py.truthy _ && _); do 2 eexists; reflexivity.
Qed.

(** For a form value of ASCII text, [add_video_route] starts a download
    only for a logged-in user whose trimmed link passes the validation
    and yields an id, after the row was inserted and committed and the
    database gave it an id other than 0.  The job then is for that id and
    the trimmed link, nothing else is written or started, and the answer
    is a redirect to the dashboard. *)
Theorem add_video_route_starts_job (sess : Session) (form_link : string) (o : AddVideoObs)
    (s : St) (db_id : Z) (link : string) :
  PyStr.is_ascii form_link = true ->
  let run := serve (add_video_route sess form_link o) s in
  In (StartDownload db_id link) (effects (snd run)) ->
  s_user sess <> None /\
  link = Py.strip form_link /\
  is_valid_youtube_url link = true /\
  in_lastrowid (av_insert o) = Some db_id /\ db_id <> 0%Z /\
  (exists youtube_id title description user_id user_role,
      extract_video_id link = Some youtube_id /\
      s_user_id sess = Some user_id /\ s_user_role sess = Some user_role /\
      effects (snd run)
      = [ InsertVideo link youtube_id title description
            ("https://img.youtube.com/vi/" ++ youtube_id ++ "/0.jpg") user_id user_role;
          Commit;
          StartDownload db_id link;
          Flash "Video added successfully! Download started in background." "success" ]) /\
  fst run = Returns (RedirectTo "/dashboard").
Proof.
  intros _. cbv zeta. unfold add_video_route.
  destruct (s_user sess) as [user|] eqn:Huser; [|intros []].
  destruct (negb (Py.truthy (Some (Py.strip form_link)))) eqn:Hempty;
    [intros [H|[]]; discriminate H|].
  destruct (negb (is_valid_youtube_url (Py.strip form_link))) eqn:Hvalid;
    [intros [H|[]]; discriminate H|].
  apply negb_false_iff in Hvalid.
  destruct (extract_video_id (Py.strip form_link)) as [youtube_id|] eqn:Hid;
    [|intros [H|[]]; discriminate H].
  route_unfold.
  destruct (metadata_calls_return (Py.strip form_link) (av_title o) s)
    as [(fetched & s1 & Htitle) _].
  destruct (metadata_calls_return (Py.strip form_link) (av_description o) s1)
    as [_ (described & s2 & Hdescription)].
  cbn [subprocesses effects]. rewrite Htitle. cbn [subprocesses effects].
  rewrite Hdescription. cbn [subprocesses effects].
  destruct (s_user_id sess) as [user_id|] eqn:Huid; [|intros []].
  destruct (s_user_role sess) as [user_role|] eqn:Hrole; [|intros []].
  destruct (av_insert o) as [db lastrowid]. cbn [in_db in_lastrowid].
  destruct db; route_cases.
  all: cbn [fst snd app effects subprocesses In].
  all: intros Hin; repeat (destruct Hin as [Hin|Hin]; try discriminate Hin);
    try contradiction.
  all: injection Hin as Hz Hl; subst.
  all: match goal with H : negb (_ =? 0)%Z = true |- _ =>
         apply negb_true_iff, Z.eqb_neq in H end.
  all: repeat split; try congruence; try exact Hvalid.
  all: do 5 eexists; repeat split; try eassumption; reflexivity.
Qed.

Lemma add_video_route_starts_job_witness :
  fst (serve (add_video_route logged_in " https://youtu.be/dQw4w9WgXcQ " accepted_link)
         (state_of sample_row))
  = Returns (RedirectTo "/dashboard").
Proof.
  assert (Hin : In (StartDownload 7 "https://youtu.be/dQw4w9WgXcQ")
                  (effects (snd (serve (add_video_route logged_in
                                          " https://youtu.be/dQw4w9WgXcQ " accepted_link)
                                   (state_of sample_row)))))
    by (vm_compute; right; right; left; reflexivity).
  exact (proj2 (proj2 (proj2 (proj2 (proj2 (proj2
    (add_video_route_starts_job logged_in " https://youtu.be/dQw4w9WgXcQ " accepted_link
       (state_of sample_row) 7%Z "https://youtu.be/dQw4w9WgXcQ" eq_refl Hin))))))).
Defined.

(** An embed link passes [is_valid_youtube_url], but [add_video_route]
    takes no id from it: the route flashes that the link is invalid and
    redirects to the dashboard without asking for metadata, writing to
    the database or starting a download. *)
Theorem embed_links_are_turned_away (sess : Session) (form_link : string) (o : AddVideoObs)
    (s : St) (secure www : bool) (id : string) :
  s_user sess <> None ->
  Py.strip form_link = embed_url secure www id ->
  id <> "" -> Py.all_chars is_id_char id = true ->
  is_valid_youtube_url (Py.strip form_link) = true /\
  serve (add_video_route sess form_link o) s
  = (Returns (RedirectTo "/dashboard"),
     {| subprocesses := s; effects := [Flash "Invalid YouTube link" "error"] |}).
Proof.
  intros Huser Hlink Hne Hid. rewrite Hlink.
  split; [apply embed_url_is_valid; assumption|].
  unfold serve, add_video_route. rewrite Hlink.
  destruct (s_user sess); [|congruence].
  rewrite (embed_url_is_valid secure www id Hne Hid).
  rewrite (embed_url_id secure www id Hid).
  assert (Htruthy : Py.truthy (Some (embed_url secure www id)) = true)
    by (destruct secure, www; reflexivity).
  rewrite Htruthy. reflexivity.
Qed.

Lemma embed_links_are_turned_away_witness :
  is_valid_youtube_url "https://www.youtube.com/embed/dQw4w9WgXcQ" = true /\
  serve (add_video_route logged_in "https://www.youtube.com/embed/dQw4w9WgXcQ" accepted_link)
    (state_of sample_row)
  = (Returns (RedirectTo "/dashboard"),
     {| subprocesses := state_of sample_row;
        effects := [Flash "Invalid YouTube link" "error"] |}).
Proof.
  apply (embed_links_are_turned_away logged_in "https://www.youtube.com/embed/dQw4w9WgXcQ"
           accepted_link (state_of sample_row) true true "dQw4w9WgXcQ");
    [discriminate | reflexivity | discriminate | reflexivity].
Defined.

(** [delete_video] removes nothing without permission: when a run
    removes a folder or deletes a row, the user is logged in, the video
    was found, and the user added it or is an admin; what is removed is
    the folder of that video and the row with its id.  The message of
    success is flashed only when the [DELETE] was committed or when no
    connection to the database was made, in which case the row stays. *)
Theorem delete_video_needs_permission (sess : Session) (video_id : Z) (o : DeleteObs) (s : St) :
  let run := serve (delete_video sess video_id o) s in
  (forall ev, In ev (effects (snd run)) -> is_removal ev = true ->
     (ev = Rmtree (job_folder video_id) \/ ev = DeleteVideo video_id) /\
     exists user video user_id,
       s_user sess = Some user /\ lk_row (dl_lookup o) = Some video /\
       s_user_id sess = Some user_id /\
       (added_by video = user_id \/ s_user_role sess = Some "admin")) /\
  (In (Flash "Video deleted successfully" "success") (effects (snd run)) ->
   In Commit (effects (snd run)) \/ dl_db o = NoConnection).
Proof.
  cbv zeta. unfold delete_video, get_video_folder, bind.
  change (OsPath.join BASE_DOWNLOAD_FOLDER ("video_" ++ Py.str_of_int video_id))
    with (job_folder video_id).
  route_unfold.
  destruct (dl_lookup o) as [db found]. cbn [lk_db lk_row].
  destruct (s_user sess) as [user|]; [|split; [intros ev []|intros []]].
  destruct db, (dl_db o) eqn:Hdb; route_cases.
  all: cbn [fst snd app effects subprocesses In].
  all: split;
    [ intros ev Hin Hrm;
      repeat (destruct Hin as [Hin|Hin]; try (subst ev; discriminate Hrm));
      try contradiction
    | intros Hin;
      repeat (destruct Hin as [Hin|Hin]; try discriminate Hin); try contradiction;
      auto 6 ].
  all: subst ev.
  all: (split; [auto|]).
  all: do 3 eexists; repeat split; try reflexivity.
  all: repeat match goal with
       | H : negb _ = false |- _ => apply negb_false_iff in H
       end.
  all: match goal with
       | H : (_ =? _)%Z = true |- _ => apply Z.eqb_eq in H; left; exact H
       | H : String.eqb _ "admin" = true |- _ =>
           apply String.eqb_eq in H; right; rewrite H; reflexivity
       end.
Qed.

Ltac turn_down :=
  solve [cbn [fst snd app effects subprocesses];
         split; [cbn; auto 6 | repeat constructor]].

(** For a request whose question is ASCII text, or that has none,
    [ask_question] does not raise and answers with JSON.  It accepts a
    question only from a logged-in user, when the request holds an object
    whose [question] is a string of 5 to 500 characters once trimmed, the
    video exists, and the question was inserted and committed under an id
    other than 0; it then starts exactly one answer job, for that id and
    that question, and answers with the id and status 200.  Every other
    request is answered with an error and one of the statuses 400, 401,
    404 and 500, and starts no answer job. *)
Theorem ask_question_replies (sess : Session) (video_id : Z) (o : AskObs) (s : St) :
  ascii_question o = true ->
  let run := serve (ask_question sess video_id o) s in
  match fst run with
  | Returns (Jsonify (QuestionSaved id) status) =>
      status = 200%Z /\ id <> 0%Z /\
      exists user user_id fields raw video,
        s_user sess = Some user /\ s_user_id sess = Some user_id /\
        aq_json o = Returns (JObject fields) /\
        lookup_field "question" fields = Some (JString raw) /\
        (5 <= String.length (Py.strip raw) <= 500)%nat /\
        lk_row (aq_lookup o) = Some video /\
        in_lastrowid (aq_insert o) = Some id /\
        effects (snd run)
        = [ InsertQuestion video_id user_id (Py.strip raw);
            Commit;
            StartAnswer id video_id (Py.strip raw)
              (title (stored video)) (description (stored video)) ]
  | Returns (Jsonify (ErrorBody _) status) =>
      In status [400; 401; 404; 500]%Z /\
      Forall (fun e => is_answer_job e = false) (effects (snd run))
  | _ => False
  end.
Proof.
  intros _.
  cbv zeta. unfold ask_question. route_unfold.
  destruct (aq_lookup o) as [db found], (aq_insert o) as [idb lastrowid].
  cbn [lk_db lk_row in_db in_lastrowid].
  destruct (s_user sess) as [user|]; [|turn_down].
  destruct (aq_json o) as [data|e] eqn:Hjson; cbn [fst snd subprocesses effects];
    [|turn_down].
  destruct (negb (json_truthy data)) eqn:Htruthy; cbn [fst snd]; [turn_down|].
  destruct data as [ | b | n | text | items | fields ]; cbn [fst snd]; try turn_down.
  destruct (lookup_field "question" fields) as [field|] eqn:Hfield; cbn [fst snd].
  2: { destruct (negb (Py.truthy (Some (Py.strip "")))) eqn:Hnone; [turn_down|].
       discriminate Hnone. }
  destruct field as [ | b | n | raw | items | inner ]; cbn [fst snd]; try turn_down.
  destruct (negb (Py.truthy (Some (Py.strip raw)))); cbn [fst snd]; [turn_down|].
  destruct (String.length (Py.strip raw) <? 5)%nat eqn:Hshort; cbn [fst snd]; [turn_down|].
  destruct (500 <? String.length (Py.strip raw))%nat eqn:Hlong; cbn [fst snd]; [turn_down|].
  apply Nat.ltb_ge in Hshort, Hlong.
  destruct db, idb; route_cases.
  all: cbn [fst snd app effects subprocesses].
  all: try turn_down.
  all: split; [reflexivity|].
  all: match goal with H : negb (_ =? 0)%Z = true |- _ =>
         apply negb_true_iff, Z.eqb_neq in H end.
  all: split; [assumption|].
  all: do 5 eexists; repeat split; try eassumption; try reflexivity.
Qed.

Lemma ask_question_replies_witness :
  let run := serve (ask_question logged_in 7 asked) (state_of sample_row) in
  ascii_question asked = true /\
  fst run = Returns (Jsonify (QuestionSaved 11) 200) /\
  match fst run with
  | Returns (Jsonify (QuestionSaved id) status) =>
      status = 200%Z /\ id <> 0%Z /\
      exists user user_id fields raw video,
        s_user logged_in = Some user /\ s_user_id logged_in = Some user_id /\
        aq_json asked = Returns (JObject fields) /\
        lookup_field "question" fields = Some (JString raw) /\
        (5 <= String.length (Py.strip raw) <= 500)%nat /\
        lk_row (aq_lookup asked) = Some video /\
        in_lastrowid (aq_insert asked) = Some id /\
        effects (snd run)
        = [ InsertQuestion 7 user_id (Py.strip raw);
            Commit;
            StartAnswer id 7 (Py.strip raw)
              (title (stored video)) (description (stored video)) ]
  | Returns (Jsonify (ErrorBody _) status) =>
      In status [400; 401; 404; 500]%Z /\
      Forall (fun e => is_answer_job e = false) (effects (snd run))
  | _ => False
  end.
Proof.
  cbv zeta. split; [reflexivity|]. split; [reflexivity|].
  exact (ask_question_replies logged_in 7 asked (state_of sample_row) eq_refl).
Defined.

(** [download_video] sends a file only to a logged-in user and only
    after a check: the file sent is the stored file when
    [validate_video_file] has just called it valid, and otherwise what
    [repair_video_file] returned with success for it.  It is sent as an
    attachment exactly when the request says [download=true]. *)
Theorem download_video_sends_checked_file (sess : Session) (video_id : Z) (o : ServeObs)
    (s : St) (path : string) (as_attachment : bool) :
  fst (serve (download_video sess video_id o) s) = Returns (SendFile path as_attachment) ->
  s_user sess <> None /\
  (as_attachment = true <-> sv_download o = Some "true") /\
  exists video stored_path message,
    lk_row (sv_lookup o) = Some video /\
    video_path (stored video) = Some stored_path /\
    sv_exists o = true /\
    ((fst (validate_video_file stored_path (sv_validate o) s) = Returns (true, message) /\
      path = Py.replace "\" "/" stored_path)
     \/
     (fst (validate_video_file stored_path (sv_validate o) s) = Returns (false, message) /\
      exists s1 repaired_path,
        fst (repair_video_file stored_path (job_folder video_id) (sv_repair o) s1)
        = Returns (true, repaired_path) /\
        path = Py.replace "\" "/" repaired_path)).
Proof.
  unfold download_video, get_video_folder, bind.
  change (OsPath.join BASE_DOWNLOAD_FOLDER ("video_" ++ Py.str_of_int video_id))
    with (job_folder video_id).
  route_unfold.
  destruct (sv_lookup o) as [db found]. cbn [lk_db lk_row].
  destruct (s_user sess) as [user|]; [|discriminate].
  destruct db; route_cbn; try (destruct (is_mysql_error (exn_cls e))); route_cbn;
    try (intros H; discriminate H).
  all: destruct found as [video|]; route_cbn; try (intros H; discriminate H).
  all: destruct (video_path (stored video)) as [stored_path|] eqn:Hpath;
    cbn [Py.truthy Py.value andb]; route_cbn; try (intros H; discriminate H).
  all: route_cases.
  all: cbn [fst snd]; intros Hsent; try discriminate Hsent.
  all: injection Hsent as Hp Ha; subst path as_attachment.
  all: (split; [discriminate|]).
  all: split;
    [ first [ split; [reflexivity | intros _; reflexivity]
            | split; [discriminate | intros H; discriminate H]
            | split; [discriminate|]; intros H; injection H as ->;
              match goal with E : String.eqb _ _ = false |- _ =>
                rewrite String.eqb_refl in E; discriminate E end
            | split; [intros _|reflexivity];
              match goal with E : String.eqb _ _ = true |- _ =>
                apply String.eqb_eq in E; rewrite E; reflexivity end ]|].
  all: match goal with H : (_ && _)%bool = true |- _ => apply andb_prop in H; destruct H end.
  all: repeat match goal with
       | H : negb ?b = true |- _ => apply negb_true_iff in H; try subst b
       | H : negb ?b = false |- _ => apply negb_false_iff in H; try subst b
       end.
  all: do 3 eexists; split; [reflexivity|]; split; [exact Hpath|]; split; [assumption|].
  all: match goal with
       | H : validate_video_file _ _ _ = _ |- _ => rewrite H; cbn [fst]
       end.
  all: first
    [ left; split; reflexivity
    | right; split; [reflexivity|]; do 2 eexists;
      match goal with
      | H : repair_video_file _ _ _ _ = _ |- _ => rewrite H; cbn [fst]
      end; split; reflexivity ].
Qed.

Lemma download_video_sends_checked_file_witness :
  fst (serve (download_video logged_in 7 stored_video) (state_of sample_row))
  = Returns (SendFile "static/downloads/video_7/video_1700000000.mp4" false) /\
  s_user logged_in <> None.
Proof.
  assert (Hsent : fst (serve (download_video logged_in 7 stored_video) (state_of sample_row))
                  = Returns (SendFile "static/downloads/video_7/video_1700000000.mp4" false))
    by (vm_compute; reflexivity).
  split; [exact Hsent|].
  exact (proj1 (download_video_sends_checked_file logged_in 7 stored_video
                  (state_of sample_row) _ _ Hsent)).
Defined.

(** [login] opens a session only for a [POST] whose user name is not
    empty once sanitized and whose password is not empty and equals the
    password stored in the row that the lookup returned; the session then
    holds the name, the id and the role of that row, and the answer is a
    redirect to the dashboard. *)
Theorem login_checks_password (method : Method) (form_username form_password : string)
    (o : UserLookupObs) (s : St) (name : string) (id : Z) (role : string) :
  let run := serve (login method form_username form_password o) s in
  In (LogIn name id role) (effects (snd run)) ->
  method = POST /\ form_password <> "" /\ sanitize_input form_username <> "" /\
  (exists user,
      ul_row o = Some user /\ u_password user = form_password /\
      name = u_username user /\ id = u_id user /\ role = u_role user) /\
  fst run = Returns (RedirectTo "/dashboard").
Proof.
  cbv zeta. unfold login.
  destruct method; [intros []|].
  destruct (negb (Py.truthy (Some (sanitize_input form_username)))) eqn:Hname;
    [intros [H|[]]; discriminate H|].
  destruct (negb (Py.truthy (Some form_password))) eqn:Hpassword;
    [intros [H|[]]; discriminate H|].
  cbn [orb]. route_unfold.
  destruct o as [db found]. cbn [ul_db ul_row].
  destruct db; route_cases.
  all: cbn [fst snd app effects subprocesses In].
  all: intros Hin; repeat (destruct Hin as [Hin|Hin]; try discriminate Hin);
    try contradiction.
  all: injection Hin as Hn Hi Hr; subst.
  all: match goal with H : String.eqb _ _ = true |- _ => apply String.eqb_eq in H end.
  all: split; [reflexivity|].
  all: split; [intros ->; discriminate Hpassword|].
  all: split; [intros Hempty; rewrite Hempty in Hname; discriminate Hname|].
  all: split; [eexists; repeat split; assumption | reflexivity].
Qed.

Lemma login_checks_password_witness :
  fst (serve (login POST "ada" "analytical" ada) (state_of sample_row))
  = Returns (RedirectTo "/dashboard").
Proof.
  assert (Hin : In (LogIn "ada" 3 "user")
                  (effects (snd (serve (login POST "ada" "analytical" ada)
                                   (state_of sample_row)))))
    by (vm_compute; left; reflexivity).
  exact (proj2 (proj2 (proj2 (proj2
    (login_checks_password POST "ada" "analytical" ada (state_of sample_row)
       "ada" 3%Z "user" Hin))))).
Defined.
